(** * Slack channel downloader: shallow embedding and verified properties

    The first part embeds the Python package:
    - [Py]         : the few notions of the Python runtime the sources rely on
                     (truthiness, exceptions, a state-and-exception monad);
    - [Extract]    : [downloader.py], [extract_files_from_messages];
    - [Datetime]   : the two calls of the standard [datetime] module that
                     [utils.py] makes;
    - [Utils]      : [utils.py] (date conversion, mention substitution);
    - [Client]     : [client.py] (paginated history, user directory);
    - [Downloader] : [downloader.py], the [FileDownloader] class.
    The modules whose name ends in [Spec] hold the notions in which the
    specification speaks of the package, and [Scenario] a few scripted
    platforms and networks. The second part states and proves the
    properties, file by file.

    Python [str] values are [string]; the scanners of [utils.py] work on the
    list of characters of a string.  JSON objects received from the platform
    are records whose optional keys are [option] fields: [None] stands for
    an absent key (what [dict.get] answers with its default). *)

From Stdlib Require Import ZArith Ascii String List Lia Sorted.
From Stdlib Require Import DecimalString DecimalZ DecimalPos.
From stdpp Require Import base option list gmap strings.

Local Open Scope string_scope.
Local Open Scope list_scope.
Local Open Scope Z_scope.

(* ===================================================================== *)
(** * Python runtime notions *)
(* ===================================================================== *)

Module Py.

(** [bool(s)] for a string that may be absent ([None] and the empty string
    are falsy). *)
Definition truthy_str (o : option string) : bool :=
  match o with
  | Some s => negb (String.eqb s EmptyString)
  | None => false
  end.

(** [bool(l)] for a list that may be absent. *)
Definition truthy_list {A} (o : option (list A)) : bool :=
  match o with
  | Some (_ :: _) => true
  | _ => false
  end.

(** [bool(x)] for a number that may be absent ([None] and zero are falsy). *)
Definition truthy_num (o : option Z) : bool :=
  match o with
  | Some z => negb (z =? 0)
  | None => false
  end.

(** [bool(b)] for a flag that may be absent. *)
Definition truthy_flag (o : option bool) : bool :=
  match o with
  | Some b => b
  | None => false
  end.

(** The exceptions that occur in the package.  [SlackApiError] is raised by
    the platform SDK and carries the remote error code
    ([e.response["error"]]); [RequestException] stands for the failures of
    the HTTP library (connection errors and the like). *)
Inductive exn : Type :=
| SlackApiError (error : string)
| SlackApiException (message : string) (error_code : string)
| DownloadError (message : string)
| ValueError (message : string)
| RequestException (message : string).

(** Outcome of a computation: a value, a raised exception, or exhaustion of
    the fuel that bounds a [while True] loop. *)
Inductive res (A : Type) : Type :=
| Val (a : A)
| Exc (e : exn)
| OutOfFuel.
Arguments Val {A} a.
Arguments Exc {A} e.
Arguments OutOfFuel {A}.

(** Computations over a world [W]. *)
Definition M (W A : Type) : Type := W -> res A * W.

Definition ret {W A} (a : A) : M W A := fun w => (Val a, w).

Definition bind {W A B} (m : M W A) (k : A -> M W B) : M W B :=
  fun w =>
    match m w with
    | (Val a, w') => k a w'
    | (Exc e, w') => (Exc e, w')
    | (OutOfFuel, w') => (OutOfFuel, w')
    end.

Definition raise {W A} (e : exn) : M W A := fun w => (Exc e, w).

Definition out_of_fuel {W A} : M W A := fun w => (OutOfFuel, w).

Definition modify {W} (f : W -> W) : M W unit := fun w => (Val tt, f w).

(** [try: m  except <handled> as e: h e]: the handler answers [None] for an
    exception the [except] clause does not name, which then propagates. *)
Definition try_except {W A} (m : M W A) (h : exn -> option (M W A)) : M W A :=
  fun w =>
    match m w with
    | (Exc e, w') =>
        match h e with
        | Some k => k w'
        | None => (Exc e, w')
        end
    | r => r
    end.

(** Lifting of a pure computation that may raise. *)
Definition lift {W A} (r : exn + A) : M W A :=
  match r with
  | inl e => raise e
  | inr a => ret a
  end.

(** [when b m]: [if b: m]. *)
Definition when {W} (b : bool) (m : M W unit) : M W unit :=
  if b then m else ret tt.

End Py.

Import Py.

Declare Scope py_scope.
Delimit Scope py_scope with py.
Notation "'do' x <- m ; k" := (bind m (fun x => k))
  (at level 10, x name, m at level 100, k at level 200) : py_scope.
Notation "'exec' m ; k" := (bind m (fun _ => k))
  (at level 10, m at level 100, k at level 200) : py_scope.

(** [str(n)] for an integer. *)
Definition str_of_int (z : Z) : string := NilZero.string_of_int (Z.to_int z).

(* ===================================================================== *)
(** * Data model: the JSON records the package reads *)
(* ===================================================================== *)

(** An attachment descriptor (an element of a message's ["files"] list). *)
Record FileInfo : Type := mkFileInfo {
  url_private_download : option string;
  f_name : option string;
  filetype : option string
}.

(** A message of a channel's history. *)
Record Message : Type := mkMessage {
  m_ts : option string;
  m_user : option string;
  m_text : option string;
  m_files : option (list FileInfo)
}.

#[global] Instance FileInfo_eq_dec : EqDecision FileInfo.
Proof. solve_decision. Defined.

(* ===================================================================== *)
(** * downloader.py: extraction of attachment descriptors *)
(* ===================================================================== *)

Module Extract.

(** [f.get("filetype") in file_types]: list membership by [==]; an absent
    tag is [None], which equals no string. *)
Definition filetype_in (file_types : list string) (f : FileInfo) : bool :=
  match filetype f with
  | Some t => bool_decide (t ∈ file_types)
  | None => false
  end.

(** [extract_files_from_messages(messages, file_types)]. *)
Definition extract_files_from_messages
    (messages : list Message) (file_types : option (list string)) : list FileInfo :=
  let all_files :=
    fold_left
      (fun all_files message =>
         let files := default [] (m_files message) in
         if truthy_list (Some files) then all_files ++ files else all_files)
      messages [] in
  if truthy_list file_types
  then List.filter (filetype_in (default [] file_types)) all_files
  else all_files.

(** The flattening the specification describes: the attachment lists of the
    messages, concatenated in message order. *)
Definition attachments_in_order (messages : list Message) : list FileInfo :=
  flat_map (fun m => default [] (m_files m)) messages.

End Extract.

(* ===================================================================== *)
(** * The two calls of the standard [datetime] module that [utils.py] makes *)
(* ===================================================================== *)

(** [convert_date_to_ts] is [datetime.strptime(s, "%Y-%m-%d").timestamp()].
    Both calls belong to the Python standard library; they are transcribed
    here from its reference implementation ([_strptime.py], [_pydatetime.py])
    for ASCII input.  The host's time zone enters through one function,
    [local], the wall-clock reading (in seconds) that [time.localtime] gives
    for an instant. The float that [timestamp()] returns is an integer
    far below 2^53, so it is modelled by that integer. *)
Module Datetime.

Definition MINYEAR : Z := 1.
Definition MAXYEAR : Z := 9999.

Definition _is_leap (year : Z) : bool :=
  (year mod 4 =? 0) && (negb (year mod 100 =? 0) || (year mod 400 =? 0)).

Definition _days_before_year (year : Z) : Z :=
  let y := year - 1 in
  y * 365 + y / 4 - y / 100 + y / 400.

(** [_DAYS_IN_MONTH = [-1, 31, 28, 31, 30, 31, 30, 31, 31, 30, 31, 30, 31]]. *)
Definition _DAYS_IN_MONTH (month : Z) : Z :=
  match month with
  | 1 => 31 | 2 => 28 | 3 => 31 | 4 => 30 | 5 => 31 | 6 => 30
  | 7 => 31 | 8 => 31 | 9 => 30 | 10 => 31 | 11 => 30 | 12 => 31
  | _ => -1
  end.

(** [_DAYS_BEFORE_MONTH], the running sum of the table above. *)
Definition _DAYS_BEFORE_MONTH (month : Z) : Z :=
  match month with
  | 1 => 0 | 2 => 31 | 3 => 59 | 4 => 90 | 5 => 120 | 6 => 151
  | 7 => 181 | 8 => 212 | 9 => 243 | 10 => 273 | 11 => 304 | 12 => 334
  | _ => -1
  end.

Definition _days_in_month (year month : Z) : Z :=
  if (month =? 2) && _is_leap year then 29 else _DAYS_IN_MONTH month.

Definition _days_before_month (year month : Z) : Z :=
  _DAYS_BEFORE_MONTH month + (if (2 <? month) && _is_leap year then 1 else 0).

(** Proleptic Gregorian ordinal of a date (1 for 0001-01-01). *)
Definition _ymd2ord (year month day : Z) : Z :=
  _days_before_year year + _days_before_month year month + day.

(** The check of the [datetime] constructor. *)
Definition _check_date_fields (year month day : Z) : bool :=
  (MINYEAR <=? year) && (year <=? MAXYEAR) &&
  (1 <=? month) && (month <=? 12) &&
  (1 <=? day) && (day <=? _days_in_month year month).

(** ** [strptime] for the format ["%Y-%m-%d"] *)

Definition digit (c : ascii) : option Z :=
  let n := Z.of_nat (nat_of_ascii c) in
  if (48 <=? n) && (n <=? 57) then Some (n - 48) else None.

Definition digit_in (lo hi : Z) (c : ascii) : option Z :=
  match digit c with
  | Some d => if (lo <=? d) && (d <=? hi) then Some d else None
  | None => None
  end.

(** [(?P<Y>\d\d\d\d)-]: four digits and the hyphen of the format. *)
Definition parse_year (s : list ascii) : option (Z * list ascii) :=
  match s with
  | a :: b :: c :: d :: "-"%char :: r =>
      match digit a, digit b, digit c, digit d with
      | Some a, Some b, Some c, Some d => Some (1000 * a + 100 * b + 10 * c + d, r)
      | _, _, _, _ => None
      end
  | _ => None
  end.

(** [(?P<m>1[0-2]|0[1-9]|[1-9])-]: the alternatives in the order the
    regular expression tries them, each followed by the hyphen. *)
Definition parse_month (s : list ascii) : option (Z * list ascii) :=
  let alt1 := match s with
              | "1"%char :: c :: "-"%char :: r =>
                  match digit_in 0 2 c with Some d => Some (10 + d, r) | None => None end
              | _ => None end in
  let alt2 := match s with
              | "0"%char :: c :: "-"%char :: r =>
                  match digit_in 1 9 c with Some d => Some (d, r) | None => None end
              | _ => None end in
  let alt3 := match s with
              | c :: "-"%char :: r =>
                  match digit_in 1 9 c with Some d => Some (d, r) | None => None end
              | _ => None end in
  match alt1, alt2 with
  | Some r, _ => Some r
  | None, Some r => Some r
  | None, None => alt3
  end.

(** [(?P<d>3[0-1]|[1-2]\d|0[1-9]|[1-9]| [1-9])]: the first alternative that
    matches is taken; what follows it is returned. *)
Definition parse_day (s : list ascii) : option (Z * list ascii) :=
  let alt1 := match s with
              | "3"%char :: c :: r =>
                  match digit_in 0 1 c with Some d => Some (30 + d, r) | None => None end
              | _ => None end in
  let alt2 := match s with
              | t :: c :: r =>
                  match digit_in 1 2 t, digit c with
                  | Some t, Some d => Some (10 * t + d, r)
                  | _, _ => None end
              | _ => None end in
  let alt3 := match s with
              | "0"%char :: c :: r =>
                  match digit_in 1 9 c with Some d => Some (d, r) | None => None end
              | _ => None end in
  let alt4 := match s with
              | c :: r =>
                  match digit_in 1 9 c with Some d => Some (d, r) | None => None end
              | _ => None end in
  let alt5 := match s with
              | " "%char :: c :: r =>
                  match digit_in 1 9 c with Some d => Some (d, r) | None => None end
              | _ => None end in
  match alt1, alt2, alt3, alt4 with
  | Some r, _, _, _ => Some r
  | None, Some r, _, _ => Some r
  | None, None, Some r, _ => Some r
  | None, None, None, Some r => Some r
  | None, None, None, None => alt5
  end.

(** [datetime.strptime(date_str, "%Y-%m-%d")]: the calendar date read, or
    [ValueError] when the text does not match the format, when text remains
    after the match, or when the fields are no date (the messages are given
    without the data that Python puts into them). *)
Definition strptime (date_str : string) : exn + (Z * Z * Z) :=
  match parse_year (list_ascii_of_string date_str) with
  | Some (year, r1) =>
      match parse_month r1 with
      | Some (month, r2) =>
          match parse_day r2 with
          | Some (day, []) =>
              if negb ((MINYEAR <=? year) && (year <=? MAXYEAR))
              then inl (ValueError "year is out of range")
              else if _check_date_fields year month day
              then inr (year, month, day)
              else inl (ValueError "day is out of range for month")
          | Some (_, _ :: _) => inl (ValueError "unconverted data remains")
          | None => inl (ValueError "time data does not match format")
          end
      | None => inl (ValueError "time data does not match format")
      end
  | None => inl (ValueError "time data does not match format")
  end.

(** ** [datetime.timestamp()] of a naive [datetime] *)

(** Seconds from the epoch to midnight of a date, read as UTC. *)
Definition utc_seconds (year month day : Z) : Z :=
  (_ymd2ord year month day - _ymd2ord 1970 1 1) * 86400.

Section Mktime.

(** [local u]: the local wall clock at instant [u], in seconds. *)
Variable local : Z -> Z.

Definition max_fold_seconds : Z := 24 * 3600.

(** [datetime._mktime] with [fold = 0]: solve [t = local u] for [u]. *)
Definition _mktime (t : Z) : Z :=
  let a := local t - t in
  let u1 := t - a in
  let t1 := local u1 in
  let b :=
    if t1 =? t
    then local (u1 - max_fold_seconds) - (u1 - max_fold_seconds)
    else t1 - u1 in
  if (t1 =? t) && (a =? b) then u1
  else
    let u2 := t - b in
    let t2 := local u2 in
    if t2 =? t then u2
    else if t1 =? t then u1
    else Z.max u1 u2.

Definition timestamp (date : Z * Z * Z) : Z :=
  let '(year, month, day) := date in _mktime (utc_seconds year month day).

End Mktime.

End Datetime.

(* ===================================================================== *)
(** * utils.py *)
(* ===================================================================== *)

Module Utils.

(** [convert_date_to_ts(date_str)]. *)
Definition convert_date_to_ts (local : Z -> Z) (date_str : option string)
  : exn + option Z :=
  if negb (truthy_str date_str) then inr None
  else
    match Datetime.strptime (default EmptyString date_str) with
    | inl e => inl e
    | inr dt => inr (Some (Datetime.timestamp local dt))
    end.

(** ** Mentions *)

(** The character class [[A-Z0-9]]. *)
Definition is_id_char (c : ascii) : bool :=
  let n := nat_of_ascii c in
  ((65 <=? n) && (n <=? 90) || (48 <=? n) && (n <=? 57))%nat.

(** The longest run of identifier characters at the head of [s], and what
    follows it (the greedy [[A-Z0-9]+]). *)
Fixpoint span_id (s : list ascii) : list ascii * list ascii :=
  match s with
  | c :: s' =>
      if is_id_char c
      then let '(run, rest) := span_id s' in (c :: run, rest)
      else ([], s)
  | [] => ([], [])
  end.

(** A match of [<@([A-Z0-9]+)>] at the head of [s]: the captured
    identifier and the text after the match. *)
Definition match_mention (s : list ascii) : option (list ascii * list ascii) :=
  match s with
  | "<"%char :: "@"%char :: r =>
      match span_id r with
      | (c :: run, ">"%char :: rest) => Some (c :: run, rest)
      | _ => None
      end
  | _ => None
  end.

(** [re.findall(r"<@([A-Z0-9]+)>", text)]: the captures of the
    non-overlapping matches, from left to right.  [skip] counts the
    characters of the current match that remain to be passed. *)
Fixpoint findall_from (skip : nat) (s : list ascii) : list (list ascii) :=
  match s with
  | [] => []
  | _ :: s' =>
      match skip with
      | S k => findall_from k s'
      | O =>
          match match_mention s with
          | Some (user_id, _) => user_id :: findall_from (length user_id + 2) s'
          | None => findall_from 0 s'
          end
      end
  end.

Definition findall (s : list ascii) : list (list ascii) := findall_from 0 s.

(** [startswith]. *)
Fixpoint starts_with (p s : list ascii) : bool :=
  match p, s with
  | [], _ => true
  | a :: p', b :: s' => Ascii.eqb a b && starts_with p' s'
  | _ :: _, [] => false
  end.

(** [s.replace(old, new)] for a non-empty [old]: the non-overlapping
    occurrences from left to right. *)
Fixpoint replace_from (skip : nat) (old new s : list ascii) : list ascii :=
  match s with
  | [] => []
  | c :: s' =>
      match skip with
      | S k => replace_from k old new s'
      | O =>
          if starts_with old s
          then new ++ replace_from (length old - 1) old new s'
          else c :: replace_from 0 old new s'
      end
  end.

(** [s.replace(old, new)]; with an empty [old], Python puts [new] before
    every character and at the end. *)
Definition str_replace (old new s : list ascii) : list ascii :=
  match old with
  | [] => new ++ flat_map (fun c => c :: new) s
  | _ :: _ => replace_from 0 old new s
  end.

(** [f"<@{user_id}>"] and [f"@{real_name}"]. *)
Definition mention_of (user_id : list ascii) : list ascii :=
  "<"%char :: "@"%char :: user_id ++ [">"%char].

Definition at_name (real_name : string) : list ascii :=
  "@"%char :: list_ascii_of_string real_name.

(** The body of the [for user_id in mentions] loop. *)
Definition replace_one (user_map : gmap string string)
    (text : list ascii) (user_id : list ascii) : list ascii :=
  match user_map !! string_of_list_ascii user_id with
  | Some real_name => str_replace (mention_of user_id) (at_name real_name) text
  | None => text
  end.

(** [replace_mentions_with_names(text, user_map)]. *)
Definition replace_mentions_with_names
    (text : string) (user_map : gmap string string) : string :=
  let chars := list_ascii_of_string text in
  let mentions := findall chars in
  string_of_list_ascii (fold_left (replace_one user_map) mentions chars).

End Utils.

(* ===================================================================== *)
(** * client.py *)
(* ===================================================================== *)

Module Client.

(** The keyword arguments of [conversations_history]; an absent key is
    [None]. *)
Record HistoryParams : Type := mkHistoryParams {
  hp_channel : string;
  hp_limit : Z;
  hp_cursor : option string;
  hp_oldest : option Z;
  hp_latest : option Z
}.

(** [result["response_metadata"]]: only its ["next_cursor"] key is read.
    An empty object and an object without that key behave alike, both are
    [{| next_cursor := None |}]. *)
Record ResponseMetadata : Type := mkResponseMetadata {
  next_cursor : option string
}.

(** A page of [conversations.history]. *)
Record HistoryResult : Type := mkHistoryResult {
  hr_messages : option (list Message);
  hr_has_more : option bool;
  hr_response_metadata : option ResponseMetadata
}.

(** An entry of the user directory, with its profile. Every member object
    of the platform carries its ["id"]; the names are optional. *)
Record Profile : Type := mkProfile {
  p_real_name : option string;
  p_display_name : option string
}.

Record User : Type := mkUser {
  u_id : string;
  u_real_name : option string;
  u_profile : option Profile;
  u_name : option string
}.

(** A page of [users.list]. *)
Record UsersResult : Type := mkUsersResult {
  ur_members : option (list User);
  ur_response_metadata : option ResponseMetadata
}.

(** [a or b] where [b] is a string. *)
Definition or_str (a : option string) (b : string) : string :=
  match a with
  | Some s => if truthy_str a then s else b
  | None => b
  end.

(** The name stored for a directory entry:
    [user.get("real_name") or user.get("profile", {}).get("real_name")
     or user.get("profile", {}).get("display_name")
     or user.get("name", user_id)]. *)
Definition display_name_of (user : User) : string :=
  let user_id := u_id user in
  or_str (u_real_name user)
    (or_str (u_profile user ≫= p_real_name)
       (or_str (u_profile user ≫= p_display_name)
          (default user_id (u_name user)))).

(** The [for user in users] loop of [get_users]. *)
Definition add_users (users : list User) (user_map : gmap string string)
  : gmap string string :=
  fold_left (fun user_map user => <[u_id user := display_name_of user]> user_map)
            users user_map.

(** [result.get("response_metadata") and
     result["response_metadata"].get("next_cursor")], as a condition. *)
Definition has_next_cursor (meta : option ResponseMetadata) : bool :=
  truthy_str (meta ≫= next_cursor).

(** The continuation test of the history loop. *)
Definition continues (result : HistoryResult) : bool :=
  truthy_flag (hr_has_more result) && has_next_cursor (hr_response_metadata result).

(** The [params] dictionary of a history request: the channel and the
    limit, and the keys ["cursor"], ["oldest"] and ["latest"] when the
    corresponding value is truthy. *)
Definition history_params (channel_id : string) (oldest_ts newest_ts : option Z)
    (cursor : option string) : HistoryParams :=
  {| hp_channel := channel_id;
     hp_limit := 1000;
     hp_cursor := if truthy_str cursor then cursor else None;
     hp_oldest := if truthy_num oldest_ts then oldest_ts else None;
     hp_latest := if truthy_num newest_ts then newest_ts else None |}.

Section WithTransport.

(** The remote platform: a state of its own, and the two endpoints as
    transitions that answer a page or raise. *)
Context {Srv : Type}.
Variable conversations_history : HistoryParams -> Srv -> (exn + HistoryResult) * Srv.
Variable users_list : option string -> Srv -> (exn + UsersResult) * Srv.

(** The host's local time (see [Datetime]). *)
Variable local : Z -> Z.

(** What a call can observe and change: the platform, the requests sent
    to it with their answers, and the calls made to the progress
    callback. *)
Record World : Type := mkWorld {
  srv : Srv;
  history_calls : list (HistoryParams * (exn + HistoryResult));
  users_calls : list (option string * (exn + UsersResult));
  progress_calls : list nat
}.

Definition call_history (params : HistoryParams) : M World HistoryResult :=
  fun w =>
    let '(r, s) := conversations_history params (srv w) in
    let w' := {| srv := s;
                 history_calls := history_calls w ++ [(params, r)];
                 users_calls := users_calls w;
                 progress_calls := progress_calls w |} in
    match r with
    | inl e => (Exc e, w')
    | inr result => (Val result, w')
    end.

Definition call_users (cursor : option string) : M World UsersResult :=
  fun w =>
    let '(r, s) := users_list cursor (srv w) in
    let w' := {| srv := s;
                 history_calls := history_calls w;
                 users_calls := users_calls w ++ [(cursor, r)];
                 progress_calls := progress_calls w |} in
    match r with
    | inl e => (Exc e, w')
    | inr result => (Val result, w')
    end.

Definition report_progress (n : nat) : M World unit :=
  modify (fun w => {| srv := srv w;
                      history_calls := history_calls w;
                      users_calls := users_calls w;
                      progress_calls := progress_calls w ++ [n] |}).

(** The [while True] loop of [get_channel_history]; [fuel] bounds the
    number of pages requested. *)
Fixpoint history_loop (fuel : nat) (channel_id : string)
    (oldest_ts newest_ts : option Z) (on_progress : bool)
    (cursor : option string) (all_messages : list Message)
  : M World (list Message) :=
  match fuel with
  | O => out_of_fuel
  | S fuel' =>
      let params := history_params channel_id oldest_ts newest_ts cursor in
      (do result <- call_history params;
       let messages := default [] (hr_messages result) in
       if negb (truthy_list (Some messages)) then ret all_messages
       else
         let all_messages := all_messages ++ messages in
         exec when on_progress (report_progress (length all_messages));
         if continues result
         then history_loop fuel' channel_id oldest_ts newest_ts on_progress
                (hr_response_metadata result ≫= next_cursor) all_messages
         else ret all_messages)%py
  end.

(** The [except SlackApiError as e] clause of [get_channel_history]. *)
Definition history_handler (channel_id : string) (e : exn)
  : option (M World (list Message)) :=
  match e with
  | SlackApiError error =>
      Some
        (if String.eqb error "missing_scope" then
           raise (SlackApiException
                    "Token is missing required scope. Need channels:history or groups:history."
                    error)
         else if String.eqb error "channel_not_found" then
           raise (SlackApiException
                    ("Channel '" +:+ channel_id +:+ "' not found or bot doesn't have access.")
                    error)
         else
           raise (SlackApiException ("Failed to fetch messages: " +:+ error) error))
  | _ => None
  end.

(** [SlackClient.get_channel_history(channel_id, oldest_date, newest_date,
    on_progress)]; [on_progress] tells whether a callback was given. *)
Definition get_channel_history (fuel : nat) (channel_id : string)
    (oldest_date newest_date : option string) (on_progress : bool)
  : M World (list Message) :=
  try_except
    (do oldest_ts <- lift (Utils.convert_date_to_ts local oldest_date);
     do newest_ts <- lift (Utils.convert_date_to_ts local newest_date);
     history_loop fuel channel_id oldest_ts newest_ts on_progress None [])%py
    (history_handler channel_id).

(** The [while True] loop of [get_users]. *)
Fixpoint users_loop (fuel : nat) (cursor : option string)
    (user_map : gmap string string) : M World (gmap string string) :=
  match fuel with
  | O => out_of_fuel
  | S fuel' =>
      (do result <- call_users (if truthy_str cursor then cursor else None);
       let users := default [] (ur_members result) in
       let user_map := add_users users user_map in
       if has_next_cursor (ur_response_metadata result)
       then users_loop fuel' (ur_response_metadata result ≫= next_cursor) user_map
       else ret user_map)%py
  end.

(** [SlackClient.get_users()]. *)
Definition get_users (fuel : nat) : M World (gmap string string) :=
  try_except
    (users_loop fuel None ∅)
    (fun e =>
       match e with
       | SlackApiError error =>
           Some (raise (SlackApiException ("Failed to fetch users: " +:+ error) error))
       | _ => None
       end).

End WithTransport.

Arguments World Srv : clear implicits.

End Client.

(* ===================================================================== *)
(** * downloader.py: the [FileDownloader] class *)
(* ===================================================================== *)

Module Downloader.

(** What [download_file] reads of the HTTP response: the status, the
    ["content-type"] header when there is one, and the chunks that
    [iter_content] yields. *)
Record HttpResponse : Type := mkHttpResponse {
  status_code : Z;
  content_type : option string;
  body_chunks : list string
}.

(** [str.lower()] on ASCII text. *)
Definition lower_char (c : ascii) : ascii :=
  let n := nat_of_ascii c in
  if ((65 <=? n) && (n <=? 90))%nat then ascii_of_nat (n + 32) else c.

Fixpoint lower (s : string) : string :=
  match s with
  | EmptyString => EmptyString
  | String c s' => String (lower_char c) (lower s')
  end.

(** [needle in s] for strings. *)
Fixpoint contains (needle s : string) : bool :=
  String.prefix needle s ||
  match s with
  | EmptyString => false
  | String _ s' => contains needle s'
  end.

Fixpoint zeros (n : nat) : string :=
  match n with
  | O => EmptyString
  | S n' => String "0" (zeros n')
  end.

(** [s.zfill(width)]: zeros on the left, after a leading sign. *)
Definition zfill (width : nat) (s : string) : string :=
  let pad := zeros (width - String.length s) in
  match s with
  | String c r =>
      if Ascii.eqb c "+" || Ascii.eqb c "-" then String c (pad +:+ r) else pad +:+ s
  | EmptyString => pad
  end.

(** [directory / name] for a name that is a relative, single path
    component. *)
Definition path_join (directory name : string) : string :=
  directory +:+ "/" +:+ name.

(** The calls made to the two callbacks of [download_files]. *)
Inductive HookCall : Type :=
| OnProgress (filename : string) (index total : nat)
| OnError (filename : string) (error : exn).

Section WithNetwork.

(** The network: a state of its own, and [requests.get(url, headers=...,
    stream=True)] as a transition that answers a response or raises. *)
Context {Net : Type}.
Variable requests_get :
  string -> list (string * string) -> Net -> (exn + HttpResponse) * Net.

(** [self._token] and [self._download_dir]. *)
Variable token : string.
Variable download_dir : string.

(** What [download_file] can observe and change: the network, the
    requests sent, and the files on disk (path to content). *)
Record Disk : Type := mkDisk {
  net : Net;
  requests : list (string * list (string * string));
  fs : gmap string string
}.

Definition http_get (url : string) (headers : list (string * string))
  : M Disk HttpResponse :=
  fun d =>
    let '(r, n) := requests_get url headers (net d) in
    let d' := {| net := n; requests := requests d ++ [(url, headers)]; fs := fs d |} in
    match r with
    | inl e => (Exc e, d')
    | inr response => (Val response, d')
    end.

(** [with open(filepath, "wb") as f: for chunk in ...: if chunk:
    f.write(chunk)]: the file is created or truncated, then the non-empty
    chunks are appended in order. The disk takes every write: failures of
    the operating system are outside the model. *)
Definition write_chunks (filepath : string) (chunks : list string) : M Disk unit :=
  modify (fun d =>
    {| net := net d;
       requests := requests d;
       fs := <[filepath :=
                 fold_left
                   (fun content chunk =>
                      if truthy_str (Some chunk) then content +:+ chunk else content)
                   chunks EmptyString]> (fs d) |}).

(** [FileDownloader.download_file(file_info, file_number)]. *)
Definition download_file (file_info : FileInfo) (file_number : option Z)
  : M Disk string :=
  let url := url_private_download file_info in
  if negb (truthy_str url) then raise (DownloadError "No download URL found for file")
  else
    let filename := f_name file_info in
    if negb (truthy_str filename) then raise (DownloadError "No filename found for file")
    else
      let url := default EmptyString url in
      let filename := default EmptyString filename in
      let headers := [("Authorization", "Bearer " +:+ token);
                      ("User-Agent", "Mozilla/5.0")] in
      (do response <- http_get url headers;
       if negb (status_code response =? 200) then
         raise (DownloadError ("Failed to download " +:+ filename +:+
                               " - Status Code: " +:+ str_of_int (status_code response)))
       else
         let content_type := default EmptyString (content_type response) in
         if contains "text/html" (lower content_type) then
           raise (DownloadError ("Failed to download " +:+ filename +:+
                                 " - Got HTML login page instead of file"))
         else
           let filepath :=
             match file_number with
             | Some n =>
                 let prefix := zfill 4 (str_of_int n) in
                 path_join download_dir (prefix +:+ "-" +:+ filename)
             | None => path_join download_dir filename
             end in
           exec write_chunks filepath (body_chunks response);
           ret filepath)%py.

(** The world of a batch: the disk and the calls made to the callbacks. *)
Definition Batch : Type := Disk * list HookCall.

Definition on_disk {A} (m : M Disk A) : M Batch A :=
  fun b =>
    let '(r, d) := m (fst b) in (r, (d, snd b)).

Definition call_hook (c : HookCall) : M Batch unit :=
  modify (fun b => (fst b, snd b ++ [c])).

(** The [for i, file_info in enumerate(files)] loop of [download_files],
    from position [i] on.  A returned path is a [Path] object, which is
    always truthy, so [if path:] always appends. *)
Fixpoint download_loop (i total : nat) (files : list FileInfo)
    (on_progress on_error : bool) (downloaded : list string)
  : M Batch (list string) :=
  match files with
  | [] => ret downloaded
  | file_info :: files' =>
      let filename := default "unknown" (f_name file_info) in
      (exec when on_progress (call_hook (OnProgress filename (i + 1) total));
       do downloaded <-
         try_except
           (do path <- on_disk (download_file file_info (Some (Z.of_nat i)));
            ret (downloaded ++ [path]))
           (fun e =>
              match e with
              | DownloadError _ =>
                  Some (exec when on_error (call_hook (OnError filename e));
                        ret downloaded)
              | _ => None
              end);
       download_loop (S i) total files' on_progress on_error downloaded)%py
  end.

(** [FileDownloader.download_files(files, on_progress, on_error)]; the two
    flags tell whether the callbacks were given. *)
Definition download_files (files : list FileInfo) (on_progress on_error : bool)
  : M Batch (list string) :=
  download_loop 0 (length files) files on_progress on_error [].

End WithNetwork.

Arguments Disk Net : clear implicits.
Arguments Batch Net : clear implicits.

End Downloader.

(* ===================================================================== *)
(** * The specification's reading of the client *)
(* ===================================================================== *)

Module ClientSpec.
Import Client.

(** The first candidate that is set, the fallback when none is; a candidate
    is set when it is present and not empty. *)
Fixpoint first_set (candidates : list (option string)) (fallback : string) : string :=
  match candidates with
  | [] => fallback
  | c :: cs => if truthy_str c then default EmptyString c else first_set cs fallback
  end.

(** The priority of the specification, every field read the same way:
    real name, profile real name, profile display name, handle, and the
    identifier last. *)
Definition name_by_priority (user : User) : string :=
  first_set [u_real_name user;
             u_profile user ≫= p_real_name;
             u_profile user ≫= p_display_name;
             u_name user]
            (u_id user).


(** The cursor a page hands over. *)
Definition page_cursor (page : HistoryResult) : option string :=
  hr_response_metadata page ≫= next_cursor.

(** The messages of a page. *)
Definition page_messages (page : HistoryResult) : list Message :=
  default [] (hr_messages page).

(** A page after which the specification lets pagination go on: it has
    messages, the "has more" indicator is set, and a next-cursor token is
    present. *)
Definition page_goes_on (page : HistoryResult) : Prop :=
  page_messages page <> [] /\
  hr_has_more page = Some true /\
  exists c, page_cursor page = Some c /\ c <> EmptyString.

(** A page at which the specification stops: no message, or no "has more"
    indicator, or no next-cursor token. *)
Definition page_is_last (page : HistoryResult) : Prop :=
  page_messages page = [] \/
  hr_has_more page = None \/ hr_has_more page = Some false \/
  page_cursor page = None \/ page_cursor page = Some EmptyString.

Section WithTransport.
Context {Srv : Type}.
Variable conversations_history : HistoryParams -> Srv -> (exn + HistoryResult) * Srv.

(** [serves channel oldest latest cursor s answers s']: asked for pages of
    up to 1000 messages of the channel within the bounds, first with
    [cursor] and then with the cursor of the page before, the platform
    gives [answers] in turn and goes from state [s] to [s']. *)
Fixpoint serves (channel_id : string) (oldest_ts newest_ts : option Z)
    (cursor : option string) (s : Srv)
    (answers : list (exn + HistoryResult)) (s' : Srv) : Prop :=
  match answers with
  | [] => s' = s
  | a :: answers' =>
      exists s1,
        conversations_history
          (history_params channel_id oldest_ts newest_ts cursor) s = (a, s1) /\
        serves channel_id oldest_ts newest_ts
          (match a with inr page => page_cursor page | inl _ => None end)
          s1 answers' s'
  end.

End WithTransport.

End ClientSpec.

(* ===================================================================== *)
(** * The exchange with the platform that the specification describes *)
(* ===================================================================== *)

Module HistorySpec.
Import Client ClientSpec.

(** The requests of a paginated retrieval with the answers they got: each
    request asks for up to 1000 messages and carries the cursor of the page
    before it (none for the first). *)
Fixpoint exchange (channel_id : string) (oldest_ts newest_ts : option Z)
    (cursor : option string) (answers : list (exn + HistoryResult))
  : list (HistoryParams * (exn + HistoryResult)) :=
  match answers with
  | [] => []
  | a :: answers' =>
      (history_params channel_id oldest_ts newest_ts cursor, a)
      :: exchange channel_id oldest_ts newest_ts
           (match a with inr page => page_cursor page | inl _ => None end)
           answers'
  end.

(** The class of error the specification names for a remote error code,
    with the message the client attaches to it. *)
Inductive ErrorClass : Type := AuthError | NotFoundError | TransportError.

Definition classify (error : string) : ErrorClass :=
  if String.eqb error "missing_scope" then AuthError
  else if String.eqb error "channel_not_found" then NotFoundError
  else TransportError.

Definition history_error_message (channel_id error : string) : string :=
  match classify error with
  | AuthError =>
      "Token is missing required scope. Need channels:history or groups:history."
  | NotFoundError =>
      "Channel '" +:+ channel_id +:+ "' not found or bot doesn't have access."
  | TransportError => "Failed to fetch messages: " +:+ error
  end.

End HistorySpec.

(* ===================================================================== *)
(** * The batch of downloads that the specification describes *)
(* ===================================================================== *)

Module DownloadSpec.
Import Downloader.

(** The content of a file written from the chunks of a response body. *)
Definition body_of (chunks : list string) : string :=
  fold_right String.append EmptyString chunks.

(** The name a descriptor is reported under. *)
Definition reported_name (file_info : FileInfo) : string :=
  default "unknown" (f_name file_info).

(** The paths of the attempts that succeeded, in the order of the attempts. *)
Definition successes (outcomes : list (res string)) : list string :=
  omap (fun r => match r with Val p => Some p | _ => None end) outcomes.

(** An attempt that succeeded or failed with [DownloadError]. *)
Definition contained (r : res string) : Prop :=
  match r with
  | Val _ => True
  | Exc (DownloadError _) => True
  | _ => False
  end.

Definition is_on_error (c : HookCall) : bool :=
  match c with OnError _ _ => true | OnProgress _ _ _ => false end.

Definition is_on_progress (c : HookCall) : bool :=
  match c with OnProgress _ _ _ => true | OnError _ _ => false end.

Definition failed (r : res string) : bool :=
  match r with Val _ => false | _ => true end.

(** The calls to the callbacks that a batch makes from position [i] on:
    before each attempt the progress callback with the one-based position,
    and after a failed attempt the error callback, once. *)
Fixpoint hook_calls (i total : nat) (files : list FileInfo)
    (outcomes : list (res string)) (on_progress on_error : bool) : list HookCall :=
  match files, outcomes with
  | file_info :: files', r :: outcomes' =>
      (if on_progress then [OnProgress (reported_name file_info) (S i) total] else [])
      ++ match r with
         | Exc e => if on_error then [OnError (reported_name file_info) e] else []
         | _ => []
         end
      ++ hook_calls (S i) total files' outcomes' on_progress on_error
  | _, _ => []
  end.

Section WithNetwork.
Context {Net : Type}.
Variable requests_get :
  string -> list (string * string) -> Net -> (exn + HttpResponse) * Net.
Variable token : string.
Variable download_dir : string.

(** The headers of every download request. *)
Definition auth_headers : list (string * string) :=
  [("Authorization", "Bearer " +:+ token); ("User-Agent", "Mozilla/5.0")].

(** The path under which descriptor number [n] is saved: the download
    directory, then the number in four digits, a hyphen and the name. *)
Definition numbered_path (n : Z) (filename : string) : string :=
  path_join download_dir (zfill 4 (str_of_int n) +:+ "-" +:+ filename).

(** The attempts of a batch: [download_file] on each descriptor in the
    order of the input, the descriptor at position [i] (from zero) with
    [i] as its number, each on the disk that the attempt before left. *)
Fixpoint attempts (i : nat) (files : list FileInfo) (d : Disk Net)
  : list (res string) * Disk Net :=
  match files with
  | [] => ([], d)
  | file_info :: files' =>
      let '(r, d1) :=
        download_file requests_get token download_dir file_info
                      (Some (Z.of_nat i)) d in
      let '(rs, d') := attempts (S i) files' d1 in
      (r :: rs, d')
  end.

End WithNetwork.

End DownloadSpec.

(* ===================================================================== *)
(** * Mention substitution as the specification describes it *)
(* ===================================================================== *)

Module MentionSpec.
Import Utils.

(** A text cut into pieces: a single character, a mention [<@ID>], or a
    text that was put in the place of a mention. *)
Inductive piece : Type :=
| Lit (c : ascii)
| Men (user_id : list ascii)
| Ins (s : list ascii).

Definition render_piece (p : piece) : list ascii :=
  match p with
  | Lit c => [c]
  | Men user_id => mention_of user_id
  | Ins s => s
  end.

Definition render (ps : list piece) : list ascii := flat_map render_piece ps.

(** The occurrences of [<@ID>] in a text, [ID] a non-empty run of [A-Z] and
    [0-9], found from left to right, with the characters between them. *)
Fixpoint pieces_from (skip : nat) (s : list ascii) : list piece :=
  match s with
  | [] => []
  | c :: s' =>
      match skip with
      | S k => pieces_from k s'
      | O =>
          match match_mention s with
          | Some (user_id, _) => Men user_id :: pieces_from (length user_id + 2) s'
          | None => Lit c :: pieces_from 0 s'
          end
      end
  end.

Definition pieces (s : list ascii) : list piece := pieces_from 0 s.

(** Each mention of a known user becomes [@DisplayName]; everything else
    stays. *)
Definition name_mention (names : list ascii -> option string) (p : piece) : piece :=
  match p with
  | Men user_id =>
      match names user_id with
      | Some real_name => Ins (at_name real_name)
      | None => p
      end
  | _ => p
  end.

Definition known (user_map : gmap string string) (user_id : list ascii)
  : option string :=
  user_map !! string_of_list_ascii user_id.

Definition substitute_mentions (text : string) (user_map : gmap string string)
  : string :=
  string_of_list_ascii
    (render (map (name_mention (known user_map))
                 (pieces (list_ascii_of_string text)))).

(** An identifier made only of [A-Z] and [0-9], and not empty. *)
Definition valid_id (user_id : list ascii) : Prop :=
  user_id <> [] /\ Forall (fun c => is_id_char c = true) user_id.





(** ** Cut texts on which a replacement finds the mentions only *)






End MentionSpec.

(* ===================================================================== *)
(** * Calendar order and time zones *)
(* ===================================================================== *)

Module DateSpec.

(** A calendar date that is strictly earlier than another. *)
Definition earlier (a b : Z * Z * Z) : Prop :=
  let '(y1, m1, d1) := a in
  let '(y2, m2, d2) := b in
  y1 < y2 \/ (y1 = y2 /\ (m1 < m2 \/ (m1 = m2 /\ d1 < d2))).

(** The text YYYY-MM-DD of a date: four digits, two digits and two digits,
    with zeros on the left. *)
Definition digit_char (d : Z) : ascii := ascii_of_nat (48 + Z.to_nat d).

Definition iso_year (y : Z) : list ascii :=
  [digit_char (y / 1000); digit_char (y / 100 mod 10);
   digit_char (y / 10 mod 10); digit_char (y mod 10)].

Definition two_digits (n : Z) : list ascii :=
  [digit_char (n / 10); digit_char (n mod 10)].

Definition iso_format (date : Z * Z * Z) : string :=
  let '(y, m, d) := date in
  string_of_list_ascii
    (iso_year y ++ "-"%char :: two_digits m ++ "-"%char :: two_digits d).

(** The UTC offset that a wall clock shows at an instant. *)
Definition utc_offset (local : Z -> Z) (u : Z) : Z := local u - u.

(** A zone whose UTC offsets, over all instants, stay less than a day
    apart: every zone with a fixed offset, and every zone whose clock
    changes add up to less than 24 hours. *)
Definition offsets_within_a_day (local : Z -> Z) : Prop :=
  forall u v, Z.abs (utc_offset local u - utc_offset local v) < 86400.

(** The wall clock of Pacific/Apia around the end of 2011: ten hours behind
    UTC until 2011-12-30T10:00:00Z, fourteen hours ahead from then on (the
    local date 2011-12-30 was skipped). *)
Definition apia (u : Z) : Z :=
  if u <? 1325239200 then u - 36000 else u + 50400.

End DateSpec.

(* ===================================================================== *)
(** * Scenarios: scripted platforms and networks *)
(* ===================================================================== *)

Module Scenario.
Import Client Downloader.

(** ** A channel of 2437 messages served in pages *)

Definition sample_message : Message :=
  mkMessage (Some "1700000000.000100") (Some "U123") (Some "hello") None.

Definition full_page (size : nat) (cursor : string) : HistoryResult :=
  {| hr_messages := Some (repeat sample_message size);
     hr_has_more := Some true;
     hr_response_metadata := Some {| next_cursor := Some cursor |} |}.

Definition empty_page : HistoryResult :=
  {| hr_messages := Some [];
     hr_has_more := Some false;
     hr_response_metadata := Some {| next_cursor := Some EmptyString |} |}.

(** The platform answers by cursor, refuses a limit other than 1000 and an
    unknown cursor; its state counts the requests. *)
Definition paged (params : HistoryParams) (served : nat)
  : (exn + HistoryResult) * nat :=
  (if negb (hp_limit params =? 1000) then inl (SlackApiError "invalid_limit")
   else
     match hp_cursor params with
     | None => inr (full_page 1000 "c1")
     | Some c =>
         if String.eqb c "c1" then inr (full_page 1000 "c2")
         else if String.eqb c "c2" then inr (full_page 437 "c3")
         else if String.eqb c "c3" then inr empty_page
         else inl (SlackApiError "invalid_cursor")
     end,
   S served).

(** A platform that always reports more messages and never gives a
    cursor. *)
Definition stuck (params : HistoryParams) (served : nat)
  : (exn + HistoryResult) * nat :=
  (inr {| hr_messages := Some (repeat sample_message 3);
          hr_has_more := Some true;
          hr_response_metadata := None |},
   S served).

(** A platform whose token loses its scope after the first page. *)
Definition revoked (params : HistoryParams) (served : nat)
  : (exn + HistoryResult) * nat :=
  (match hp_cursor params with
   | None => inr (full_page 2 "c1")
   | Some _ => inl (SlackApiError "missing_scope")
   end,
   S served).

Definition fresh : World nat :=
  {| srv := O; history_calls := []; users_calls := []; progress_calls := [] |}.

(** A host on UTC. *)
Definition utc (u : Z) : Z := u.

(** A host one hour ahead of UTC. *)
Definition cet (u : Z) : Z := u + 3600.

(** ** A directory of three users in two pages *)

Definition directory (cursor : option string) (served : nat)
  : (exn + UsersResult) * nat :=
  (match cursor with
   | None =>
       inr {| ur_members :=
                Some [mkUser "U1" (Some "Ada Lovelace") None (Some "ada");
                      mkUser "U2" (Some EmptyString)
                             (Some (mkProfile None (Some "grace"))) (Some "ghopper")];
              ur_response_metadata := Some {| next_cursor := Some "u2" |} |}
   | Some _ =>
       inr {| ur_members := Some [mkUser "U3" None None None];
              ur_response_metadata := Some {| next_cursor := Some EmptyString |} |}
   end,
   S served).

(** ** A directory whose only entry has an empty handle and no other name *)

Definition unnamed (cursor : option string) (served : nat)
  : (exn + UsersResult) * nat :=
  (inr {| ur_members := Some [mkUser "U1" None None (Some EmptyString)];
          ur_response_metadata := None |},
   S served).

(** ** Three attachments, the second answered by a login page *)

Definition report : FileInfo :=
  mkFileInfo (Some "https://files.example/a") (Some "report.pdf") (Some "pdf").
Definition expired : FileInfo :=
  mkFileInfo (Some "https://files.example/b") (Some "notes.txt") (Some "text").
Definition picture : FileInfo :=
  mkFileInfo (Some "https://files.example/c") (Some "cat.png") (Some "png").

Definition web (url : string) (headers : list (string * string)) (served : nat)
  : (exn + HttpResponse) * nat :=
  (if String.eqb url "https://files.example/a" then
     inr (mkHttpResponse 200 (Some "application/pdf") ["%PDF"; EmptyString; "-1.4"])
   else if String.eqb url "https://files.example/b" then
     inr (mkHttpResponse 200 (Some "text/html; charset=utf-8") ["<html>"])
   else if String.eqb url "https://files.example/c" then
     inr (mkHttpResponse 200 (Some "image/png") ["PNG"])
   else inr (mkHttpResponse 404 None []),
   S served).

Definition empty_disk : Disk nat :=
  {| net := O; requests := []; fs := ∅ |}.

Definition batch : list FileInfo := [report; expired; picture].

(** A network that drops the connection from the second request on. *)
Definition flaky (url : string) (headers : list (string * string)) (served : nat)
  : (exn + HttpResponse) * nat :=
  (match served with
   | O => inr (mkHttpResponse 200 (Some "application/pdf") ["%PDF"])
   | S _ => inl (RequestException "connection reset")
   end,
   S served).

End Scenario.

(* ===================================================================== *)
(** * What a run of the client has received *)
(* ===================================================================== *)

Module TraceSpec.
Import Client ClientSpec.

(** The pages among the answers of the platform. *)
Definition received {A} (answers : list (exn + A)) : list A :=
  omap (fun a => match a with inr page => Some page | inl _ => None end) answers.

(** The counts that a progress callback is told while pages of the given
    sizes arrive: after each page that has messages, the number of messages
    received so far. *)
Fixpoint running_totals (so_far : nat) (sizes : list nat) : list nat :=
  match sizes with
  | [] => []
  | O :: sizes' => running_totals so_far sizes'
  | size :: sizes' => (so_far + size)%nat :: running_totals (so_far + size) sizes'
  end.

Definition page_size (page : HistoryResult) : nat := length (page_messages page).

(** The cursor and the members of a page of the directory. *)
Definition users_cursor (page : UsersResult) : option string :=
  ur_response_metadata page ≫= next_cursor.

Definition page_members (page : UsersResult) : list User :=
  default [] (ur_members page).

(** A page of the directory that names a next page: its cursor is present
    and not empty. *)
Definition names_next (page : UsersResult) : Prop :=
  exists c, users_cursor page = Some c /\ c <> EmptyString.

Definition is_final (page : UsersResult) : Prop :=
  users_cursor page = None \/ users_cursor page = Some EmptyString.

(** The requests of a walk through the directory with the answers they
    got: each request carries the cursor of the page before it, the first
    one none. *)
Fixpoint users_exchange (cursor : option string) (answers : list (exn + UsersResult))
  : list (option string * (exn + UsersResult)) :=
  match answers with
  | [] => []
  | a :: answers' =>
      (cursor, a)
      :: users_exchange (match a with inr page => users_cursor page | inl _ => None end)
           answers'
  end.

(** The last entry of a list that carries a given identifier. *)
Definition last_entry (user_id : string) (users : list User) : option User :=
  last (List.filter (fun u => bool_decide (u_id u = user_id)) users).

End TraceSpec.

(* ===================================================================== *)
(** * What a batch of downloads asks and writes *)
(* ===================================================================== *)

Module BatchSpec.
Import Downloader DownloadSpec.

(** A descriptor that has a download URL and a name, both not empty. *)
Definition well_formed (file_info : FileInfo) : bool :=
  truthy_str (url_private_download file_info) && truthy_str (f_name file_info).

(** The URL a descriptor is asked from. *)
Definition url_of (file_info : FileInfo) : string :=
  default EmptyString (url_private_download file_info).

(** Texts made of the digits [0] to [9] only. *)
Definition is_digit (c : ascii) : bool :=
  let n := nat_of_ascii c in ((48 <=? n) && (n <=? 57))%nat.

Fixpoint all_digits (s : string) : bool :=
  match s with
  | EmptyString => true
  | String c s' => is_digit c && all_digits s'
  end.

(** The number that a text of digits denotes in base ten. *)
Definition decimal_value (s : string) : option Z :=
  Z.of_uint <$> NilEmpty.uint_of_string s.

(** The prefix that [download_file] puts before the name of file number
    [n]: [str(n).zfill(4)]. *)
Definition number_prefix (n : Z) : string := zfill 4 (str_of_int n).

End BatchSpec.

Module BoundSpec.

(** The bound that a request carries for a converted date: the timestamp,
    unless there is none or it is zero. *)
Definition sent_bound (ts : option Z) : option Z :=
  match ts with
  | Some 0 => None
  | _ => ts
  end.

(** The wall clock of a host that is always [offset] seconds ahead of
    UTC. *)
Definition fixed_offset (offset : Z) (u : Z) : Z := u + offset.

(** The instants at which [datetime._mktime] (with [fold = 0]) reads the
    local clock for the wall-clock time [t], in the order of the reads:
    [local(t)], [local(u1)], then [local(u1 - max_fold_seconds)] when [u1]
    is a solution, and [local(u2)] unless the first solution is returned. *)
Definition _mktime_reads (local : Z -> Z) (t : Z) : list Z :=
  let a := local t - t in
  let u1 := t - a in
  let t1 := local u1 in
  if t1 =? t then
    let u0 := u1 - Datetime.max_fold_seconds in
    let b := local u0 - u0 in
    if a =? b then [t; u1; u0] else [t; u1; u0; t - b]
  else [t; u1; t - (t1 - u1)].

(** A reading of the clock that [local] can turn into a [datetime]: a time
    of the years [MINYEAR] to [MAXYEAR]. For any other reading it raises
    [ValueError] (year out of range). *)
Definition in_years (wall : Z) : Prop :=
  Datetime.utc_seconds Datetime.MINYEAR 1 1 <= wall
  < Datetime.utc_seconds (Datetime.MAXYEAR + 1) 1 1.

End BoundSpec.

Module Outage.
Import Client Downloader Scenario.

(** A directory that serves one page and then limits the rate. *)
Definition throttled (cursor : option string) (served : nat)
  : (exn + UsersResult) * nat :=
  (match cursor with
   | None =>
       inr {| ur_members := Some [mkUser "U1" (Some "Ada Lovelace") None (Some "ada")];
              ur_response_metadata := Some {| next_cursor := Some "u2" |} |}
   | Some _ => inl (SlackApiError "ratelimited")
   end,
   S served).

(** A directory that lists one user twice, under two names. *)
Definition renamed (cursor : option string) (served : nat)
  : (exn + UsersResult) * nat :=
  (match cursor with
   | None =>
       inr {| ur_members := Some [mkUser "U1" (Some "Ada Byron") None None];
              ur_response_metadata := Some {| next_cursor := Some "u2" |} |}
   | Some _ =>
       inr {| ur_members := Some [mkUser "U1" (Some "Ada Lovelace") None None];
              ur_response_metadata := None |}
   end,
   S served).

End Outage.

(* ===================================================================== *)
(** * The methods of [str] that the package calls *)
(* ===================================================================== *)

(** Texts are ASCII. *)
Module PyStr.

(** The ASCII characters that [str.strip()] removes: tab, line feed,
    vertical tab, form feed, carriage return, the four separators
    [0x1c]-[0x1f] and the space. *)
Definition is_space (c : ascii) : bool :=
  let n := nat_of_ascii c in
  ((9 <=? n) && (n <=? 13) || (28 <=? n) && (n <=? 32))%nat.

Fixpoint lstrip (s : string) : string :=
  match s with
  | String c s' => if is_space c then lstrip s' else s
  | EmptyString => EmptyString
  end.

Fixpoint rstrip (s : string) : string :=
  match s with
  | String c s' =>
      match rstrip s' with
      | EmptyString => if is_space c then EmptyString else String c EmptyString
      | r => String c r
      end
  | EmptyString => EmptyString
  end.

(** [s.strip()]. *)
Definition strip (s : string) : string := rstrip (lstrip s).

(** [s.split(sep)] for a separator of one character: the pieces between
    the separators, empty pieces included. *)
Fixpoint split (sep : ascii) (s : string) : list string :=
  match s with
  | EmptyString => [EmptyString]
  | String c s' =>
      if Ascii.eqb c sep then EmptyString :: split sep s'
      else
        match split sep s' with
        | piece :: pieces => String c piece :: pieces
        | [] => [String c EmptyString]
        end
  end.

End PyStr.

(* ===================================================================== *)
(** * The paths of [pathlib] on a POSIX host *)
(* ===================================================================== *)

(** A [Path] is modelled by its text, [str(path)]. The functions below are
    transcribed from [pathlib]'s pure POSIX flavour: a path is a root
    (nothing, [/] or [//]) and the components between the slashes, without
    the empty ones and the dots. *)
Module Pathlib.

Definition components (s : string) : list string :=
  List.filter (fun part => negb (String.eqb part EmptyString) && negb (String.eqb part "."))
              (PyStr.split "/" s).

Definition root_of (s : string) : string :=
  if String.prefix "//" s && negb (String.prefix "///" s) then "//"
  else if String.prefix "/" s then "/"
  else EmptyString.

(** ["/".join(parts)]. *)
Fixpoint join (parts : list string) : string :=
  match parts with
  | [] => EmptyString
  | [part] => part
  | part :: parts' => part +:+ "/" +:+ join parts'
  end.

Definition format (root : string) (parts : list string) : string :=
  let text := root +:+ join parts in
  if String.eqb text EmptyString then "." else text.

(** [str(Path(s))]. *)
Definition Path (s : string) : string := format (root_of s) (components s).

(** [path / other]. *)
Definition joinpath (path other : string) : string :=
  if String.prefix "/" other then Path other
  else format (root_of path) (components path ++ components other).

(** [path.name]. *)
Definition name (path : string) : string :=
  List.last (components path) EmptyString.

(** [path.parent]. *)
Definition parent (path : string) : string :=
  match components path with
  | [] => Path path
  | parts => format (root_of path) (removelast parts)
  end.

End Pathlib.

(* ===================================================================== *)
(** * config.py *)
(* ===================================================================== *)

(** The environment is read after [load_dotenv] has run: [env] maps the
    names of the variables that are set to their values. The directories
    that exist are the set of their paths; [mkdir(parents=True,
    exist_ok=True)] adds a path to that set (the parents it creates on the
    way and the failures of the operating system are outside the model). *)
Module Config.
Import PyStr.

(** [_parse_file_types(value)]. *)
Definition _parse_file_types (value : string) : list string :=
  if negb (truthy_str (Some value)) then []
  else
    map strip
        (List.filter (fun ft => truthy_str (Some (strip ft))) (split "," value)).

(** The fields of the [Config] dataclass. *)
Record Config : Type := mkConfig {
  slack_bot_token : string;
  channel_id : string;
  download_dir : string;
  messages_dir : string;
  download_files : bool;
  file_types : list string;
  oldest_date : option string;
  newest_date : option string
}.

(** [path.mkdir(parents=True, exist_ok=True)]. *)
Definition mkdir (path : string) : M (gset string) unit :=
  modify (fun directories => {[ path ]} ∪ directories).

(** [Config.__post_init__]. *)
Definition __post_init__ (self : Config) : M (gset string) Config :=
  if negb (truthy_str (Some (slack_bot_token self)))
  then raise (ValueError "SLACK_BOT_TOKEN is required")
  else if negb (truthy_str (Some (channel_id self)))
  then raise (ValueError "CHANNEL_ID is required")
  else
    let self := {| slack_bot_token := slack_bot_token self;
                   channel_id := channel_id self;
                   download_dir := Pathlib.Path (download_dir self);
                   messages_dir := Pathlib.Path (messages_dir self);
                   download_files := download_files self;
                   file_types := file_types self;
                   oldest_date := oldest_date self;
                   newest_date := newest_date self |} in
    (exec mkdir (download_dir self);
     exec mkdir (messages_dir self);
     ret self)%py.

(** [os.getenv(key, default)] and [os.getenv(key) or None]. *)
Definition getenv (env : gmap string string) (key fallback : string) : string :=
  default fallback (env !! key).

Definition getenv_or_none (env : gmap string string) (key : string) : option string :=
  if truthy_str (env !! key) then env !! key else None.

(** [Config.from_env()]. *)
Definition from_env (env : gmap string string) : M (gset string) Config :=
  __post_init__
    {| slack_bot_token := getenv env "SLACK_BOT_TOKEN" EmptyString;
       channel_id := getenv env "CHANNEL_ID" EmptyString;
       download_dir := Pathlib.Path (getenv env "DOWNLOAD_DIR" "./slack_files");
       messages_dir := Pathlib.Path (getenv env "MESSAGES_DIR" "./slack_messages");
       download_files :=
         String.eqb (Downloader.lower (getenv env "DOWNLOAD_FILES" "true")) "true";
       file_types := _parse_file_types (getenv env "FILE_TYPES" EmptyString);
       oldest_date := getenv_or_none env "OLDEST_DATE";
       newest_date := getenv_or_none env "NEWEST_DATE" |}.

End Config.

(* ===================================================================== *)
(** * Lists of file types as texts *)
(* ===================================================================== *)

Module FileTypesSpec.
Import PyStr Config.

(** A file type as the parser gives it: not empty, no white space at
    either end. *)
Definition trimmed (ft : string) : Prop :=
  ft <> EmptyString /\ strip ft = ft.

(** The character does not occur in the text. *)
Fixpoint free_of (c : ascii) (s : string) : bool :=
  match s with
  | EmptyString => true
  | String a s' => negb (Ascii.eqb a c) && free_of c s'
  end.

(** [",".join(types)]. *)
Fixpoint join_comma (types : list string) : string :=
  match types with
  | [] => EmptyString
  | [ft] => ft
  | ft :: types' => ft +:+ "," +:+ join_comma types'
  end.

End FileTypesSpec.

(* ===================================================================== *)
(** * utils.py: [format_timestamp] *)
(* ===================================================================== *)

Module Timestamps.

Section WithClock.

(** [datetime.fromtimestamp(float(ts)).strftime("%Y-%m-%d %H:%M:%S")]: the
    local date and time of a timestamp text, or the exception that [float]
    or [fromtimestamp] raises for it. *)
Variable local_time_text : string -> exn + string.

(** [format_timestamp(ts)]. *)
Definition format_timestamp (ts : option string) : exn + string :=
  if negb (truthy_str ts) then inr EmptyString
  else local_time_text (default EmptyString ts).

End WithClock.

End Timestamps.

(* ===================================================================== *)
(** * exporters.py *)
(* ===================================================================== *)

Module Exporters.

(** A row of the workbook. *)
Record Row : Type := mkRow {
  user_name : string;
  text : string;
  date : string
}.

(** What an export can change: the files (path to content) and the
    directories that exist. *)
Record Store : Type := mkStore {
  files : gmap string string;
  directories : gset string
}.

(** [path.mkdir(parents=True, exist_ok=True)]. *)
Definition mkdir (path : string) : M Store unit :=
  modify (fun store =>
    {| files := files store; directories := {[ path ]} ∪ directories store |}).

(** [with open(filepath, "w") as f: f.write(content)] and the like: the
    file is created or replaced. *)
Definition write_file (filepath content : string) : M Store unit :=
  modify (fun store =>
    {| files := <[filepath := content]> (files store);
       directories := directories store |}).

(** [bool(d)] for a dictionary. *)
Definition truthy_map (d : gmap string string) : bool :=
  negb (bool_decide (d = ∅)).

Section WithLibraries.

(** The text that [json.dump(messages, f, ensure_ascii=False, indent=2)]
    writes, and the workbook that
    [pd.DataFrame(excel_data).to_excel(filepath, index=False)] writes. *)
Variable json_dump : list Message -> string.
Variable to_excel : list Row -> string.
Variable local_time_text : string -> exn + string.

(** [save_to_json(messages, filepath)]. *)
Definition save_to_json (messages : list Message) (filepath : string)
  : M Store string :=
  let filepath := Pathlib.Path filepath in
  (exec mkdir (Pathlib.parent filepath);
   exec write_file filepath (json_dump messages);
   ret filepath)%py.

(** The body of the [for msg in messages] loop of [save_to_excel]. *)
Definition excel_row (user_map : gmap string string) (msg : Message) : exn + Row :=
  let user_id := m_user msg in
  let user_name :=
    if truthy_str user_id
    then default (default EmptyString user_id) (user_map !! default EmptyString user_id)
    else "SYSTEM" in
  let text := default EmptyString (m_text msg) in
  let text :=
    if truthy_map user_map
    then Utils.replace_mentions_with_names text user_map
    else text in
  match Timestamps.format_timestamp local_time_text (m_ts msg) with
  | inl e => inl e
  | inr date => inr {| user_name := user_name; text := text; date := date |}
  end.

Fixpoint excel_rows (user_map : gmap string string) (messages : list Message)
    (excel_data : list Row) : exn + list Row :=
  match messages with
  | [] => inr excel_data
  | msg :: messages' =>
      match excel_row user_map msg with
      | inl e => inl e
      | inr row => excel_rows user_map messages' (excel_data ++ [row])
      end
  end.

(** [save_to_excel(messages, filepath, user_map)]. *)
Definition save_to_excel (messages : list Message) (filepath : string)
    (user_map : option (gmap string string)) : M Store string :=
  let filepath := Pathlib.Path filepath in
  (exec mkdir (Pathlib.parent filepath);
   let user_map :=
     match user_map with
     | Some d => if truthy_map d then d else ∅
     | None => ∅
     end in
   do excel_data <- lift (excel_rows user_map messages []);
   exec write_file filepath (to_excel excel_data);
   ret filepath)%py.

End WithLibraries.

End Exporters.

(* ===================================================================== *)
(** * client.py: the two methods of one request *)
(* ===================================================================== *)

Module ClientInfo.
Import Client.

(** What [validate_token] reads of the answer of [auth.test], and
    [get_channel_info] of the ["channel"] object of [conversations.info];
    an answer of the platform carries these keys. *)
Record AuthInfo : Type := mkAuthInfo {
  ai_user : string;
  ai_team : string;
  ai_user_id : string;
  ai_team_id : string
}.

Record ChannelInfo : Type := mkChannelInfo {
  ci_name : string;
  ci_is_private : bool
}.

Section WithTransport.

Context {Srv : Type}.
Variable auth_test : Srv -> (exn + AuthInfo) * Srv.
Variable conversations_info : string -> Srv -> (exn + ChannelInfo) * Srv.

(** A request to an endpoint that the trace of the world does not record:
    the platform moves on, the rest of the world stays. *)
Definition call {A} (endpoint : Srv -> (exn + A) * Srv) : M (World Srv) A :=
  fun w =>
    let '(r, s) := endpoint (srv w) in
    let w' := {| srv := s;
                 history_calls := history_calls w;
                 users_calls := users_calls w;
                 progress_calls := progress_calls w |} in
    match r with
    | inl e => (Exc e, w')
    | inr a => (Val a, w')
    end.

(** [SlackClient.validate_token()]. *)
Definition validate_token : M (World Srv) AuthInfo :=
  try_except
    (do response <- call auth_test;
     ret {| ai_user := ai_user response;
            ai_team := ai_team response;
            ai_user_id := ai_user_id response;
            ai_team_id := ai_team_id response |})%py
    (fun e =>
       match e with
       | SlackApiError error =>
           Some (raise (SlackApiException ("Token validation failed: " +:+ error) error))
       | _ => None
       end).

(** [SlackClient.get_channel_info(channel_id)]. *)
Definition get_channel_info (channel_id : string) : M (World Srv) ChannelInfo :=
  try_except
    (do result <- call (conversations_info channel_id);
     ret {| ci_name := ci_name result; ci_is_private := ci_is_private result |})%py
    (fun e =>
       match e with
       | SlackApiError error =>
           Some
             (if String.eqb error "missing_scope" then
                raise (SlackApiException
                         "Token is missing required scope. Need channels:read or groups:read."
                         error)
              else if String.eqb error "channel_not_found" then
                raise (SlackApiException
                         ("Channel '" +:+ channel_id +:+
                          "' not found or bot doesn't have access.")
                         error)
              else
                raise (SlackApiException ("Channel access failed: " +:+ error) error))
       | _ => None
       end).

End WithTransport.

End ClientInfo.

(* ===================================================================== *)
(** * main.py *)
(* ===================================================================== *)

Module Main.
Import Client ClientInfo Downloader Exporters.

(** The line feed inside a printed text. *)
Definition nl : string := String (ascii_of_nat 10) EmptyString.

(** [str(e)] for the exceptions of the package, which are made with one
    message (the text that the SDK gives to its own [SlackApiError] is not
    modelled: the client never lets that exception through). *)
Definition str_of_exn (e : exn) : string :=
  match e with
  | SlackApiError error => error
  | SlackApiException message _ => message
  | DownloadError message => message
  | ValueError message => message
  | RequestException message => message
  end.

(** [str(len(l))]. *)
Definition str_of_len {A} (l : list A) : string :=
  str_of_int (Z.of_nat (length l)).

(** The callbacks that [download_channel_content] defines: each prints one
    line. *)
Definition on_progress (count : nat) : string :=
  "Found " +:+ str_of_int (Z.of_nat count) +:+ " messages so far...".

Definition on_download (c : HookCall) : string :=
  match c with
  | OnProgress filename index total =>
      "[" +:+ str_of_int (Z.of_nat index) +:+ "/" +:+ str_of_int (Z.of_nat total) +:+
      "] Downloading: " +:+ filename
  | OnError filename error =>
      "Failed to download " +:+ filename +:+ ": " +:+ str_of_exn error
  end.

Section WithHost.

(** The platform behind a [WebClient] made with a token, the network, and
    the libraries of the host. *)
Context {Srv Net : Type}.
Variable auth_test : string -> Srv -> (exn + AuthInfo) * Srv.
Variable conversations_history :
  string -> HistoryParams -> Srv -> (exn + HistoryResult) * Srv.
Variable users_list : string -> option string -> Srv -> (exn + UsersResult) * Srv.
Variable requests_get :
  string -> list (string * string) -> Net -> (exn + HttpResponse) * Net.
Variable local : Z -> Z.
Variable local_time_text : string -> exn + string.
Variable json_dump : list Message -> string.
Variable to_excel : list Row -> string.

(** The environment after [load_dotenv], and
    [datetime.now().strftime("%Y%m%d_%H%M%S")]. *)
Variable env : gmap string string.
Variable now : string.

(** The bound on the pages of one retrieval. *)
Variable fuel : nat.

(** What a run can observe and change: the platform with its trace, the
    network and the files, the directories that exist, and the lines
    printed. *)
Record Host : Type := mkHost {
  platform : World Srv;
  disk : Disk Net;
  folders : gset string;
  stdout : list string
}.

Definition print (line : string) : M Host unit :=
  modify (fun h =>
    {| platform := platform h; disk := disk h; folders := folders h;
       stdout := stdout h ++ [line] |}).

(** A computation on the directories, run on the host. *)
Definition with_folders {A} (m : M (gset string) A) : M Host A :=
  fun h =>
    let '(r, d) := m (folders h) in
    (r, {| platform := platform h; disk := disk h; folders := d; stdout := stdout h |}).

(** A call of the client, run on the host; the progress callback prints
    its line at each call. *)
Definition with_platform {A} (m : M (World Srv) A) : M Host A :=
  fun h =>
    let '(r, w) := m (platform h) in
    (r, {| platform := w; disk := disk h; folders := folders h;
           stdout :=
             stdout h ++
             map on_progress
                 (drop (length (progress_calls (platform h))) (progress_calls w)) |}).

(** An export, run on the files and directories of the host. *)
Definition with_store {A} (m : M Store A) : M Host A :=
  fun h =>
    let '(r, s) := m {| files := fs (disk h); directories := folders h |} in
    (r, {| platform := platform h;
           disk := {| net := net (disk h); requests := requests (disk h);
                      fs := files s |};
           folders := Exporters.directories s;
           stdout := stdout h |}).

(** A batch of downloads, run on the host; the two callbacks print their
    lines at each call. *)
Definition with_batch {A} (m : M (Batch Net) A) : M Host A :=
  fun h =>
    let '(r, (d, calls)) := m (disk h, []) in
    (r, {| platform := platform h; disk := d; folders := folders h;
           stdout := stdout h ++ map on_download calls |}).

(** [FileDownloader(token, download_dir)]: the constructor creates the
    directory. *)
Definition FileDownloader (download_dir : string) : M Host string :=
  let download_dir := Pathlib.Path download_dir in
  (exec with_folders (Config.mkdir download_dir);
   ret download_dir)%py.

(** The paths of the two exports:
    [config.messages_dir / f"channel_{config.channel_id}_{timestamp}.json"]
    and the same with [.xlsx]. *)
Definition export_path (config : Config.Config) (extension : string) : string :=
  Pathlib.joinpath (Config.messages_dir config)
    ("channel_" +:+ Config.channel_id config +:+ "_" +:+ now +:+ extension).

(** The part under [# Get user info for name resolution]. *)
Definition resolve_users (config : Config.Config) : M Host (gmap string string) :=
  (exec print "Fetching user information...";
   try_except
     (do user_map <-
        with_platform (get_users (users_list (Config.slack_bot_token config)) fuel);
      exec print ("Found information for " +:+
                  str_of_int (Z.of_nat (size user_map)) +:+ " users");
      ret user_map)
     (fun e =>
        match e with
        | SlackApiException _ _ =>
            Some (exec print ("Warning: Could not fetch user info: " +:+ str_of_exn e);
                  ret ∅)
        | _ => None
        end))%py.

(** The part under [# Save messages]. *)
Definition save_messages (config : Config.Config) (messages : list Message)
    (user_map : gmap string string) : M Host unit :=
  let json_filepath := export_path config ".json" in
  let excel_filepath := export_path config ".xlsx" in
  (exec with_store (save_to_json json_dump messages json_filepath);
   exec print ("Saved " +:+ str_of_len messages +:+ " messages to " +:+
               Pathlib.name json_filepath);
   exec with_store
          (save_to_excel to_excel local_time_text messages excel_filepath (Some user_map));
   print ("Saved " +:+ str_of_len messages +:+ " messages to " +:+
          Pathlib.name excel_filepath))%py.

(** The part under [# Download files if enabled]; the result is
    [files_downloaded]. *)
Definition download_attachments (config : Config.Config) (messages : list Message)
  : M Host (list string) :=
  if Config.download_files config then
    let files :=
      Extract.extract_files_from_messages messages
        (if truthy_list (Some (Config.file_types config))
         then Some (Config.file_types config) else None) in
    if truthy_list (Some files) then
      (exec print (nl +:+ "Downloading " +:+ str_of_len files +:+ " files...");
       do download_dir <- FileDownloader (Config.download_dir config);
       do files_downloaded <-
         with_batch
           (download_files requests_get (Config.slack_bot_token config) download_dir
              files true true);
       exec print ("Downloaded " +:+ str_of_len files_downloaded +:+ " files");
       ret files_downloaded)%py
    else
      (exec print "No files found in the messages.";
       ret [])%py
  else ret [].

(** The part under [# Summary]. *)
Definition summary (config : Config.Config) (messages : list Message)
    (files_downloaded : list string) : M Host unit :=
  (exec print (nl +:+ "=== Summary ===");
   exec print ("Messages: " +:+ str_of_len messages +:+ " messages saved");
   exec print ("JSON file: " +:+ export_path config ".json");
   exec print ("Excel file: " +:+ export_path config ".xlsx");
   exec when (Config.download_files config && truthy_list (Some files_downloaded))
          (print ("Files: " +:+ str_of_len files_downloaded +:+
                  " files downloaded to " +:+ Config.download_dir config));
   print ("===============" +:+ nl))%py.

(** The part of [download_channel_content] after the messages are
    there. *)
Definition save_and_download (config : Config.Config) (messages : list Message)
  : M Host unit :=
  (exec print ("Total messages found: " +:+ str_of_len messages);
   do user_map <- resolve_users config;
   exec save_messages config messages user_map;
   do files_downloaded <- download_attachments config messages;
   summary config messages files_downloaded)%py.

(** The part of [download_channel_content] after the configuration is
    loaded. *)
Definition fetch_and_save (config : Config.Config) : M Host unit :=
  let token := Config.slack_bot_token config in
  (exec print (nl +:+ "=== Slack Channel Content Downloader ===");
   exec print ("Channel ID: " +:+ Config.channel_id config);
   exec print ("Download files: " +:+ (if Config.download_files config then "Yes" else "No"));
   exec when (truthy_str (Config.oldest_date config))
          (print ("Date range: " +:+ default EmptyString (Config.oldest_date config) +:+
                  " to " +:+ or_str (Config.newest_date config) "present"));
   exec print ("======================================" +:+ nl);
   exec print "Validating Slack token...";
   do validated <-
     try_except
       (do auth_info <- with_platform (validate_token (auth_test token));
        exec print ("Authenticated as: " +:+ ai_user auth_info +:+
                    " in workspace: " +:+ ai_team auth_info);
        ret true)
       (fun e =>
          match e with
          | SlackApiException _ _ =>
              Some (exec print ("Token validation failed: " +:+ str_of_exn e);
                    ret false)
          | _ => None
          end);
   if negb validated then ret tt
   else
     exec print ("Fetching messages from channel " +:+ Config.channel_id config +:+ "...");
     do fetched <-
       try_except
         (do messages <-
            with_platform
              (get_channel_history (conversations_history token) local fuel
                 (Config.channel_id config)
                 (Config.oldest_date config) (Config.newest_date config) true);
          ret (Some messages))
         (fun e =>
            match e with
            | SlackApiException _ _ =>
                Some (exec print ("Failed to fetch messages: " +:+ str_of_exn e);
                      ret None)
            | _ => None
            end);
     match fetched with
     | None => ret tt
     | Some messages =>
         if negb (truthy_list (Some messages))
         then print (nl +:+ "No messages found in the channel.")
         else save_and_download config messages
     end)%py.

(** [download_channel_content()]. An [except] clause that ends with
    [return] hands [None] (or [false]) to the rest of the function, which
    then does nothing. *)
Definition download_channel_content : M Host unit :=
  (do loaded <-
     try_except
       (do config <- with_folders (Config.from_env env);
        ret (Some config))
       (fun e =>
          match e with
          | ValueError _ =>
              Some (exec print ("Configuration error: " +:+ str_of_exn e);
                    ret None)
          | _ => None
          end);
   match loaded with
   | None => ret tt
   | Some config => fetch_and_save config
   end)%py.

End WithHost.

Arguments Host Srv Net : clear implicits.

End Main.

(* ===================================================================== *)
(** * What a run of the driver prints and leaves *)
(* ===================================================================== *)

Module RunSpec.
Import Client ClientInfo Downloader Exporters Main.

(** The lines printed before the token is validated. *)
Definition banner (config : Config.Config) : list string :=
  [nl +:+ "=== Slack Channel Content Downloader ===";
   "Channel ID: " +:+ Config.channel_id config;
   "Download files: " +:+ (if Config.download_files config then "Yes" else "No")] ++
  (if truthy_str (Config.oldest_date config)
   then ["Date range: " +:+ default EmptyString (Config.oldest_date config) +:+
         " to " +:+ or_str (Config.newest_date config) "present"]
   else []) ++
  ["======================================" +:+ nl;
   "Validating Slack token..."].

(** The author of a message in the workbook: [SYSTEM] for a message
    without user, the name of the user when the mapping has one, the
    identifier otherwise. *)
Definition author (user_map : gmap string string) (msg : Message) : string :=
  match m_user msg with
  | Some user_id =>
      if String.eqb user_id EmptyString then "SYSTEM"
      else default user_id (user_map !! user_id)
  | None => "SYSTEM"
  end.

(** A row that shows a message: its author, its text with the mentions
    of known users named, and its time, empty for a message without
    timestamp. *)
Definition shows (local_time_text : string -> exn + string)
    (user_map : gmap string string) (msg : Message) (row : Row) : Prop :=
  user_name row = author user_map msg /\
  text row = Utils.replace_mentions_with_names (default EmptyString (m_text msg)) user_map /\
  match m_ts msg with
  | Some ts =>
      if String.eqb ts EmptyString then date row = EmptyString
      else local_time_text ts = inr (date row)
  | None => date row = EmptyString
  end.

(** What the rest of the world sees of a host: the files, the requests
    sent to the network, and the requests sent to the platform for the
    history and the directory. *)
Definition footprint {Srv Net} (h : Host Srv Net)
  : gmap string string * list (string * list (string * string)) *
    list (HistoryParams * (exn + HistoryResult)) *
    list (option string * (exn + UsersResult)) :=
  (fs (disk h), requests (disk h), history_calls (platform h), users_calls (platform h)).

(** What the driver makes of the outcome of [get_users]: the mapping it
    goes on with and the line it prints, when it goes on. *)
Definition resolution (outcome : res (gmap string string))
  : option (gmap string string * string) :=
  match outcome with
  | Val user_map =>
      Some (user_map,
            "Found information for " +:+ str_of_int (Z.of_nat (size user_map)) +:+
            " users")
  | Exc (SlackApiException message _) =>
      Some (∅, "Warning: Could not fetch user info: " +:+ message)
  | _ => None
  end.

(** The lines of the summary. *)
Definition summary_lines (config : Config.Config) (json excel : string)
    (messages : list Message) (files_downloaded : list string) : list string :=
  [nl +:+ "=== Summary ===";
   "Messages: " +:+ str_of_len messages +:+ " messages saved";
   "JSON file: " +:+ json;
   "Excel file: " +:+ excel] ++
  (if Config.download_files config && truthy_list (Some files_downloaded)
   then ["Files: " +:+ str_of_len files_downloaded +:+ " files downloaded to " +:+
         Config.download_dir config]
   else []) ++
  ["===============" +:+ nl].

(** The attachments that the driver selects:
    [extract_files_from_messages(messages, config.file_types or None)]. *)
Definition selected (config : Config.Config) (messages : list Message) : list FileInfo :=
  Extract.extract_files_from_messages messages
    (if truthy_list (Some (Config.file_types config))
     then Some (Config.file_types config) else None).

End RunSpec.

(* ===================================================================== *)
(** * Scenarios: runs of the driver *)
(* ===================================================================== *)

Module Runs.
Import Client ClientInfo Downloader Exporters Main Scenario Outage.

(** An environment with a token and a channel, downloads off. *)
Definition quiet : gmap string string :=
  <["SLACK_BOT_TOKEN" := "xoxb-token"]>
    (<["CHANNEL_ID" := "C42"]>
       (<["DOWNLOAD_FILES" := "False"]>
          (<["FILE_TYPES" := " pdf, ,png "]> ∅))).

(** The configuration it gives. *)
Definition quiet_config : Config.Config :=
  {| Config.slack_bot_token := "xoxb-token";
     Config.channel_id := "C42";
     Config.download_dir := "slack_files";
     Config.messages_dir := "slack_messages";
     Config.download_files := false;
     Config.file_types := ["pdf"; "png"];
     Config.oldest_date := None;
     Config.newest_date := None |}.

(** The same with a newest date that is no date. *)
Definition misdated : gmap string string :=
  <["NEWEST_DATE" := "2024-02-30"]> quiet.

(** A platform that knows the token, and one that refuses it. *)
Definition welcome (token : string) (served : nat) : (exn + AuthInfo) * nat :=
  (inr (mkAuthInfo "exporter" "Example" "U0" "T0"), S served).

Definition unwelcome (token : string) (served : nat) : (exn + AuthInfo) * nat :=
  (inl (SlackApiError "invalid_auth"), S served).

(** The libraries of the host. *)
Definition clock (ts : string) : exn + string := inr ("at " +:+ ts).

Definition as_json (messages : list Message) : string :=
  "[" +:+ str_of_len messages +:+ " messages]".

Definition as_workbook (rows : list Row) : string :=
  "[" +:+ str_of_len rows +:+ " rows]".

Definition start : Host nat nat :=
  {| platform := fresh; disk := empty_disk; folders := ∅; stdout := [] |}.

(** The run on a channel of three messages whose directory limits the
    rate. *)
Definition quiet_run : res unit * Host nat nat :=
  download_channel_content welcome (fun _ => stuck) (fun _ => throttled) web
    utc clock as_json as_workbook quiet "20240301_120000" 5 start.

(** An environment that leaves downloads on, and a channel whose only
    message carries two attachments. *)
Definition eager : gmap string string :=
  <["SLACK_BOT_TOKEN" := "xoxb-token"]> (<["CHANNEL_ID" := "C42"]> ∅).

Definition attached (token : string) (params : HistoryParams) (served : nat)
  : (exn + HistoryResult) * nat :=
  (inr {| hr_messages :=
            Some [mkMessage (Some "1700000000.000100") None (Some "files for <@U1>")
                            (Some [report; expired])];
          hr_has_more := Some false;
          hr_response_metadata := None |},
   S served).

Definition eager_run : res unit * Host nat nat :=
  download_channel_content welcome attached (fun _ => directory) web
    utc clock as_json as_workbook eager "20240301_120000" 5 start.

End Runs.

(* ===================================================================== *)
(** * Properties of the extraction of attachment descriptors *)
(* ===================================================================== *)

Section ExtractFacts.
Import Extract.

Lemma collect_files_acc (messages : list Message) (acc : list FileInfo) :
  fold_left
    (fun all_files message =>
       let files := default [] (m_files message) in
       if truthy_list (Some files) then all_files ++ files else all_files)
    messages acc
  = acc ++ attachments_in_order messages.
Proof.
  revert acc. induction messages as [|m ms IH]; intros acc; simpl.
  - by rewrite app_nil_r.
  - rewrite IH. destruct (default [] (m_files m)) as [|f fs]; simpl.
    + done.
    + by rewrite <- app_assoc.
Qed.

Lemma filetype_in_iff (file_types : list string) (f : FileInfo) :
  filetype_in file_types f = true <->
  exists tag, filetype f = Some tag /\ tag ∈ file_types.
Proof.
  unfold filetype_in. destruct (filetype f) as [t|].
  - rewrite bool_decide_eq_true. split.
    + intros H. by exists t.
    + intros (t' & [= ->] & H). done.
  - split; [done | by intros (t' & ? & _)].
Qed.

(** C6. [extract_files_from_messages] returns the attachment lists of the
    messages concatenated in message order (attachment order kept inside a
    message); without a filter (absent or empty) that is the whole result,
    and with a non-empty filter the result keeps, in the same order, exactly
    the descriptors whose type tag is one of the given strings, compared by
    string equality: filtering on ["pdf"] keeps no descriptor tagged
    ["PDF"]. *)
Theorem extract_files_flatten_then_filter :
  (forall messages,
      extract_files_from_messages messages None = attachments_in_order messages /\
      extract_files_from_messages messages (Some []) = attachments_in_order messages) /\
  (forall messages t ts,
      extract_files_from_messages messages (Some (t :: ts))
      = List.filter (filetype_in (t :: ts)) (attachments_in_order messages)) /\
  (forall messages t ts f,
      f ∈ extract_files_from_messages messages (Some (t :: ts)) <->
      f ∈ attachments_in_order messages /\
      exists tag, filetype f = Some tag /\ tag ∈ t :: ts) /\
  (forall messages f,
      f ∈ extract_files_from_messages messages (Some ["pdf"]) ->
      filetype f = Some "pdf" /\ filetype f <> Some "PDF" /\ filetype f <> Some "Pdf").
Proof.
  assert (Hfilter : forall messages t ts,
             extract_files_from_messages messages (Some (t :: ts))
             = List.filter (filetype_in (t :: ts)) (attachments_in_order messages)).
  { intros. unfold extract_files_from_messages. simpl. by rewrite collect_files_acc. }
  assert (Hmem : forall messages t ts f,
             f ∈ extract_files_from_messages messages (Some (t :: ts)) <->
             f ∈ attachments_in_order messages /\
             exists tag, filetype f = Some tag /\ tag ∈ t :: ts).
  { intros. rewrite Hfilter, !list_elem_of_In, filter_In, filetype_in_iff.
    by setoid_rewrite list_elem_of_In. }
  split; [|split; [|split]].
  - intros messages. unfold extract_files_from_messages. simpl.
    by rewrite collect_files_acc.
  - apply Hfilter.
  - apply Hmem.
  - intros messages f H.
    apply Hmem in H. destruct H as (_ & tag & Ht & Hin).
    apply list_elem_of_singleton in Hin. subst. by rewrite Ht.
Qed.

(** A descriptor whose tag differs only in case is dropped. *)
Example extract_files_case_sensitive :
  let upper := mkFileInfo (Some "https://files/a") (Some "a.PDF") (Some "PDF") in
  let exact := mkFileInfo (Some "https://files/b") (Some "b.pdf") (Some "pdf") in
  let untagged := mkFileInfo (Some "https://files/c") (Some "c") None in
  extract_files_from_messages
    [mkMessage (Some "1.0") None None (Some [upper; exact]);
     mkMessage (Some "2.0") None None None;
     mkMessage (Some "3.0") None None (Some [untagged; exact])]
    (Some ["pdf"])
  = [exact; exact].
Proof. reflexivity. Qed.

End ExtractFacts.

(* ===================================================================== *)
(** * Properties of the paginated history retrieval *)
(* ===================================================================== *)

Section HistoryFacts.
Import Client ClientSpec HistorySpec.

Context {Srv : Type}.
Variable conversations_history : HistoryParams -> Srv -> (exn + HistoryResult) * Srv.
Variable local : Z -> Z.

Abbreviation call_history := (call_history conversations_history).
Abbreviation history_loop := (history_loop conversations_history).
Abbreviation get_channel_history := (get_channel_history conversations_history local).
Abbreviation serves := (serves conversations_history).

Lemma call_history_eq params w a s1 :
  conversations_history params (srv w) = (a, s1) ->
  call_history params w =
    (match a with inl e => Exc e | inr page => Val page end,
     {| srv := s1;
        history_calls := history_calls w ++ [(params, a)];
        users_calls := users_calls w;
        progress_calls := progress_calls w |}).
Proof. intros H. unfold Client.call_history. rewrite H. by destruct a. Qed.

Lemma page_goes_on_continues page :
  page_goes_on page ->
  page_messages page <> [] /\ continues page = true /\
  truthy_str (page_cursor page) = true.
Proof.
  intros (Hm & Hh & c & Hc & Hne). split; [done|].
  assert (truthy_str (page_cursor page) = true) as Ht.
  { rewrite Hc. simpl. destruct c; [done | reflexivity]. }
  split; [|done].
  unfold continues, has_next_cursor. rewrite Hh. simpl. exact Ht.
Qed.

Lemma page_is_last_stops page :
  page_is_last page -> page_messages page = [] \/ continues page = false.
Proof.
  unfold page_is_last, continues, has_next_cursor, page_cursor.
  intros [H | [H | [H | [H | H]]]]; [by left | right ..]; rewrite H; simpl;
    try done; by rewrite andb_false_r.
Qed.

(** One turn of the loop on a page after which pagination goes on. *)
Lemma history_loop_goes_on fuel channel_id o n on_progress cursor acc w page s1 :
  conversations_history (history_params channel_id o n cursor) (srv w) = (inr page, s1) ->
  page_goes_on page ->
  exists w1,
    srv w1 = s1 /\
    history_calls w1 =
      history_calls w ++ [(history_params channel_id o n cursor, inr page)] /\
    history_loop (S fuel) channel_id o n on_progress cursor acc w =
    history_loop fuel channel_id o n on_progress (page_cursor page)
      (acc ++ page_messages page) w1.
Proof.
  intros Hcall Hgo. apply page_goes_on_continues in Hgo as (Hm & Hc & _).
  simpl. unfold bind at 1. rewrite (call_history_eq _ _ _ _ Hcall).
  unfold page_messages in Hm.
  destruct (default [] (hr_messages page)) as [|m ms] eqn:Hmsgs; [done|].
  simpl negb. cbv iota. rewrite Hc.
  unfold page_messages, page_cursor. rewrite Hmsgs.
  destruct on_progress; simpl; unfold bind, when, report_progress, modify, ret;
    simpl; eexists; (split; [|split]);
    [ | | reflexivity | | | reflexivity ]; reflexivity.
Qed.

(** One turn of the loop on a page at which pagination stops. *)
Lemma history_loop_stops fuel channel_id o n on_progress cursor acc w page s1 :
  conversations_history (history_params channel_id o n cursor) (srv w) = (inr page, s1) ->
  page_is_last page ->
  exists w1,
    srv w1 = s1 /\
    history_calls w1 =
      history_calls w ++ [(history_params channel_id o n cursor, inr page)] /\
    history_loop (S fuel) channel_id o n on_progress cursor acc w =
    (Val (acc ++ page_messages page), w1).
Proof.
  intros Hcall Hlast. apply page_is_last_stops in Hlast.
  simpl. unfold bind at 1. rewrite (call_history_eq _ _ _ _ Hcall).
  unfold page_messages in *.
  destruct (default [] (hr_messages page)) as [|m ms] eqn:Hmsgs.
  - simpl. unfold ret. rewrite app_nil_r.
    eexists; (split; [|split]); [ | | reflexivity ]; reflexivity.
  - destruct Hlast as [? | Hc]; [done|].
    simpl negb. cbv iota. rewrite Hc.
    destruct on_progress; simpl; unfold bind, when, report_progress, modify, ret;
      simpl; eexists; (split; [|split]);
      [ | | reflexivity | | | reflexivity ]; reflexivity.
Qed.

(** One turn of the loop on a request that the platform refuses. *)
Lemma history_loop_raises fuel channel_id o n on_progress cursor acc w e s1 :
  conversations_history (history_params channel_id o n cursor) (srv w) = (inl e, s1) ->
  history_loop (S fuel) channel_id o n on_progress cursor acc w =
    (Exc e,
     {| srv := s1;
        history_calls :=
          history_calls w ++ [(history_params channel_id o n cursor, inl e)];
        users_calls := users_calls w;
        progress_calls := progress_calls w |}).
Proof.
  intros Hcall. simpl. unfold bind at 1.
  by rewrite (call_history_eq _ _ _ _ Hcall).
Qed.

(** The loop on a platform that serves pages on which pagination goes on and
    then a last answer: a page at which it stops, or an error. *)
Lemma history_loop_run channel_id o n on_progress init final :
  Forall page_goes_on init ->
  match final with inr page => page_is_last page | inl _ => True end ->
  forall fuel cursor acc w s',
    serves channel_id o n cursor (srv w) (map inr init ++ [final]) s' ->
    (length init < fuel)%nat ->
    exists w',
      srv w' = s' /\
      history_calls w' =
        history_calls w ++ exchange channel_id o n cursor (map inr init ++ [final]) /\
      history_loop fuel channel_id o n on_progress cursor acc w =
        (match final with
         | inr page => Val (acc ++ flat_map page_messages init ++ page_messages page)
         | inl e => Exc e
         end, w').
Proof.
  intros Hinit Hfinal. induction Hinit as [|page init Hgo Hinit IH];
    intros fuel cursor acc w s' Hserves Hfuel.
  - destruct fuel as [|fuel]; [simpl in Hfuel; lia|].
    simpl in Hserves. destruct Hserves as (s1 & Hcall & ->).
    destruct final as [e | page].
    + rewrite (history_loop_raises _ _ _ _ _ _ _ _ _ _ Hcall).
      eexists; (split; [|split]); [ | | reflexivity ]; reflexivity.
    + destruct (history_loop_stops fuel _ _ _ on_progress _ acc _ _ _ Hcall Hfinal)
        as (w1 & Hs & Hc & Hrun).
      exists w1. by rewrite Hrun.
  - destruct fuel as [|fuel]; [simpl in Hfuel; lia|].
    simpl in Hserves. destruct Hserves as (s1 & Hcall & Hrest).
    destruct (history_loop_goes_on fuel _ _ _ on_progress _ acc _ _ _ Hcall Hgo)
      as (w1 & Hs & Hc & Hrun).
    rewrite Hrun. subst s1.
    destruct (IH fuel (page_cursor page) (acc ++ page_messages page) w1 s' Hrest)
      as (w' & Hs' & Hc' & Hrun'); [simpl in Hfuel; lia|].
    exists w'. split; [done|]. split.
    + rewrite Hc', Hc. simpl. by rewrite <- app_assoc.
    + rewrite Hrun'. destruct final; [done|]. simpl. by rewrite <- !app_assoc.
Qed.

Lemma exchange_limits channel_id o n cursor answers :
  Forall (fun c => hp_channel (fst c) = channel_id /\ hp_limit (fst c) = 1000)
         (exchange channel_id o n cursor answers).
Proof.
  revert cursor. induction answers as [|a answers IH]; intros cursor; simpl.
  - constructor.
  - constructor; [done | apply IH].
Qed.

Lemma exchange_cursors channel_id o n cursor init final :
  Forall page_goes_on init ->
  truthy_str cursor = true \/ cursor = None ->
  map (fun c => hp_cursor (fst c))
      (exchange channel_id o n cursor (map inr init ++ [final]))
  = cursor :: map page_cursor init.
Proof.
  intros Hinit. revert cursor.
  induction Hinit as [|page init Hgo Hinit IH]; intros cursor Hcur; simpl.
  - destruct Hcur as [-> | ->]; reflexivity.
  - f_equal.
    + destruct Hcur as [-> | ->]; reflexivity.
    + apply IH. left. by apply page_goes_on_continues in Hgo as (_ & _ & ?).
Qed.

Lemma get_channel_history_unfold fuel channel_id oldest_date newest_date
    oldest_ts newest_ts on_progress w :
  Utils.convert_date_to_ts local oldest_date = inr oldest_ts ->
  Utils.convert_date_to_ts local newest_date = inr newest_ts ->
  get_channel_history fuel channel_id oldest_date newest_date on_progress w =
  try_except
    (history_loop fuel channel_id oldest_ts newest_ts on_progress None [])
    (history_handler channel_id) w.
Proof.
  intros Ho Hn. unfold Client.get_channel_history, try_except, bind.
  rewrite Ho, Hn. reflexivity.
Qed.

(** C1. Whatever the channel and the (valid or absent) date bounds: when
    the platform, asked for pages of up to 1000 messages with the cursor of
    the page before, serves pages that have messages, the "has more"
    indicator and a next-cursor token, and then a page that has no message
    or lacks the indicator or the token, [get_channel_history] returns (with
    enough fuel for these pages) the messages of all the pages served, in
    the order of arrival, and has sent exactly these requests: each asks for
    the channel with limit 1000, the first without cursor and each later one
    with the cursor of the page before. In particular a page that reports
    "has more" without a token ends the retrieval. *)
Theorem get_channel_history_concatenates_pages
    fuel channel_id oldest_date newest_date oldest_ts newest_ts on_progress
    w init last s' :
  Utils.convert_date_to_ts local oldest_date = inr oldest_ts ->
  Utils.convert_date_to_ts local newest_date = inr newest_ts ->
  Forall page_goes_on init ->
  page_is_last last ->
  serves channel_id oldest_ts newest_ts None (srv w) (map inr init ++ [inr last]) s' ->
  (length init < fuel)%nat ->
  exists w',
    get_channel_history fuel channel_id oldest_date newest_date on_progress w
      = (Val (flat_map page_messages (init ++ [last])), w') /\
    srv w' = s' /\
    history_calls w' =
      history_calls w ++
      exchange channel_id oldest_ts newest_ts None (map inr init ++ [inr last]) /\
    Forall (fun c => hp_channel (fst c) = channel_id /\ hp_limit (fst c) = 1000)
           (exchange channel_id oldest_ts newest_ts None (map inr init ++ [inr last])) /\
    map (fun c => hp_cursor (fst c))
        (exchange channel_id oldest_ts newest_ts None (map inr init ++ [inr last]))
      = None :: map page_cursor init.
Proof.
  intros Ho Hn Hinit Hlast Hserves Hfuel.
  destruct (history_loop_run channel_id oldest_ts newest_ts on_progress init (inr last)
              Hinit Hlast fuel None [] w s' Hserves Hfuel) as (w' & Hs & Hc & Hrun).
  exists w'. split; [|split; [done|split; [done|split]]].
  - rewrite (get_channel_history_unfold _ _ _ _ _ _ _ _ Ho Hn).
    unfold try_except. rewrite Hrun. simpl.
    rewrite flat_map_app. simpl. by rewrite app_nil_r.
  - apply exchange_limits.
  - apply exchange_cursors; [done | by right].
Qed.

(** C5. Whatever the channel: when a request to the platform fails with a
    remote error code, at the first page or after any number of pages that
    were fetched, [get_channel_history] raises: the exception carries the
    remote code and the message of its class (missing scope, channel not
    found, any other code), and no message is returned, so the pages already
    fetched are dropped. *)
Theorem get_channel_history_raises_on_remote_error
    fuel channel_id oldest_date newest_date oldest_ts newest_ts on_progress
    w init error s' :
  Utils.convert_date_to_ts local oldest_date = inr oldest_ts ->
  Utils.convert_date_to_ts local newest_date = inr newest_ts ->
  Forall page_goes_on init ->
  serves channel_id oldest_ts newest_ts None (srv w)
         (map inr init ++ [inl (SlackApiError error)]) s' ->
  (length init < fuel)%nat ->
  exists w',
    get_channel_history fuel channel_id oldest_date newest_date on_progress w
      = (Exc (SlackApiException (history_error_message channel_id error) error), w') /\
    srv w' = s' /\
    (forall messages,
        fst (get_channel_history fuel channel_id oldest_date newest_date on_progress w)
        <> Val messages) /\
    (error = "missing_scope" -> classify error = AuthError) /\
    (error = "channel_not_found" -> classify error = NotFoundError) /\
    (error <> "missing_scope" -> error <> "channel_not_found" ->
     classify error = TransportError).
Proof.
  intros Ho Hn Hinit Hserves Hfuel.
  destruct (history_loop_run channel_id oldest_ts newest_ts on_progress init
              (inl (SlackApiError error)) Hinit I fuel None [] w s' Hserves Hfuel)
    as (w' & Hs & Hc & Hrun).
  assert (Hres : get_channel_history fuel channel_id oldest_date newest_date on_progress w
                 = (Exc (SlackApiException (history_error_message channel_id error) error),
                    w')).
  { rewrite (get_channel_history_unfold _ _ _ _ _ _ _ _ Ho Hn).
    unfold try_except. rewrite Hrun. simpl.
    unfold history_error_message, classify.
    destruct (String.eqb error "missing_scope"); [reflexivity|].
    destruct (String.eqb error "channel_not_found"); reflexivity. }
  exists w'. split; [done|]. split; [done|]. split.
  { intros messages. by rewrite Hres. }
  unfold classify. split; [|split].
  - by intros ->.
  - by intros ->.
  - intros H1 H2. apply String.eqb_neq in H1, H2. by rewrite H1, H2.
Qed.

End HistoryFacts.

(* ===================================================================== *)
(** * Properties of the user directory *)
(* ===================================================================== *)

Section UsersFacts.
Import Client ClientSpec.

Context {Srv : Type}.
Variable users_list : option string -> Srv -> (exn + UsersResult) * Srv.

Abbreviation users_loop := (users_loop users_list).
Abbreviation get_users := (get_users users_list).








End UsersFacts.

(* ===================================================================== *)
(** * Properties of the file downloader *)
(* ===================================================================== *)

Section DownloadFacts.
Import Downloader DownloadSpec.

Context {Net : Type}.
Variable requests_get :
  string -> list (string * string) -> Net -> (exn + HttpResponse) * Net.
Variable token : string.
Variable download_dir : string.

Abbreviation download_file := (download_file requests_get token download_dir).
Abbreviation download_loop := (download_loop requests_get token download_dir).
Abbreviation download_files := (download_files requests_get token download_dir).
Abbreviation attempts := (attempts requests_get token download_dir).
Abbreviation auth_headers := (auth_headers token).
Abbreviation numbered_path := (numbered_path download_dir).

Lemma str_app_cons (c : ascii) (a b : string) :
  String c a +:+ b = String c (a +:+ b).
Proof. reflexivity. Qed.

Lemma str_app_nil_r (s : string) : s +:+ EmptyString = s.
Proof.
  induction s as [|c s IH]; [done|]. by rewrite str_app_cons, IH.
Qed.

Lemma str_app_assoc (a b c : string) : (a +:+ b) +:+ c = a +:+ (b +:+ c).
Proof.
  induction a as [|x a IH]; [done|]. by rewrite !str_app_cons, IH.
Qed.

Lemma written_content (chunks : list string) (content : string) :
  fold_left
    (fun content chunk =>
       if truthy_str (Some chunk) then content +:+ chunk else content)
    chunks content
  = content +:+ body_of chunks.
Proof.
  revert content. induction chunks as [|chunk chunks IH]; intros content; simpl.
  - by rewrite str_app_nil_r.
  - rewrite IH. destruct chunk as [|c chunk]; simpl.
    + done.
    + by rewrite str_app_assoc.
Qed.

Lemma truthy_str_true (o : option string) :
  truthy_str o = true <-> exists s, o = Some s /\ s <> EmptyString.
Proof.
  destruct o as [[|c s]|]; simpl; split; try done.
  - intros (s & [= <-] & H). done.
  - intros _. by eexists.
  - by intros (s & ? & _).
Qed.

Lemma truthy_str_false (o : option string) :
  truthy_str o = false <-> o = None \/ o = Some EmptyString.
Proof.
  destruct o as [[|c s]|]; simpl; split; try done; auto.
  - by intros [? | ?].
Qed.

(** A successful download was asked from the network with the token, and
    left the body of the response under the path it returns. *)
Lemma download_file_success file_info file_number d p d1 :
  download_file file_info file_number d = (Val p, d1) ->
  exists url filename response,
    url_private_download file_info = Some url /\ url <> EmptyString /\
    f_name file_info = Some filename /\ filename <> EmptyString /\
    requests_get url auth_headers (net d) = (inr response, net d1) /\
    status_code response = 200 /\
    contains "text/html" (lower (default EmptyString (content_type response))) = false /\
    p = match file_number with
        | Some n => numbered_path n filename
        | None => path_join download_dir filename
        end /\
    requests d1 = requests d ++ [(url, auth_headers)] /\
    fs d1 = <[p := body_of (body_chunks response)]> (fs d).
Proof.
  unfold Downloader.download_file.
  destruct (truthy_str (url_private_download file_info)) eqn:Hu; simpl; [|done].
  destruct (truthy_str (f_name file_info)) eqn:Hf; simpl; [|done].
  apply truthy_str_true in Hu as (url & Hu & Hune).
  apply truthy_str_true in Hf as (filename & Hf & Hfne).
  rewrite Hu, Hf. simpl.
  unfold bind at 1, http_get.
  change [("Authorization", "Bearer " +:+ token); ("User-Agent", "Mozilla/5.0")]
    with auth_headers.
  destruct (requests_get url auth_headers (net d)) as [[e | response] n1] eqn:Hget;
    [done|].
  destruct (status_code response =? 200) eqn:Hs; simpl; [|done].
  destruct (contains "text/html" _) eqn:Hc; [done|].
  unfold bind, write_chunks, modify, ret. simpl.
  intros [= <- <-]. simpl.
  exists url, filename, response.
  rewrite written_content. simpl.
  apply Z.eqb_eq in Hs.
  repeat (split; [done|]). done.
Qed.

(** C4. For every descriptor: [download_file] raises [DownloadError], with
    nothing requested from the network and nothing written, when the
    download URL or the file name is missing or empty; once the request is
    answered, it raises [DownloadError] when the status is not 200, and also
    when the status is 200 but the declared content type contains
    [text/html] (in any letter case), as [text/html; charset=utf-8] does;
    otherwise it writes the body under the path it returns. *)
Theorem download_file_fails_or_saves file_info file_number d :
  ((url_private_download file_info = None \/
    url_private_download file_info = Some EmptyString \/
    f_name file_info = None \/ f_name file_info = Some EmptyString) ->
   exists message,
     download_file file_info file_number d = (Exc (DownloadError message), d)) /\
  (forall url filename response n1,
      url_private_download file_info = Some url -> url <> EmptyString ->
      f_name file_info = Some filename -> filename <> EmptyString ->
      requests_get url auth_headers (net d) = (inr response, n1) ->
      let asked := {| net := n1;
                      requests := requests d ++ [(url, auth_headers)];
                      fs := fs d |} in
      let declared := lower (default EmptyString (content_type response)) in
      let path := match file_number with
                  | Some n => numbered_path n filename
                  | None => path_join download_dir filename
                  end in
      (status_code response <> 200 ->
       download_file file_info file_number d =
         (Exc (DownloadError ("Failed to download " +:+ filename +:+
                              " - Status Code: " +:+
                              str_of_int (status_code response))), asked)) /\
      (status_code response = 200 -> contains "text/html" declared = true ->
       download_file file_info file_number d =
         (Exc (DownloadError ("Failed to download " +:+ filename +:+
                              " - Got HTML login page instead of file")), asked)) /\
      (status_code response = 200 -> contains "text/html" declared = false ->
       download_file file_info file_number d =
         (Val path,
          {| net := n1;
             requests := requests d ++ [(url, auth_headers)];
             fs := <[path := body_of (body_chunks response)]> (fs d) |}))) /\
  contains "text/html" (lower "text/html; charset=utf-8") = true.
Proof.
  split; [|split; [|reflexivity]].
  - intros H. unfold Downloader.download_file.
    destruct (truthy_str (url_private_download file_info)) eqn:Hu; simpl;
      [|by eexists].
    destruct (truthy_str (f_name file_info)) eqn:Hf; simpl; [|by eexists].
    apply truthy_str_true in Hu as (url & Hu & Hune).
    apply truthy_str_true in Hf as (filename & Hf & Hfne).
    rewrite Hu, Hf in H. destruct H as [? | [? | [? | ?]]]; congruence.
  - intros url filename response n1 Hu Hune Hf Hfne Hget asked declared path.
    assert (Htu : truthy_str (url_private_download file_info) = true).
    { apply truthy_str_true. by exists url. }
    assert (Htf : truthy_str (f_name file_info) = true).
    { apply truthy_str_true. by exists filename. }
    assert (Hrun : forall (k : HttpResponse -> M (Disk Net) string),
               bind (http_get requests_get url auth_headers) k d = k response asked).
    { intros k. unfold bind, http_get. by rewrite Hget. }
    unfold Downloader.download_file. rewrite Htu, Htf, Hu, Hf. simpl.
    change [("Authorization", "Bearer " +:+ token); ("User-Agent", "Mozilla/5.0")]
      with auth_headers.
    rewrite !Hrun. fold declared.
    split; [|split].
    + intros Hs. apply Z.eqb_neq in Hs. by rewrite Hs.
    + intros Hs Hc. apply Z.eqb_eq in Hs. by rewrite Hs, Hc.
    + intros Hs Hc. apply Z.eqb_eq in Hs. rewrite Hs, Hc. simpl.
      unfold bind, write_chunks, modify, ret. simpl.
      by rewrite written_content.
Qed.

Lemma download_loop_run files : forall i total on_progress on_error downloaded d hooks rs d',
  attempts i files d = (rs, d') ->
  Forall contained rs ->
  download_loop i total files on_progress on_error downloaded (d, hooks) =
    (Val (downloaded ++ successes rs),
     (d', hooks ++ hook_calls i total files rs on_progress on_error)).
Proof.
  induction files as [|f files IH];
    intros i total on_progress on_error downloaded d hooks rs d' Hatt Hok.
  - injection Hatt as <- <-. simpl. unfold ret. by rewrite !app_nil_r.
  - simpl in Hatt.
    destruct (download_file f (Some (Z.of_nat i)) d) as [r d1] eqn:Hdl.
    destruct (attempts (S i) files d1) as [rs' d2] eqn:Hrest.
    injection Hatt as <- <-.
    apply Forall_cons in Hok as [Hr Hok].
    specialize (IH (S i) total on_progress on_error).
    simpl. unfold bind at 1.
    assert (Hprog : forall b,
               when on_progress
                 (call_hook (Net := Net) (OnProgress (default "unknown" (f_name f)) (i + 1) total)) b
               = (Val tt,
                  (fst b, snd b ++ (if on_progress
                                    then [OnProgress (reported_name f) (S i) total]
                                    else [])))).
    { intros [bd bh]. unfold when, call_hook, modify, ret, reported_name.
      rewrite Nat.add_1_r. destruct on_progress; simpl; [done|].
      by rewrite app_nil_r. }
    rewrite Hprog. simpl fst; simpl snd.
    unfold bind at 1, try_except, bind at 1, on_disk. simpl fst; simpl snd.
    rewrite Hdl.
    destruct r as [p | e |]; [| |done].
    + unfold ret. rewrite (IH _ _ _ _ _ Hrest Hok). simpl.
      by rewrite <- !app_assoc.
    + destruct e; try done.
      unfold bind, when, call_hook, modify, ret, reported_name.
      destruct on_error; simpl; rewrite (IH _ _ _ _ _ Hrest Hok);
        simpl; by rewrite <- ?app_assoc.
Qed.

Lemma attempts_length files : forall i d rs d',
  attempts i files d = (rs, d') -> length rs = length files.
Proof.
  induction files as [|f files IH]; intros i d rs d' H; simpl in H.
  - by injection H as <- <-.
  - destruct (download_file f _ d) as [r d1].
    destruct (attempts (S i) files d1) as [rs' d2] eqn:Hrest.
    injection H as <- <-. simpl. f_equal. by eapply IH.
Qed.

Lemma attempts_lookup files : forall k d rs d' i f r,
  attempts k files d = (rs, d') ->
  files !! i = Some f -> rs !! i = Some r ->
  exists di di', download_file f (Some (Z.of_nat (k + i))) di = (r, di').
Proof.
  induction files as [|f0 files IH]; intros k d rs d' i f r H Hf Hr; [done|].
  simpl in H.
  destruct (download_file f0 _ d) as [r0 d1] eqn:Hdl.
  destruct (attempts (S k) files d1) as [rs' d2] eqn:Hrest.
  injection H as <- <-.
  destruct i as [|i]; simpl in Hf, Hr.
  - injection Hf as <-. injection Hr as <-. rewrite Nat.add_0_r. eauto.
  - destruct (IH _ _ _ _ _ _ _ Hrest Hf Hr) as (di & di' & H).
    exists di, di'. by replace (k + S i)%nat with (S k + i)%nat by lia.
Qed.

Lemma error_calls files : forall i total rs on_progress,
  length rs = length files ->
  List.filter is_on_error (hook_calls i total files rs on_progress true)
  = omap (fun fr => match snd fr with
                    | Exc e => Some (OnError (reported_name (fst fr)) e)
                    | _ => None
                    end) (zip files rs).
Proof.
  induction files as [|f files IH]; intros i total [|r rs] on_progress Hlen;
    try done.
  injection Hlen as Hlen. simpl.
  rewrite !List.filter_app, (IH _ _ _ _ Hlen).
  destruct on_progress, r; simpl; reflexivity.
Qed.

Lemma progress_calls_numbered files : forall i total rs on_error,
  length rs = length files ->
  List.filter is_on_progress (hook_calls i total files rs true on_error)
  = imap (fun j f => OnProgress (reported_name f) (S (i + j)) total) files.
Proof.
  induction files as [|f files IH]; intros i total [|r rs] on_error Hlen;
    try done.
  injection Hlen as Hlen. simpl.
  rewrite !List.filter_app, (IH _ _ _ _ Hlen). rewrite Nat.add_0_r.
  assert (List.filter is_on_progress
            match r with
            | Exc e => if on_error then [OnError (reported_name f) e] else []
            | _ => []
            end = []) as ->.
  { destruct r; try done. by destruct on_error. }
  simpl. f_equal. apply imap_ext. intros j f' _. simpl.
  by replace (i + S j)%nat with (S (i + j)) by lia.
Qed.

Lemma failures_and_successes (rs : list (res string)) :
  (length (successes rs) + length (List.filter failed rs) = length rs)%nat.
Proof.
  induction rs as [|r rs IH]; [done|].
  destruct r; simpl; unfold successes in *; simpl; lia.
Qed.

(** C2. For every sequence of descriptors: when each attempt, made in the
    order of the input on the disk the attempt before left, succeeds or
    fails with [DownloadError], [download_files] goes through the whole
    batch and returns exactly the paths of the attempts that succeeded, in
    that order; the error callback (when given) is called exactly once for
    each failed descriptor, in that order, with its name and error. *)
Theorem download_files_isolates_failures
    files on_progress on_error d hooks rs d' :
  attempts 0 files d = (rs, d') ->
  Forall contained rs ->
  download_files files on_progress on_error (d, hooks) =
    (Val (successes rs),
     (d', hooks ++ hook_calls 0 (length files) files rs on_progress on_error)) /\
  length rs = length files /\
  (length (successes rs) + length (List.filter failed rs) = length files)%nat /\
  List.filter is_on_error (hook_calls 0 (length files) files rs on_progress true)
  = omap (fun fr => match snd fr with
                    | Exc e => Some (OnError (reported_name (fst fr)) e)
                    | _ => None
                    end) (zip files rs) /\
  (length (List.filter is_on_error
             (hook_calls 0 (length files) files rs on_progress true))
   = length (List.filter failed rs))%nat.
Proof.
  intros Hatt Hok.
  pose proof (attempts_length _ _ _ _ _ Hatt) as Hlen.
  split; [|split; [done|split; [|split]]].
  - unfold Downloader.download_files.
    by rewrite (download_loop_run _ _ _ _ _ _ _ _ _ _ Hatt Hok).
  - rewrite <- Hlen. apply failures_and_successes.
  - by apply error_calls.
  - rewrite error_calls by done. clear Hatt.
    revert rs Hlen Hok.
    induction files as [|f files IH]; intros [|r rs] Hlen Hok; try done.
    injection Hlen as Hlen. apply Forall_cons in Hok as [Hr Hok].
    specialize (IH rs Hlen Hok).
    destruct r as [p | e |]; simpl in *; [exact IH | by f_equal | done].
Qed.

(** C10. For every non-empty list of descriptors whose attempts succeed or
    fail with [DownloadError]: the progress callback is called once per
    descriptor, in order, with the one-based position (the descriptor at
    index [i], counted from zero, is reported as [i + 1] of the total, the
    first one as 1), while the file of a successful attempt at index [i] is
    saved under the name prefixed with the zero-based [i] in four digits and
    a hyphen (the first one with [0000-]): the position reported is the
    number on disk plus one. *)
Theorem download_files_numbering
    files on_error d hooks rs d' :
  files <> [] ->
  attempts 0 files d = (rs, d') ->
  Forall contained rs ->
  exists calls,
    download_files files true on_error (d, hooks) =
      (Val (successes rs), (d', hooks ++ calls)) /\
    List.filter is_on_progress calls
    = imap (fun i f => OnProgress (reported_name f) (i + 1) (length files)) files /\
    (exists f, head files = Some f /\
               head (List.filter is_on_progress calls)
               = Some (OnProgress (reported_name f) 1 (length files))) /\
    (forall i f p,
        files !! i = Some f -> rs !! i = Some (Val p) ->
        exists filename,
          f_name f = Some filename /\
          p = path_join download_dir
                (zfill 4 (str_of_int (Z.of_nat i)) +:+ "-" +:+ filename)) /\
    zfill 4 (str_of_int (Z.of_nat 0)) +:+ "-" = "0000-".
Proof.
  intros Hne Hatt Hok.
  pose proof (attempts_length _ _ _ _ _ Hatt) as Hlen.
  exists (hook_calls 0 (length files) files rs true on_error).
  assert (Hprog : List.filter is_on_progress
                    (hook_calls 0 (length files) files rs true on_error)
                  = imap (fun i f => OnProgress (reported_name f) (i + 1) (length files))
                         files).
  { rewrite progress_calls_numbered by done. apply imap_ext. intros i f _. simpl.
    by rewrite Nat.add_1_r. }
  split; [|split; [done|split; [|split; [|reflexivity]]]].
  - unfold Downloader.download_files.
    by rewrite (download_loop_run _ _ _ _ _ _ _ _ _ _ Hatt Hok).
  - rewrite Hprog. destruct files as [|f files]; [done|]. by exists f.
  - intros i f p Hf Hr.
    destruct (attempts_lookup _ _ _ _ _ _ _ _ Hatt Hf Hr) as (di & di' & Hdl).
    apply download_file_success in Hdl
      as (url & filename & response & _ & _ & Hname & _ & _ & _ & _ & Hp & _).
    exists filename. split; [done|]. exact Hp.
Qed.

End DownloadFacts.

(* ===================================================================== *)
(** * Properties of the mention substitution *)
(* ===================================================================== *)

Section MentionFacts.
Import Utils MentionSpec.

Implicit Types (s r : list ascii) (c : ascii) (ps : list piece).


(** ** The greedy run of identifier characters *)

Lemma span_id_app s :
  fst (span_id s) ++ snd (span_id s) = s.
Proof.
  induction s as [|c s IH]; simpl; [done|].
  destruct (is_id_char c); [|done].
  destruct (span_id s) as [run rest]. simpl in *. by rewrite IH.
Qed.

Lemma span_id_run s : Forall (fun c => is_id_char c = true) (fst (span_id s)).
Proof.
  induction s as [|c s IH]; simpl; [constructor|].
  destruct (is_id_char c) eqn:Hc; [|constructor].
  destruct (span_id s) as [run rest]. simpl in *. by constructor.
Qed.


(** ** A match at the head of a text *)

Lemma match_mention_Some s user_id rest :
  match_mention s = Some (user_id, rest) ->
  s = mention_of user_id ++ rest /\ valid_id user_id.
Proof.
  unfold match_mention.
  destruct s as [|a [|b r]];
    [done | by destruct a as [[] [] [] [] [] [] [] []] |].
  destruct a as [[] [] [] [] [] [] [] []]; try done.
  destruct b as [[] [] [] [] [] [] [] []]; try done.
  pose proof (span_id_app r) as Happ. pose proof (span_id_run r) as Hrun.
  destruct (span_id r) as [[|c run] [|g rest']]; try done.
  destruct g as [[] [] [] [] [] [] [] []]; try done.
  intros [= <- <-]. simpl in *. split.
  - unfold mention_of. simpl. rewrite <- Happ. by rewrite <- app_assoc.
  - split; [done | exact Hrun].
Qed.


Lemma mention_of_length user_id : length (mention_of user_id) = S (length user_id + 2).
Proof. unfold mention_of. simpl. rewrite length_app. simpl. lia. Qed.

Lemma mention_of_cons user_id :
  mention_of user_id = "<"%char :: ("@"%char :: user_id ++ [">"%char]).
Proof. reflexivity. Qed.

(** ** The three scanners pass over the characters of a match *)

Lemma findall_from_skip pre s :
  findall_from (length pre) (pre ++ s) = findall s.
Proof. induction pre as [|c pre IH]; simpl; [done | exact IH]. Qed.



Lemma findall_match s user_id rest :
  match_mention s = Some (user_id, rest) ->
  findall s = user_id :: findall rest.
Proof.
  intros H. pose proof (match_mention_Some _ _ _ H) as [Hs _].
  destruct s as [|c s']; [done|].
  rewrite mention_of_cons in Hs. injection Hs as -> ->.
  unfold findall. cbn [findall_from]. rewrite H. f_equal.
  replace (length user_id + 2)%nat
    with (length ("@"%char :: user_id ++ [">"%char])).
  - apply findall_from_skip.
  - simpl. rewrite length_app. simpl. lia.
Qed.

Lemma findall_no_match c s :
  match_mention (c :: s) = None -> findall (c :: s) = findall s.
Proof. intros H. unfold findall. cbn [findall_from]. by rewrite H. Qed.







(** ** Induction along the scan of a text *)

Lemma scan_ind (P : list ascii -> Prop) :
  P [] ->
  (forall user_id rest,
      valid_id user_id ->
      match_mention (mention_of user_id ++ rest) = Some (user_id, rest) ->
      P rest -> P (mention_of user_id ++ rest)) ->
  (forall c s, match_mention (c :: s) = None -> P s -> P (c :: s)) ->
  forall s, P s.
Proof.
  intros Hnil Hmatch Hlit s.
  remember (length s) as n eqn:Hn. revert s Hn.
  induction n as [n IH] using lt_wf_ind. intros s ->.
  destruct s as [|c s]; [exact Hnil|].
  destruct (match_mention (c :: s)) as [[user_id rest]|] eqn:Hm.
  - pose proof (match_mention_Some _ _ _ Hm) as [Hs Hv].
    rewrite Hs in *. apply Hmatch; [done | done |].
    apply (IH (length rest)); [|done].
    rewrite length_app, mention_of_length. lia.
  - apply Hlit; [done|]. apply (IH (length s)); [simpl; lia | done].
Qed.




Lemma findall_valid s : Forall valid_id (findall s).
Proof.
  induction s as [| user_id rest Hv Hm IH | c s Hm IH] using scan_ind.
  - constructor.
  - rewrite (findall_match _ _ _ Hm). by constructor.
  - by rewrite (findall_no_match _ _ Hm).
Qed.





(** ** A replacement runs over a well-cut text piece by piece *)







(** ** Naming mentions keeps a text well cut *)









(** ** The loop over the mentions found *)








Lemma fold_left_agree {A B} (f g : A -> B -> A) (l : list B) (P : B -> Prop) :
  Forall P l -> (forall a b, P b -> f a b = g a b) ->
  forall a, fold_left f l a = fold_left g l a.
Proof.
  intros Hl Hfg. induction Hl as [|b l Hb Hl IH]; intros a; [done|].
  simpl. by rewrite Hfg, IH.
Qed.

Lemma invalid_key_unused text user_map k name :
  ~ valid_id (list_ascii_of_string k) ->
  replace_mentions_with_names text (<[k := name]> user_map)
  = replace_mentions_with_names text (delete k user_map).
Proof.
  intros Hk. unfold replace_mentions_with_names. f_equal.
  apply (fold_left_agree _ _ _ valid_id); [apply findall_valid|].
  intros chars v Hv. unfold replace_one.
  assert (k <> string_of_list_ascii v) as Hne.
  { intros ->. by rewrite list_ascii_of_string_of_list_ascii in Hk. }
  by rewrite lookup_insert_ne, lookup_delete_ne.
Qed.


(** C9. The identifiers that the substitution looks up are non-empty and
    made of [A-Z] and [0-9] only, so the entry of the user map under a key
    that has any other character (or is empty) has no effect on the
    result: giving it a name or removing it is the same. The mention
    [<@u123abc>] stays as it is although [u123abc] is a key. *)
Theorem mentions_are_uppercase_and_digits :
  (forall text, Forall valid_id (findall (list_ascii_of_string text))) /\
  (forall text user_map k name,
      ~ valid_id (list_ascii_of_string k) ->
      replace_mentions_with_names text (<[k := name]> user_map)
      = replace_mentions_with_names text (delete k user_map)) /\
  replace_mentions_with_names "<@u123abc>" {[ "u123abc" := "Alice" ]} = "<@u123abc>" /\
  replace_mentions_with_names "hi <@u123abc> and <@U123ABC>"
    (<[ "u123abc" := "Alice" ]> {[ "U123ABC" := "Bob" ]})
  = "hi <@u123abc> and @Bob".
Proof.
  split; [|split; [|split]].
  - intros text. apply findall_valid.
  - apply invalid_key_unused.
  - reflexivity.
  - reflexivity.
Qed.

End MentionFacts.

(* ===================================================================== *)
(** * Properties of the date conversion *)
(* ===================================================================== *)

Section DateFacts.
Import Datetime Utils DateSpec.

Lemma days_before_year_step (y : Z) :
  _days_before_year (y + 1) =
  _days_before_year y + 365 + (if _is_leap y then 1 else 0).
Proof.
  unfold _days_before_year, _is_leap.
  replace (y + 1 - 1) with y by lia.
  destruct (Z.eqb_spec (y mod 4) 0), (Z.eqb_spec (y mod 100) 0),
    (Z.eqb_spec (y mod 400) 0); simpl; Z.div_mod_to_equations; lia.
Qed.

Lemma days_before_year_mono (y1 y2 : Z) :
  y1 <= y2 -> _days_before_year y1 <= _days_before_year y2.
Proof.
  unfold _days_before_year. intros H. Z.div_mod_to_equations. lia.
Qed.

(** Case analysis on a number that the context bounds by 0 and 15. *)
Ltac each_month m :=
  destruct m as [|m|m]; try lia;
  do 4 (try (destruct m as [m|m|]; try lia)).

Lemma days_before_month_bounds (y m d : Z) :
  1 <= m <= 12 -> 1 <= d <= _days_in_month y m ->
  0 <= _days_before_month y m /\
  _days_before_month y m + d <= 365 + (if _is_leap y then 1 else 0).
Proof.
  intros Hm Hd. unfold _days_before_month, _days_in_month in *.
  destruct (_is_leap y); each_month m; simpl in *; lia.
Qed.

Lemma days_before_month_mono (y m1 m2 d1 : Z) :
  1 <= m1 -> m1 < m2 -> m2 <= 12 -> 1 <= d1 <= _days_in_month y m1 ->
  _days_before_month y m1 + d1 <= _days_before_month y m2.
Proof.
  intros H1 H12 H2 Hd. unfold _days_before_month, _days_in_month in *.
  destruct (_is_leap y); each_month m1; each_month m2; simpl in *; lia.
Qed.

Lemma check_date_fields_true (y m d : Z) :
  _check_date_fields y m d = true ->
  1 <= y /\ 1 <= m <= 12 /\ 1 <= d <= _days_in_month y m.
Proof.
  unfold _check_date_fields, MINYEAR. intros H.
  repeat (apply andb_true_iff in H as [H ?]). lia.
Qed.

Lemma ymd2ord_mono (y1 m1 d1 y2 m2 d2 : Z) :
  _check_date_fields y1 m1 d1 = true ->
  _check_date_fields y2 m2 d2 = true ->
  earlier (y1, m1, d1) (y2, m2, d2) ->
  _ymd2ord y1 m1 d1 < _ymd2ord y2 m2 d2.
Proof.
  intros (Hy1 & Hm1 & Hd1)%check_date_fields_true
         (Hy2 & Hm2 & Hd2)%check_date_fields_true Hlt.
  unfold _ymd2ord.
  destruct Hlt as [Hy | [-> [Hm | [-> Hd]]]].
  - pose proof (days_before_month_bounds y1 m1 d1 Hm1 Hd1) as [_ Hup].
    pose proof (days_before_month_bounds y2 m2 d2 Hm2 Hd2) as [Hlow _].
    pose proof (days_before_year_step y1) as Hstep.
    pose proof (days_before_year_mono (y1 + 1) y2 ltac:(lia)). lia.
  - pose proof (days_before_month_mono y2 m1 m2 d1 ltac:(lia) Hm ltac:(lia) Hd1).
    lia.
  - lia.
Qed.

(** [_mktime] takes the wall-clock time back by the offset that the zone
    shows at some instant. *)
Lemma mktime_offset (local : Z -> Z) (t : Z) :
  exists x, _mktime local t = t - utc_offset local x.
Proof.
  unfold _mktime, utc_offset, max_fold_seconds.
  set (a := local t - t). set (u1 := t - a).
  destruct (Z.eqb_spec (local u1) t) as [Ht1 | Ht1]; simpl.
  - set (b := local (u1 - 24 * 3600) - (u1 - 24 * 3600)).
    destruct (Z.eqb_spec a b) as [Hab | Hab]; [by exists t|].
    destruct (Z.eqb_spec (local (t - b)) t); [by eexists | by exists t].
  - set (b := local u1 - u1).
    destruct (Z.eqb_spec (local (t - b)) t); [by exists u1|].
    destruct (Z.max_spec u1 (t - b)) as [[_ ->] | [_ ->]];
      [by exists u1 | by exists t].
Qed.

Lemma strptime_valid (s : string) (y m d : Z) :
  strptime s = inr (y, m, d) ->
  _check_date_fields y m d = true /\ truthy_str (Some s) = true.
Proof.
  unfold strptime. intros H. split.
  - destruct (parse_year _) as [[year r1]|]; [|done].
    destruct (parse_month r1) as [[month r2]|]; [|done].
    destruct (parse_day r2) as [[day [|]]|]; try done.
    destruct (negb _); [done|].
    destruct (_check_date_fields year month day) eqn:Hc; [|done].
    by injection H as <- <- <-.
  - by destruct s.
Qed.

Lemma convert_date_to_ts_timestamp (local : Z -> Z) (s : string) (dt : Z * Z * Z) :
  strptime s = inr dt ->
  convert_date_to_ts local (Some s) = inr (Some (timestamp local dt)).
Proof.
  intros H. destruct dt as [[y m] d].
  pose proof (strptime_valid _ _ _ _ H) as [_ Ht].
  unfold convert_date_to_ts. rewrite Ht. simpl. by rewrite H.
Qed.

Lemma timestamp_lt local y1 m1 d1 y2 m2 d2 :
    offsets_within_a_day local ->
    _check_date_fields y1 m1 d1 = true ->
    _check_date_fields y2 m2 d2 = true ->
    earlier (y1, m1, d1) (y2, m2, d2) ->
    timestamp local (y1, m1, d1) < timestamp local (y2, m2, d2).
Proof.
  intros Hzone H1 H2 Hlt.
  pose proof (ymd2ord_mono _ _ _ _ _ _ H1 H2 Hlt) as Hord.
  unfold timestamp, utc_seconds.
  destruct (mktime_offset local ((_ymd2ord y1 m1 d1 - _ymd2ord 1970 1 1) * 86400))
    as (x1 & ->).
  destruct (mktime_offset local ((_ymd2ord y2 m2 d2 - _ymd2ord 1970 1 1) * 86400))
    as (x2 & ->).
  specialize (Hzone x2 x1). lia.
Qed.

(** ** Every valid YYYY-MM-DD text is read back as its date *)

Lemma digit_of_digit_char (q : Z) : 0 <= q <= 9 -> digit (digit_char q) = Some q.
Proof. intros H. each_month q; reflexivity. Qed.

Lemma parse_year_iso (y : Z) (r : list ascii) :
  0 <= y <= 9999 -> parse_year (iso_year y ++ "-"%char :: r) = Some (y, r).
Proof.
  intros H. unfold iso_year, parse_year. cbn [app].
  rewrite !digit_of_digit_char by (Z.div_mod_to_equations; lia).
  do 2 f_equal. Z.div_mod_to_equations. lia.
Qed.

Lemma parse_month_iso (m : Z) (r : list ascii) :
  1 <= m <= 12 -> parse_month (two_digits m ++ "-"%char :: r) = Some (m, r).
Proof. intros H. each_month m; reflexivity. Qed.

Lemma parse_day_iso (d : Z) :
  1 <= d <= 31 -> parse_day (two_digits d) = Some (d, []).
Proof.
  intros H. destruct d as [|d|d]; try lia.
  do 5 (try (destruct d as [d|d|]; try lia)); reflexivity.
Qed.

Lemma days_in_month_le_31 (y m : Z) : _days_in_month y m <= 31.
Proof.
  unfold _days_in_month. destruct (_ && _); [lia|].
  unfold _DAYS_IN_MONTH. destruct m as [|m|m]; try lia.
  do 4 (try (destruct m as [m|m|]; try lia)).
Qed.

Lemma strptime_iso_format (y m d : Z) :
  _check_date_fields y m d = true ->
  strptime (iso_format (y, m, d)) = inr (y, m, d).
Proof.
  intros Hc. pose proof Hc as Hb. unfold _check_date_fields, MINYEAR, MAXYEAR in Hb.
  repeat (apply andb_true_iff in Hb as [Hb ?]).
  pose proof (days_in_month_le_31 y m).
  unfold strptime, iso_format. rewrite list_ascii_of_string_of_list_ascii.
  rewrite parse_year_iso by lia. rewrite parse_month_iso by lia.
  rewrite parse_day_iso by lia.
  unfold MINYEAR, MAXYEAR.
  replace ((1 <=? y) && (y <=? 9999)) with true by (symmetry; apply andb_true_iff; lia).
  simpl. by rewrite Hc.
Qed.

(** C7 (as amended). In a time zone whose UTC offsets stay less than a day
    apart (every zone with a fixed offset is one), for all date strings that
    [strptime] accepts for ["%Y-%m-%d"]: when the first denotes a strictly
    earlier calendar date than the second, both are converted, and the
    timestamp of the first is strictly smaller than that of the second.
    Every valid YYYY-MM-DD string is such a string: the text of a date of
    the calendar, in years 1 to 9999, is read back as that date. *)
Theorem convert_date_to_ts_monotone (local : Z -> Z) :
  offsets_within_a_day local ->
  (forall s1 s2 dt1 dt2,
      strptime s1 = inr dt1 ->
      strptime s2 = inr dt2 ->
      earlier dt1 dt2 ->
      exists t1 t2,
        convert_date_to_ts local (Some s1) = inr (Some t1) /\
        convert_date_to_ts local (Some s2) = inr (Some t2) /\
        t1 < t2) /\
  (forall y m d,
      _check_date_fields y m d = true ->
      strptime (iso_format (y, m, d)) = inr (y, m, d)).
Proof.
  intros Hzone. split; [|exact strptime_iso_format].
  intros s1 s2 dt1 dt2 H1 H2 Hlt.
  exists (timestamp local dt1), (timestamp local dt2).
  split; [by apply convert_date_to_ts_timestamp|].
  split; [by apply convert_date_to_ts_timestamp|].
  destruct dt1 as [[y1 m1] d1], dt2 as [[y2 m2] d2].
  apply timestamp_lt; [done | | | done].
  - by apply strptime_valid in H1 as [? _].
  - by apply strptime_valid in H2 as [? _].
Qed.

End DateFacts.

(* ===================================================================== *)
(** * The properties at work on the scenarios *)
(* ===================================================================== *)

Section ScenarioFacts.
Import Client ClientSpec HistorySpec Downloader DownloadSpec Utils MentionSpec
       Datetime DateSpec Scenario.

(** The pages of sizes 1000, 1000, 437 and 0, with cursors on all but the
    last, give exactly 2437 messages, and the retrieval stops after the
    empty page. *)
Lemma history_of_2437_messages :
  exists messages w',
    get_channel_history paged utc 4 "C42" None None true fresh = (Val messages, w') /\
    length messages = 2437%nat /\
    length (history_calls w') = 4%nat.
Proof.
  destruct (get_channel_history_concatenates_pages paged utc
              4 "C42" None None None None true fresh
              [full_page 1000 "c1"; full_page 1000 "c2"; full_page 437 "c3"]
              empty_page 4%nat)
    as (w' & Hrun & _ & Hcalls & _).
  - reflexivity.
  - reflexivity.
  - repeat constructor; try discriminate; by eexists.
  - by left.
  - simpl. repeat (eexists; split; [reflexivity|]). reflexivity.
  - simpl. lia.
  - eexists _, w'. split; [exact Hrun|]. split.
    + vm_compute. reflexivity.
    + rewrite Hcalls. reflexivity.
Defined.

(** A page that reports "has more" without a token ends the retrieval. *)
Example history_stops_without_token :
  fst (get_channel_history stuck utc 1 "C42" None None false fresh)
  = Val (repeat sample_message 3).
Proof. reflexivity. Qed.

(** With a cursor that never ends, the fuel runs out: the platform decides
    whether the loop ends. *)
Example history_of_an_endless_channel :
  fst (get_channel_history
         (fun _ served => (inr (full_page 1 "again"), S served))
         utc 50 "C42" None None false fresh)
  = OutOfFuel.
Proof. reflexivity. Qed.

(** The scope is lost after a page of two messages: the call raises, and
    the two messages are not returned. *)
Lemma history_with_revoked_scope :
  exists w',
    get_channel_history revoked utc 2 "C42" None None true fresh
    = (Exc (SlackApiException
              "Token is missing required scope. Need channels:history or groups:history."
              "missing_scope"), w') /\
    progress_calls w' = [2%nat].
Proof.
  destruct (get_channel_history_raises_on_remote_error revoked utc
              2 "C42" None None None None true fresh
              [full_page 2 "c1"] "missing_scope" 2%nat)
    as (w' & Hrun & _).
  - reflexivity.
  - reflexivity.
  - repeat constructor; try discriminate; by eexists.
  - simpl. repeat (eexists; split; [reflexivity|]). reflexivity.
  - simpl. lia.
  - exists w'. split; [exact Hrun|].
    change (progress_calls w')
      with (progress_calls
              (snd (Exc (A := list Message)
                      (SlackApiException (history_error_message "C42" "missing_scope")
                                         "missing_scope"), w'))).
    rewrite <- Hrun. reflexivity.
Defined.

(** C3. The priority of the specification ends at the user identifier, and
    the chain of [get_users] skips the empty values of the three fields
    before the handle; the handle itself it takes as it is. From a directory
    whose only entry is [{"id": "U1", "name": ""}], [get_users] returns the
    mapping of [U1] to the empty string, where the priority gives [U1]: the
    key resolves to no name. *)
Lemma empty_handle_hides_identifier :
  fst (get_users unnamed 5 fresh) = Val {[ "U1" := EmptyString ]} /\
  display_name_of (mkUser "U1" None None (Some EmptyString)) = EmptyString /\
  name_by_priority (mkUser "U1" None None (Some EmptyString)) = "U1" /\
  display_name_of (mkUser "U1" None None (Some EmptyString))
  <> name_by_priority (mkUser "U1" None None (Some EmptyString)).
Proof.
  split; [vm_compute; reflexivity|].
  split; [reflexivity | split; [reflexivity | discriminate]].
Qed.

Example directory_names :
  fst (get_users directory 5 fresh)
  = Val (<["U1" := "Ada Lovelace"]> (<["U2" := "grace"]> {["U3" := "U3"]})).
Proof. vm_compute. reflexivity. Qed.

(** Of three descriptors whose second download meets a login page, the
    first and the third are saved and returned, and the error callback is
    called once. *)
Lemma batch_with_one_login_page :
  exists d' calls,
    download_files web "xoxb-token" "slack_files" batch true true (empty_disk, [])
    = (Val ["slack_files/0000-report.pdf"; "slack_files/0002-cat.png"], (d', calls)) /\
    List.filter is_on_error calls
    = [OnError "notes.txt"
         (DownloadError
            "Failed to download notes.txt - Got HTML login page instead of file")] /\
    fs d' !! "slack_files/0000-report.pdf" = Some "%PDF-1.4" /\
    fs d' !! "slack_files/0001-notes.txt" = None.
Proof.
  destruct (download_files_isolates_failures web "xoxb-token" "slack_files"
              batch true true empty_disk []
              (fst (attempts web "xoxb-token" "slack_files" 0 batch empty_disk))
              (snd (attempts web "xoxb-token" "slack_files" 0 batch empty_disk)))
    as (Hrun & _ & _ & Herr & _).
  - by destruct (attempts _ _ _ _ _ _).
  - vm_compute. repeat constructor.
  - eexists _, _. split; [exact Hrun|]. split; [exact Herr|].
    split; vm_compute; reflexivity.
Defined.

(** The first of three files is reported as 1 of 3 and saved with the prefix
    [0000-]; the third is reported as 3 of 3 and saved with [0002-]. *)
Lemma batch_positions_and_prefixes :
  exists d' calls,
    download_files web "xoxb-token" "slack_files" batch true false (empty_disk, [])
    = (Val ["slack_files/0000-report.pdf"; "slack_files/0002-cat.png"], (d', calls)) /\
    calls = [OnProgress "report.pdf" 1 3; OnProgress "notes.txt" 2 3;
             OnProgress "cat.png" 3 3].
Proof.
  destruct (download_files_numbering web "xoxb-token" "slack_files"
              batch false empty_disk []
              (fst (attempts web "xoxb-token" "slack_files" 0 batch empty_disk))
              (snd (attempts web "xoxb-token" "slack_files" 0 batch empty_disk)))
    as (calls & Hrun & _).
  - discriminate.
  - by destruct (attempts _ _ _ _ _ _).
  - vm_compute. repeat constructor.
  - eexists _, calls. split; [exact Hrun|].
    change calls with (snd (snd (Val (successes
      (fst (attempts web "xoxb-token" "slack_files" 0 batch empty_disk))),
      (snd (attempts web "xoxb-token" "slack_files" 0 batch empty_disk), [] ++ calls)))).
    rewrite <- Hrun. vm_compute. reflexivity.
Defined.

(** On a host one hour ahead of UTC, the leap day of 2024 comes before the
    first of March. *)
Lemma leap_day_before_march :
  exists t1 t2,
    convert_date_to_ts cet (Some "2024-02-29") = inr (Some t1) /\
    convert_date_to_ts cet (Some "2024-03-01") = inr (Some t2) /\
    t1 < t2.
Proof.
  destruct (convert_date_to_ts_monotone cet) as [Hmono _].
  - intros u v. unfold utc_offset, cet. lia.
  - apply (Hmono "2024-02-29" "2024-03-01" (2024, 2, 29) (2024, 3, 1)).
    + reflexivity.
    + reflexivity.
    + right. split; [reflexivity|]. left. lia.
Defined.

(** In Pacific/Apia the midnights of 2011-12-30 (a day that was skipped)
    and of 2011-12-31 are the same instant: the earlier date does not get
    the smaller timestamp. *)
Lemma skipped_day_in_apia :
  strptime "2011-12-30" = inr (2011, 12, 30) /\
  strptime "2011-12-31" = inr (2011, 12, 31) /\
  earlier (2011, 12, 30) (2011, 12, 31) /\
  convert_date_to_ts apia (Some "2011-12-30") = inr (Some 1325239200) /\
  convert_date_to_ts apia (Some "2011-12-31") = inr (Some 1325239200) /\
  ~ (1325239200 < 1325239200).
Proof.
  repeat split; try reflexivity.
  - right. split; [reflexivity|]. right. split; [reflexivity | lia].
  - lia.
Qed.


(** C8. Each mention of a known user is to become [@DisplayName]. The
    function replaces one identifier after the other in the text already
    rewritten, so a display name that is itself a mention is replaced in
    turn: in [<@U1> <@U2>], with [U1] named [<@U2>] and [U2] named [Bob],
    the first mention becomes [@@Bob], not [@<@U2>]. *)
Lemma mention_inside_a_name :
  replace_mentions_with_names "<@U1> <@U2>" (<[ "U1" := "<@U2>" ]> {[ "U2" := "Bob" ]})
  = "@@Bob @Bob" /\
  substitute_mentions "<@U1> <@U2>" (<[ "U1" := "<@U2>" ]> {[ "U2" := "Bob" ]})
  = "@<@U2> @Bob" /\
  replace_mentions_with_names "<@U1> <@U2>" (<[ "U1" := "<@U2>" ]> {[ "U2" := "Bob" ]})
  <> substitute_mentions "<@U1> <@U2>" (<[ "U1" := "<@U2>" ]> {[ "U2" := "Bob" ]}).
Proof. vm_compute. split; [reflexivity | split; [reflexivity | discriminate]]. Qed.

(** A [<] in front of a mention can make a new mention out of the name put
    in: the text [<<@U1>2>] with [U1] named [U] becomes [<@U2>], which is
    then replaced when [U2] is mentioned too. *)
Example mention_made_by_a_name :
  replace_mentions_with_names "<@U2> <<@U1>2>" (<[ "U1" := "U" ]> {[ "U2" := "Bob" ]})
  = "@Bob <@U2>" /\
  replace_mentions_with_names "<<@U1>2> <@U2>" (<[ "U1" := "U" ]> {[ "U2" := "Bob" ]})
  = "@Bob @Bob" /\
  substitute_mentions "<<@U1>2> <@U2>" (<[ "U1" := "U" ]> {[ "U2" := "Bob" ]})
  = "<@U2> @Bob".
Proof. vm_compute. split; [reflexivity | split; reflexivity]. Qed.


(** A login page served with status 200 is an error, and nothing is
    written. *)
Lemma login_page_is_an_error :
  download_file web "xoxb-token" "slack_files" expired (Some 1) empty_disk
  = (Exc (DownloadError
            "Failed to download notes.txt - Got HTML login page instead of file"),
     {| net := 1%nat;
        requests := [("https://files.example/b", auth_headers "xoxb-token")];
        fs := ∅ |}).
Proof.
  destruct (download_file_fails_or_saves web "xoxb-token" "slack_files"
              expired (Some 1) empty_disk) as (_ & Hanswered & _).
  destruct (Hanswered "https://files.example/b" "notes.txt"
              (mkHttpResponse 200 (Some "text/html; charset=utf-8") ["<html>"]) 1%nat)
    as (_ & Hhtml & _).
  - reflexivity.
  - discriminate.
  - reflexivity.
  - discriminate.
  - reflexivity.
  - apply Hhtml; reflexivity.
Defined.

(** A date that is no date is refused before any request is sent. *)
Example history_with_a_wrong_date :
  get_channel_history paged utc 4 "C42" (Some "2024-02-30") None true fresh
  = (Exc (ValueError "day is out of range for month"), fresh).
Proof. reflexivity. Qed.

(** A failure of the connection is no [DownloadError]: it ends the batch. *)
Example batch_on_a_flaky_network :
  fst (download_files flaky "xoxb-token" "slack_files" batch true true (empty_disk, []))
  = Exc (RequestException "connection reset").
Proof. reflexivity. Qed.

(** The scanner on a few texts. *)
Example findall_examples :
  map string_of_list_ascii (findall (list_ascii_of_string "<@U123> hi <@U999>"))
  = ["U123"; "U999"] /\
  findall (list_ascii_of_string "<@u123abc> <@> <@U1 <@U_1>") = [] /\
  map string_of_list_ascii (findall (list_ascii_of_string "<@<@U1>><@U1>"))
  = ["U1"; "U1"].
Proof. split; [reflexivity | split; reflexivity]. Qed.

End ScenarioFacts.

Section HistoryTraceFacts.
Import Client ClientSpec HistorySpec TraceSpec.

Context {Srv : Type}.
Variable conversations_history : HistoryParams -> Srv -> (exn + HistoryResult) * Srv.
Variable local : Z -> Z.

Lemma continues_goes_on page :
  page_messages page <> [] -> continues page = true -> page_goes_on page.
Proof.
  unfold continues, has_next_cursor, page_goes_on, page_cursor.
  intros Hm Hc. apply andb_true_iff in Hc as [Hh Hn].
  split; [done|]. split.
  - by destruct (hr_has_more page) as [[]|].
  - apply truthy_str_true in Hn. exact Hn.
Qed.

Lemma not_continues_is_last page : continues page = false -> page_is_last page.
Proof.
  unfold continues, has_next_cursor, page_is_last, page_cursor.
  intros Hc. apply andb_false_iff in Hc as [Hh | Hn].
  - destruct (hr_has_more page) as [[]|]; auto. done.
  - apply truthy_str_false in Hn as [-> | ->]; auto.
Qed.

Lemma received_app {A} (a b : list (exn + A)) :
  received (a ++ b) = received a ++ received b.
Proof. apply omap_app. Qed.

Lemma received_pages {A} (pages : list A) : received (map inr pages) = pages.
Proof. induction pages as [|p pages IH]; [done|]. simpl. by rewrite IH. Qed.

(** Every run of the loop, read back from its outcome. *)
Lemma history_loop_trace fuel :
  forall channel_id o n on_progress cursor acc w r w',
  history_loop conversations_history fuel channel_id o n on_progress cursor acc w
    = (r, w') ->
  exists answers,
    serves conversations_history channel_id o n cursor (srv w) answers (srv w') /\
    history_calls w' = history_calls w ++ exchange channel_id o n cursor answers /\
    users_calls w' = users_calls w /\
    progress_calls w' =
      progress_calls w ++
      (if on_progress
       then running_totals (length acc) (map page_size (received answers))
       else []) /\
    match r with
    | Val messages =>
        exists init page,
          answers = map inr init ++ [inr page] /\
          Forall page_goes_on init /\ page_is_last page /\
          messages = acc ++ flat_map page_messages (init ++ [page]) /\
          (length init < fuel)%nat
    | Exc e =>
        exists init,
          answers = map inr init ++ [inl e] /\
          Forall page_goes_on init /\ (length init < fuel)%nat
    | OutOfFuel =>
        exists init,
          answers = map inr init /\ Forall page_goes_on init /\ length init = fuel
    end.
Proof.
  induction fuel as [|fuel IH]; intros channel_id o n on_progress cursor acc w r w' Hrun.
  { injection Hrun as <- <-. exists nil. simpl.
    destruct on_progress; simpl; rewrite !app_nil_r; repeat (split; [done|]);
      by exists nil. }
  simpl in Hrun. unfold bind at 1 in Hrun.
  destruct (conversations_history (history_params channel_id o n cursor) (srv w))
    as [[e | page] s1] eqn:Hcall;
    rewrite (call_history_eq _ _ _ _ _ Hcall) in Hrun.
  { injection Hrun as <- <-. exists [inl e]. simpl.
    split; [by exists s1|]. split; [done|]. split; [done|].
    split; [by destruct on_progress; rewrite app_nil_r|].
    exists nil. split; [done|]. split; [constructor | simpl; lia]. }
  destruct (default [] (hr_messages page)) as [|m ms] eqn:Hmsgs.
  { injection Hrun as <- <-. exists [inr page]. simpl.
    split; [by exists s1|]. split; [done|]. split; [done|].
    split.
    { unfold page_size, page_messages. rewrite Hmsgs. simpl.
      by destruct on_progress; rewrite app_nil_r. }
    exists nil, page. split; [done|]. split; [constructor|].
    split; [by left|]. split; [|simpl; lia].
    simpl. unfold page_messages. rewrite Hmsgs. by rewrite !app_nil_r. }
  change (negb true) with false in Hrun. cbv iota in Hrun.
  assert (Hsize : page_size page = S (length ms)).
  { unfold page_size, page_messages. by rewrite Hmsgs. }
  assert (Hne : page_messages page <> []).
  { unfold page_messages. by rewrite Hmsgs. }
  assert (Hpm : page_messages page = m :: ms).
  { unfold page_messages. by rewrite Hmsgs. }
  set (w1 := {| srv := s1;
                history_calls := history_calls w ++
                                 [(history_params channel_id o n cursor, inr page)];
                users_calls := users_calls w;
                progress_calls :=
                  progress_calls w ++
                  (if on_progress then [length (acc ++ m :: ms)] else []) |}).
  assert (Hrep : forall k : M (World Srv) (list Message),
             bind (when on_progress (report_progress (length (acc ++ m :: ms))))
                  (fun _ => k)
                  {| srv := s1;
                     history_calls := history_calls w ++
                                      [(history_params channel_id o n cursor, inr page)];
                     users_calls := users_calls w;
                     progress_calls := progress_calls w |}
             = k w1).
  { intros k. unfold bind, when, report_progress, modify, ret, w1.
    destruct on_progress; simpl; [done|]. by rewrite app_nil_r. }
  rewrite Hrep in Hrun.
  assert (Htot : running_totals (length acc) (page_size page :: []) =
                 [length (acc ++ m :: ms)]).
  { rewrite Hsize. simpl. by rewrite length_app. }
  destruct (continues page) eqn:Hcont.
  - apply IH in Hrun as (answers & Hserves & Hc & Hu & Hp & Hres).
    exists (inr page :: answers). simpl.
    split; [by exists s1|].
    split; [by rewrite Hc; simpl; rewrite <- app_assoc|].
    split; [done|].
    split.
    { rewrite Hp. simpl. rewrite <- app_assoc. f_equal.
      destruct on_progress; [|done]. rewrite Hsize. simpl.
      by rewrite length_app. }
    pose proof (continues_goes_on page Hne Hcont) as Hgo.
    destruct r as [messages | e |].
    + destruct Hres as (init & last & -> & Hinit & Hlast & -> & Hlen).
      exists (page :: init), last. split; [done|]. split; [by constructor|].
      split; [done|]. split; [|simpl; lia].
      simpl. rewrite Hpm. by rewrite <- !app_assoc.
    + destruct Hres as (init & -> & Hinit & Hlen).
      exists (page :: init). split; [done|]. split; [by constructor | simpl; lia].
    + destruct Hres as (init & -> & Hinit & Hlen).
      exists (page :: init). split; [done|]. split; [by constructor | simpl; lia].
  - injection Hrun as <- <-. exists [inr page]. simpl.
    split; [by exists s1|]. split; [done|]. split; [done|].
    split.
    { destruct on_progress; [|done]. rewrite Hsize. simpl. by rewrite length_app. }
    exists nil, page. split; [done|]. split; [constructor|].
    split; [by apply not_continues_is_last|]. split; [|simpl; lia].
    simpl. rewrite Hpm. by rewrite app_nil_r.
Qed.

Lemma exchange_answers channel_id o n cursor answers :
  map snd (exchange channel_id o n cursor answers) = answers.
Proof.
  revert cursor. induction answers as [|a answers IH]; intros cursor; [done|].
  simpl. by rewrite IH.
Qed.

Lemma running_totals_bounds sizes : forall k,
  Forall (fun t => (k < t <= k + sum_list sizes)%nat) (running_totals k sizes).
Proof.
  induction sizes as [|[|size] sizes IH]; intros k; simpl.
  - constructor.
  - apply IH.
  - constructor; [lia|].
    eapply Forall_impl; [apply IH|]. simpl. intros t Ht. lia.
Qed.

Lemma running_totals_sorted sizes : forall k,
  StronglySorted lt (running_totals k sizes).
Proof.
  induction sizes as [|[|size] sizes IH]; intros k; simpl.
  - constructor.
  - apply IH.
  - constructor; [apply IH|].
    eapply Forall_impl; [apply running_totals_bounds|]. simpl. intros t Ht. lia.
Qed.

Lemma running_totals_last sizes : forall k,
  last (running_totals k sizes) =
  if decide (sum_list sizes = 0%nat) then None else Some (k + sum_list sizes)%nat.
Proof.
  induction sizes as [|[|size] sizes IH]; intros k; simpl.
  - done.
  - apply IH.
  - specialize (IH (k + S size)%nat).
    destruct (running_totals (k + S size) sizes) as [|t ts] eqn:Hts.
    + simpl in *. destruct (decide (sum_list sizes = 0%nat)) as [-> | Hne];
        [|discriminate].
      f_equal. lia.
    + change (last (t :: ts) =
              Some (k + S (size + sum_list sizes))%nat).
      rewrite IH. destruct (decide (sum_list sizes = 0%nat)) as [H0 | H0].
      * by apply last_None in IH.
      * f_equal. lia.
Qed.

Lemma page_sizes_sum pages :
  sum_list (map page_size pages) = length (flat_map page_messages pages).
Proof.
  induction pages as [|page pages IH]; [done|].
  simpl. rewrite length_app, IH. reflexivity.
Qed.

Lemma convert_date_to_ts_raises date_str e :
  Utils.convert_date_to_ts local date_str = inl e -> exists message, e = ValueError message.
Proof.
  unfold Utils.convert_date_to_ts, Datetime.strptime.
  destruct (negb (truthy_str date_str)); [done|].
  destruct (Datetime.parse_year _) as [[year r1]|]; [|intros [= <-]; by eexists].
  destruct (Datetime.parse_month r1) as [[month r2]|]; [|intros [= <-]; by eexists].
  destruct (Datetime.parse_day r2) as [[day [|c r3]]|]; [| |];
    try (intros [= <-]; by eexists).
  destruct (negb _); [intros [= <-]; by eexists|].
  destruct (Datetime._check_date_fields year month day); [done|].
  intros [= <-]; by eexists.
Qed.

(** X1. Whenever [get_channel_history] returns, whatever the platform did:
    both date bounds were converted, and the platform has answered, to
    requests for the channel with limit 1000 and the cursor of the page
    before (none at first), pages that have messages, the "has more"
    indicator and a cursor, followed by one page that lacks one of the
    three; the list returned is exactly the messages of these pages in the
    order of arrival, no other request was sent, and the directory was not
    asked. *)
Theorem get_channel_history_returns_what_it_received
    fuel channel_id oldest_date newest_date on_progress w messages w' :
  get_channel_history conversations_history local
    fuel channel_id oldest_date newest_date on_progress w = (Val messages, w') ->
  exists oldest_ts newest_ts init last,
    Utils.convert_date_to_ts local oldest_date = inr oldest_ts /\
    Utils.convert_date_to_ts local newest_date = inr newest_ts /\
    serves conversations_history channel_id oldest_ts newest_ts None (srv w)
      (map inr init ++ [inr last]) (srv w') /\
    history_calls w' =
      history_calls w ++
      exchange channel_id oldest_ts newest_ts None (map inr init ++ [inr last]) /\
    users_calls w' = users_calls w /\
    Forall page_goes_on init /\ page_is_last last /\
    messages = flat_map page_messages (init ++ [last]) /\
    (length init < fuel)%nat.
Proof.
  unfold get_channel_history, try_except, bind, lift, raise, ret.
  destruct (Utils.convert_date_to_ts local oldest_date) as [e | o] eqn:Ho.
  { apply convert_date_to_ts_raises in Ho as [m ->]. done. }
  destruct (Utils.convert_date_to_ts local newest_date) as [e | n] eqn:Hn.
  { apply convert_date_to_ts_raises in Hn as [m ->]. done. }
  destruct (history_loop _ _ _ _ _ _ _ _ _) as [[msgs | e |] w1] eqn:Hloop.
  - intros [= <- <-].
    apply history_loop_trace in Hloop
      as (answers & Hs & Hc & Hu & _ & init & last & -> & Hinit & Hlast & Hm & Hlen).
    exists o, n, init, last. repeat (split; [done|]). done.
  - destruct e; try done. simpl. unfold raise.
    destruct (String.eqb error "missing_scope"); [done|].
    by destruct (String.eqb error "channel_not_found").
  - done.
Qed.

(** X2. Whenever [get_channel_history] raises, the exception is never the
    SDK's [SlackApiError], and one of two things happened. Either a date
    bound is no date: the exception is the [ValueError] of the conversion
    (of the oldest bound first) and no request was sent. Or the bounds were
    converted and, after pages on which pagination goes on, a request was
    refused: the error of the platform is raised as it is, except a
    [SlackApiError], which is wrapped into [SlackApiException] with the
    remote code and the message of its class. *)
Theorem get_channel_history_raises_only_these
    fuel channel_id oldest_date newest_date on_progress w e w' :
  get_channel_history conversations_history local
    fuel channel_id oldest_date newest_date on_progress w = (Exc e, w') ->
  (forall error, e <> SlackApiError error) /\
  ((exists message,
       e = ValueError message /\ w' = w /\
       (Utils.convert_date_to_ts local oldest_date = inl e \/
        (exists oldest_ts, Utils.convert_date_to_ts local oldest_date = inr oldest_ts) /\
        Utils.convert_date_to_ts local newest_date = inl e)) \/
   (exists oldest_ts newest_ts init refusal,
       Utils.convert_date_to_ts local oldest_date = inr oldest_ts /\
       Utils.convert_date_to_ts local newest_date = inr newest_ts /\
       history_calls w' =
         history_calls w ++
         exchange channel_id oldest_ts newest_ts None (map inr init ++ [inl refusal]) /\
       Forall page_goes_on init /\
       e = match refusal with
           | SlackApiError error =>
               SlackApiException (history_error_message channel_id error) error
           | _ => refusal
           end)).
Proof.
  unfold get_channel_history, try_except, bind, lift, raise, ret.
  destruct (Utils.convert_date_to_ts local oldest_date) as [e1 | o] eqn:Ho.
  { destruct (convert_date_to_ts_raises _ _ Ho) as [m ->]. simpl.
    intros [= <- <-]. split; [done|]. left. exists m. auto. }
  destruct (Utils.convert_date_to_ts local newest_date) as [e1 | n] eqn:Hn.
  { destruct (convert_date_to_ts_raises _ _ Hn) as [m ->]. simpl.
    intros [= <- <-]. split; [done|]. left. exists m.
    split; [done|]. split; [done|]. right. split; [by exists o | done]. }
  destruct (history_loop _ _ _ _ _ _ _ _ _) as [[msgs | e0 |] w1] eqn:Hloop;
    [done| |done].
  apply history_loop_trace in Hloop
    as (answers & Hs & Hc & Hu & _ & init & -> & Hinit & Hlen).
  intros Hrun.
  assert (He : e = match e0 with
                   | SlackApiError error =>
                       SlackApiException (history_error_message channel_id error) error
                   | _ => e0
                   end /\ w' = w1).
  { destruct e0; simpl in Hrun; try (by injection Hrun as <- <-).
    unfold history_error_message, classify.
    destruct (String.eqb error "missing_scope"); [by injection Hrun as <- <-|].
    destruct (String.eqb error "channel_not_found"); by injection Hrun as <- <-. }
  destruct He as [He ->].
  split.
  { intros error. rewrite He. by destruct e0. }
  right. exists o, n, init, e0. repeat (split; [done|]). done.
Qed.

(** X3. Whatever the platform does and however the call ends, the progress
    callback of [get_channel_history] (when one is given) is told, after
    each page that has messages, the number of messages received so far and
    nothing else: the counts are the running totals of the page sizes, so
    they strictly increase, and when the call returns a non-empty list the
    last count is its length, while an empty result means no call to the
    callback. Without a callback nothing is reported. *)
Theorem get_channel_history_reports_running_totals
    fuel channel_id oldest_date newest_date on_progress w r w' :
  get_channel_history conversations_history local
    fuel channel_id oldest_date newest_date on_progress w = (r, w') ->
  exists delta reports,
    history_calls w' = history_calls w ++ delta /\
    reports = running_totals 0 (map page_size (received (map snd delta))) /\
    progress_calls w' = progress_calls w ++ (if on_progress then reports else []) /\
    StronglySorted lt reports /\
    (forall messages,
        r = Val messages ->
        Forall (fun k => (0 < k <= length messages)%nat) reports /\
        (messages <> [] -> last reports = Some (length messages)) /\
        (messages = [] -> reports = [])).
Proof.
  unfold get_channel_history, try_except, bind, lift, raise, ret.
  assert (Hnone : forall w0 : World Srv, forall r0 : res (list Message),
             (forall messages, r0 <> Val messages) ->
             exists delta reports,
               history_calls w0 = history_calls w0 ++ delta /\
               reports = running_totals 0 (map page_size (received (map snd delta))) /\
               progress_calls w0 =
                 progress_calls w0 ++ (if on_progress then reports else []) /\
               StronglySorted lt reports /\
               (forall messages,
                   r0 = Val messages ->
                   Forall (fun k => (0 < k <= length messages)%nat) reports /\
                   (messages <> [] -> last reports = Some (length messages)) /\
                   (messages = [] -> reports = []))).
  { intros w0 r0 Hr0. exists nil, nil. simpl.
    split; [by rewrite app_nil_r|]. split; [done|].
    split; [by destruct on_progress; rewrite app_nil_r|].
    split; [constructor|]. intros messages ->. by destruct (Hr0 messages). }
  destruct (Utils.convert_date_to_ts local oldest_date) as [e1 | o] eqn:Ho.
  { destruct (convert_date_to_ts_raises _ _ Ho) as [m ->]. simpl.
    intros [= <- <-]. by apply Hnone. }
  destruct (Utils.convert_date_to_ts local newest_date) as [e1 | n] eqn:Hn.
  { destruct (convert_date_to_ts_raises _ _ Hn) as [m ->]. simpl.
    intros [= <- <-]. by apply Hnone. }
  destruct (history_loop _ _ _ _ _ _ _ _ _) as [r1 w1] eqn:Hloop.
  apply history_loop_trace in Hloop as (answers & Hs & Hc & Hu & Hp & Hres).
  intros Hrun.
  assert (Hw : history_calls w' = history_calls w1 /\
               progress_calls w' = progress_calls w1 /\
               (forall messages, r = Val messages -> r1 = Val messages)).
  { destruct r1 as [msgs | e0 |]; [by injection Hrun as <- <- | |by injection Hrun as <- <-].
    destruct e0; simpl in Hrun; try (by injection Hrun as <- <-).
    destruct (String.eqb error "missing_scope"); [by injection Hrun as <- <-|].
    destruct (String.eqb error "channel_not_found"); by injection Hrun as <- <-. }
  destruct Hw as (Hwc & Hwp & Hwr).
  exists (exchange channel_id o n None answers), 
         (running_totals 0 (map page_size (received answers))).
  rewrite exchange_answers, Hwc, Hwp.
  split; [done|]. split; [done|]. split; [done|].
  split; [apply running_totals_sorted|].
  intros messages Hr. apply Hwr in Hr. subst r1.
  destruct Hres as (init & last & -> & Hinit & Hlast & -> & Hlen).
  rewrite received_app, received_pages. simpl.
  pose proof (page_sizes_sum (init ++ [last])) as Hsum.
  split; [|split].
  - eapply Forall_impl; [apply running_totals_bounds|]. simpl.
    intros t Ht. rewrite Hsum in Ht. lia.
  - intros Hne. rewrite running_totals_last, Hsum.
    destruct (decide _) as [H0 | H0]; [|done].
    apply length_zero_iff_nil in H0. done.
  - intros Hnil. pose proof (running_totals_last (map page_size (init ++ [last])) 0) as Hl.
    rewrite Hsum, Hnil in Hl. simpl in Hl.
    by destruct (running_totals 0 (map page_size (init ++ [last]))) using rev_ind;
      [|rewrite last_snoc in Hl].
Qed.

End HistoryTraceFacts.

Section UsersTraceFacts.
Import Client ClientSpec TraceSpec.

Context {Srv : Type}.
Variable users_list : option string -> Srv -> (exn + UsersResult) * Srv.

Lemma add_users_app (a b : list User) (um : gmap string string) :
  add_users (a ++ b) um = add_users b (add_users a um).
Proof. apply fold_left_app. Qed.

(** Of several entries with one identifier, the last one names it. *)
Lemma add_users_last_entry (users : list User) (um : gmap string string) k :
  add_users users um !! k =
  match last_entry k users with
  | Some u => Some (display_name_of u)
  | None => um !! k
  end.
Proof.
  induction users as [|u users IH] using rev_ind; [done|].
  rewrite add_users_app. simpl. unfold last_entry in *.
  rewrite List.filter_app. simpl.
  destruct (decide (u_id u = k)) as [Heq | Hne].
  - rewrite bool_decide_eq_true_2 by done. rewrite last_snoc.
    rewrite <- Heq. by rewrite lookup_insert_eq.
  - rewrite bool_decide_eq_false_2 by done. rewrite app_nil_r.
    by rewrite lookup_insert_ne.
Qed.

Lemma has_next_cursor_names_next page :
  has_next_cursor (ur_response_metadata page) = true <-> names_next page.
Proof. apply truthy_str_true. Qed.

Lemma no_next_cursor_is_final page :
  has_next_cursor (ur_response_metadata page) = false <-> is_final page.
Proof. apply truthy_str_false. Qed.

(** Every run of the loop, read back from its outcome. *)
Lemma users_loop_trace fuel :
  forall cursor um w r w',
  truthy_str cursor = true \/ cursor = None ->
  users_loop users_list fuel cursor um w = (r, w') ->
  exists answers,
    users_calls w' = users_calls w ++ users_exchange cursor answers /\
    history_calls w' = history_calls w /\
    progress_calls w' = progress_calls w /\
    match r with
    | Val um' =>
        exists init last,
          answers = map inr init ++ [inr last] /\
          Forall names_next init /\ is_final last /\
          um' = add_users (flat_map page_members (init ++ [last])) um /\
          (length init < fuel)%nat
    | Exc e =>
        exists init,
          answers = map inr init ++ [inl e] /\
          Forall names_next init /\ (length init < fuel)%nat
    | OutOfFuel =>
        exists init,
          answers = map inr init /\ Forall names_next init /\ length init = fuel
    end.
Proof.
  induction fuel as [|fuel IH]; intros cursor um w r w' Hcur Hrun.
  { injection Hrun as <- <-. exists nil. simpl. rewrite app_nil_r.
    repeat (split; [done|]). by exists nil. }
  assert (Hsent : (if truthy_str cursor then cursor else None) = cursor).
  { by destruct Hcur as [-> | ->]. }
  simpl in Hrun. unfold bind at 1, call_users in Hrun. rewrite Hsent in Hrun.
  destruct (users_list cursor (srv w)) as [[e | page] s1] eqn:Hcall.
  { injection Hrun as <- <-. exists [inl e]. simpl.
    repeat (split; [done|]). exists nil. split; [done|].
    split; [constructor | simpl; lia]. }
  destruct (has_next_cursor (ur_response_metadata page)) eqn:Hnext.
  - pose proof (proj1 (has_next_cursor_names_next page) Hnext) as Hgo.
    apply IH in Hrun as (answers & Hc & Hh & Hp & Hres); [|by left].
    exists (inr page :: answers). simpl in *.
    split; [by rewrite Hc, <- app_assoc|]. split; [done|]. split; [done|].
    destruct r as [um' | e |].
    + destruct Hres as (init & last & -> & Hinit & Hlast & -> & Hlen).
      exists (page :: init), last. split; [done|]. split; [by constructor|].
      split; [done|]. split; [|simpl; lia].
      simpl. by rewrite add_users_app.
    + destruct Hres as (init & -> & Hinit & Hlen).
      exists (page :: init). split; [done|]. split; [by constructor | simpl; lia].
    + destruct Hres as (init & -> & Hinit & Hlen).
      exists (page :: init). split; [done|]. split; [by constructor | simpl; lia].
  - injection Hrun as <- <-. exists [inr page]. simpl.
    repeat (split; [done|]). exists nil, page. split; [done|].
    split; [constructor|]. split; [by apply no_next_cursor_is_final|].
    split; [|simpl; lia]. simpl. by rewrite app_nil_r.
Qed.

(** X4. Whenever [get_users] returns, whatever the platform did: the
    directory was asked page by page, first without cursor and then with
    the cursor of the page before, through pages whose cursor is present
    and not empty up to the first page whose cursor is absent or empty (a
    page goes on by its cursor alone, even without members); nothing else
    was requested. The mapping returned holds, for each identifier, the
    name resolved from the last entry received with that identifier, and
    no key for an identifier that was not received. *)
Theorem get_users_returns_the_directory_received fuel w um w' :
  get_users users_list fuel w = (Val um, w') ->
  exists init last,
    users_calls w' =
      users_calls w ++ users_exchange None (map inr init ++ [inr last]) /\
    history_calls w' = history_calls w /\
    Forall names_next init /\ is_final last /\
    (length init < fuel)%nat /\
    um = add_users (flat_map page_members (init ++ [last])) ∅ /\
    (forall user_id,
        um !! user_id =
        display_name_of <$> last_entry user_id (flat_map page_members (init ++ [last]))).
Proof.
  unfold get_users, try_except.
  destruct (users_loop users_list fuel None ∅ w) as [[um0 | e |] w0] eqn:Hloop.
  - intros [= <- <-].
    apply users_loop_trace in Hloop
      as (answers & Hc & Hh & _ & init & last & -> & Hinit & Hlast & -> & Hlen);
      [|by right].
    exists init, last. repeat (split; [done|]).
    intros user_id. rewrite add_users_last_entry.
    by destruct (last_entry _ _).
  - by destruct e.
  - done.
Qed.

(** X5. Whenever [get_users] raises, the exception is never the SDK's
    [SlackApiError]: after pages that named a next page, a request was
    refused, and the error of the platform is raised as it is, except a
    [SlackApiError], which becomes a [SlackApiException] with the message
    [Failed to fetch users: ] followed by the remote code, and with that
    code. The entries received before the refusal are not returned. *)
Theorem get_users_raises_only_these fuel w e w' :
  get_users users_list fuel w = (Exc e, w') ->
  (forall error, e <> SlackApiError error) /\
  exists init refusal,
    users_calls w' =
      users_calls w ++ users_exchange None (map inr init ++ [inl refusal]) /\
    Forall names_next init /\
    e = match refusal with
        | SlackApiError error =>
            SlackApiException ("Failed to fetch users: " +:+ error) error
        | _ => refusal
        end.
Proof.
  unfold get_users, try_except.
  destruct (users_loop users_list fuel None ∅ w) as [[um0 | e0 |] w0] eqn:Hloop;
    [done| |done].
  apply users_loop_trace in Hloop as (answers & Hc & _ & _ & init & -> & Hinit & _);
    [|by right].
  intros Hrun.
  assert (He : e = match e0 with
                   | SlackApiError error =>
                       SlackApiException ("Failed to fetch users: " +:+ error) error
                   | _ => e0
                   end /\ w' = w0).
  { destruct e0; by injection Hrun as <- <-. }
  destruct He as [He ->]. split.
  - intros error. rewrite He. by destruct e0.
  - by exists init, e0.
Qed.

End UsersTraceFacts.

Section BatchFacts.
Import Downloader DownloadSpec BatchSpec.

Context {Net : Type}.
Variable requests_get :
  string -> list (string * string) -> Net -> (exn + HttpResponse) * Net.
Variable token : string.
Variable download_dir : string.

Abbreviation download_file := (download_file requests_get token download_dir).
Abbreviation download_loop := (download_loop requests_get token download_dir).
Abbreviation download_files := (download_files requests_get token download_dir).
Abbreviation attempts := (attempts requests_get token download_dir).
Abbreviation auth_headers := (auth_headers token).
Abbreviation numbered_path := (numbered_path download_dir).

(** What one attempt asks and writes, whatever its outcome. *)
Lemma download_file_cases file_info file_number d r d1 :
  download_file file_info file_number d = (r, d1) ->
  requests d1 =
    requests d ++ (if well_formed file_info then [(url_of file_info, auth_headers)] else []) /\
  match r with
  | Val p =>
      exists filename response,
        well_formed file_info = true /\
        f_name file_info = Some filename /\
        requests_get (url_of file_info) auth_headers (net d) = (inr response, net d1) /\
        p = match file_number with
            | Some n => numbered_path n filename
            | None => path_join download_dir filename
            end /\
        fs d1 = <[p := body_of (body_chunks response)]> (fs d)
  | Exc e =>
      fs d1 = fs d /\
      (well_formed file_info = false -> exists message, e = DownloadError message)
  | OutOfFuel => False
  end.
Proof.
  intros Hrun. destruct r as [p | e |].
  - apply download_file_success in Hrun
      as (url & filename & response & Hu & Hune & Hf & Hfne & Hget & _ & _ & Hp & Hreq & Hfs).
    assert (Hwf : well_formed file_info = true).
    { unfold well_formed. rewrite Hu, Hf. simpl.
      destruct url; [done|]. by destruct filename. }
    unfold url_of. rewrite Hwf, Hu. simpl.
    split; [done|]. by exists filename, response.
  - revert Hrun. unfold Downloader.download_file, well_formed, url_of.
    destruct (truthy_str (url_private_download file_info)); simpl;
      [|intros [= <- <-]; rewrite app_nil_r; split; [done|]; split; [done|]; by eexists].
    destruct (truthy_str (f_name file_info)); simpl;
      [|intros [= <- <-]; rewrite app_nil_r; split; [done|]; split; [done|]; by eexists].
    unfold bind at 1, http_get.
    destruct (requests_get _ _ (net d)) as [[e0 | response] n1];
      [by intros [= <- <-]|].
    destruct (status_code response =? 200); simpl; [|by intros [= <- <-]].
    destruct (contains "text/html" _); [by intros [= <- <-]|].
    unfold bind, write_chunks, modify, ret. done.
  - revert Hrun. unfold Downloader.download_file.
    destruct (truthy_str (url_private_download file_info)); simpl; [|done].
    destruct (truthy_str (f_name file_info)); simpl; [|done].
    unfold bind at 1, http_get.
    destruct (requests_get _ _ (net d)) as [[e0 | response] n1]; [done|].
    destruct (status_code response =? 200); simpl; [|done].
    destruct (contains "text/html" _); [done|].
    unfold bind, write_chunks, modify, ret. done.
Qed.

Lemma attempts_app a : forall b i d ra da rb db,
  attempts i a d = (ra, da) ->
  attempts (i + length a) b da = (rb, db) ->
  attempts i (a ++ b) d = (ra ++ rb, db).
Proof.
  induction a as [|f a IH]; intros b i d ra da rb db Ha Hb; simpl in *.
  - injection Ha as <- <-. by rewrite Nat.add_0_r in Hb.
  - destruct (download_file f _ d) as [r d1].
    destruct (attempts (S i) a d1) as [ra' da'] eqn:Hrest.
    injection Ha as <- <-.
    replace (i + S (length a))%nat with (S i + length a)%nat in Hb by lia.
    by rewrite (IH _ _ _ _ _ _ _ Hrest Hb).
Qed.

(** Every run of the loop over a batch, read back from its outcome. *)
Lemma download_loop_trace files :
  forall i total on_progress on_error downloaded d hooks r d' hooks',
  download_loop i total files on_progress on_error downloaded (d, hooks)
    = (r, (d', hooks')) ->
  match r with
  | Val paths =>
      exists rs,
        attempts i files d = (rs, d') /\ Forall contained rs /\
        paths = downloaded ++ successes rs /\
        hooks' = hooks ++ hook_calls i total files rs on_progress on_error
  | Exc e =>
      (forall message, e <> DownloadError message) /\
      exists k file_info rs dk,
        files !! k = Some file_info /\
        attempts i (take k files) d = (rs, dk) /\ Forall contained rs /\
        download_file file_info (Some (Z.of_nat (i + k))) dk = (Exc e, d') /\
        hooks' =
          hooks ++ hook_calls i total (take k files) rs on_progress on_error ++
          (if on_progress
           then [OnProgress (reported_name file_info) (S (i + k)) total]
           else [])
  | OutOfFuel => False
  end.
Proof.
  induction files as [|f files IH];
    intros i total on_progress on_error downloaded d hooks r d' hooks' Hrun.
  { injection Hrun as <- <- <-. exists nil. simpl. by rewrite !app_nil_r. }
  simpl in Hrun. unfold bind at 1 in Hrun.
  assert (Hprog : forall b,
             when on_progress
               (call_hook (Net := Net) (OnProgress (default "unknown" (f_name f)) (i + 1) total)) b
             = (Val tt,
                (fst b, snd b ++ (if on_progress
                                  then [OnProgress (reported_name f) (S i) total]
                                  else [])))).
  { intros [bd bh]. unfold when, call_hook, modify, ret, reported_name.
    rewrite Nat.add_1_r. destruct on_progress; simpl; [done|].
    by rewrite app_nil_r. }
  rewrite Hprog in Hrun. simpl fst in Hrun; simpl snd in Hrun.
  unfold bind at 1, try_except, bind at 1, on_disk in Hrun.
  simpl fst in Hrun; simpl snd in Hrun.
  destruct (download_file f (Some (Z.of_nat i)) d) as [r0 d1] eqn:Hdl.
  pose proof (download_file_cases _ _ _ _ _ Hdl) as [_ Hcase].
  set (prog := if on_progress then [OnProgress (reported_name f) (S i) total] else [])
    in *.
  assert (Hnext : forall r1 downloaded1 extra,
             contained r0 ->
             successes [r0] = downloaded1 ->
             match r0 with
             | Exc e => (if on_error then [OnError (reported_name f) e] else [])
             | _ => []
             end = extra ->
             download_loop (S i) total files on_progress on_error
               (downloaded ++ downloaded1) (d1, (hooks ++ prog) ++ extra)
             = (r1, (d', hooks')) ->
             match r1 with
             | Val paths =>
                 exists rs,
                   attempts i (f :: files) d = (rs, d') /\ Forall contained rs /\
                   paths = downloaded ++ successes rs /\
                   hooks' = hooks ++ hook_calls i total (f :: files) rs on_progress on_error
             | Exc e =>
                 (forall message, e <> DownloadError message) /\
                 exists k file_info rs dk,
                   (f :: files) !! k = Some file_info /\
                   attempts i (take k (f :: files)) d = (rs, dk) /\ Forall contained rs /\
                   download_file file_info (Some (Z.of_nat (i + k))) dk = (Exc e, d') /\
                   hooks' =
                     hooks ++
                     hook_calls i total (take k (f :: files)) rs on_progress on_error ++
                     (if on_progress
                      then [OnProgress (reported_name file_info) (S (i + k)) total]
                      else [])
             | OutOfFuel => False
             end).
  { intros r1 downloaded1 extra Hok Hd Hx Hrest. apply IH in Hrest.
    destruct r1 as [paths | e |]; [| |done].
    - destruct Hrest as (rs & Hatt & Hall & -> & ->).
      exists (r0 :: rs). simpl. rewrite Hdl, Hatt.
      split; [done|]. split; [by constructor|].
      split.
      + rewrite <- Hd. unfold successes. simpl.
        destruct r0 as [p | e |]; simpl; by rewrite <- ?app_assoc, ?app_nil_r.
      + fold prog. rewrite Hx. by rewrite <- !app_assoc.
    - destruct Hrest as (Hne & k & fi & rs & dk & Hk & Hatt & Hall & Hfail & ->).
      split; [done|].
      exists (S k), fi, (r0 :: rs), dk. simpl. rewrite Hdl, Hatt.
      split; [done|]. split; [done|]. split; [by constructor|].
      replace (i + S k)%nat with (S i + k)%nat by lia.
      split; [done|]. fold prog. rewrite Hx. by rewrite <- !app_assoc. }
  destruct r0 as [p | e |]; [| |done].
  - unfold ret in Hrun.
    apply (Hnext r [p] []); try done. by rewrite app_nil_r.
  - destruct e as [error | message0 code | message0 | message0 | message0];
      try (injection Hrun as <- <- <-;
           split; [done|];
           exists 0%nat, f, nil, d; simpl; rewrite Nat.add_0_r;
           repeat (split; [done|]); done).
    unfold bind at 1, when, call_hook, modify, ret in Hrun.
    apply (Hnext r [] (if on_error then [OnError (reported_name f) (DownloadError message0)]
                       else [])); try done.
    rewrite app_nil_r. unfold reported_name.
    destruct on_error; simpl in *; [done|]. by rewrite app_nil_r.
Qed.

(** ** The number in front of a saved name *)

Lemma str_of_int_digits (z : Z) :
  0 <= z ->
  exists u, str_of_int z = NilEmpty.string_of_uint u /\ Z.of_uint u = z /\
            u <> Decimal.Nil.
Proof.
  intros Hz. unfold str_of_int.
  pose proof (DecimalZ.of_to z) as Hback.
  destruct z as [|p|p]; [| |lia].
  - by exists (Decimal.D0 Decimal.Nil).
  - exists (Pos.to_uint p). simpl in *.
    pose proof (Unsigned.to_uint_nonnil p) as Hnn.
    split; [|done]. by destruct (Pos.to_uint p).
Qed.

Lemma all_digits_string_of_uint (u : Decimal.uint) :
  all_digits (NilEmpty.string_of_uint u) = true.
Proof. induction u; simpl; done. Qed.

Lemma all_digits_zeros (k : nat) (s : string) :
  all_digits (zeros k +:+ s) = all_digits s.
Proof.
  induction k as [|k IH]; [done|].
  cbn [zeros]. rewrite str_app_cons. simpl. exact IH.
Qed.

Lemma zfill_digits (width : nat) (s : string) :
  all_digits s = true -> zfill width s = zeros (width - String.length s) +:+ s.
Proof.
  unfold zfill. destruct s as [|c s]; [by rewrite str_app_nil_r|].
  simpl. intros [Hc _]%andb_true_iff.
  assert (Ascii.eqb c "+" || Ascii.eqb c "-" = false) as ->; [|done].
  apply orb_false_iff.
  split; apply Ascii.eqb_neq; intros ->; done.
Qed.

Lemma decimal_value_zeros (k : nat) (s : string) :
  decimal_value (zeros k +:+ s) = decimal_value s.
Proof.
  induction k as [|k IH]; [done|].
  cbn [zeros]. rewrite str_app_cons. rewrite <- IH.
  unfold decimal_value. simpl.
  by destruct (NilEmpty.uint_of_string (zeros k +:+ s)).
Qed.

Lemma decimal_value_string_of_uint (u : Decimal.uint) :
  decimal_value (NilEmpty.string_of_uint u) = Some (Z.of_uint u).
Proof. unfold decimal_value. by rewrite NilEmpty.usu. Qed.

Lemma string_length_app (a b : string) :
  String.length (a +:+ b) = (String.length a + String.length b)%nat.
Proof. induction a as [|c a IH]; [done|]. rewrite str_app_cons. simpl. by rewrite IH. Qed.

Lemma zeros_length (k : nat) : String.length (zeros k) = k.
Proof. induction k as [|k IH]; [done|]. simpl. by rewrite IH. Qed.

Lemma number_prefix_digits (z : Z) :
  0 <= z ->
  all_digits (number_prefix z) = true /\ decimal_value (number_prefix z) = Some z.
Proof.
  intros Hz. destruct (str_of_int_digits z Hz) as (u & Hs & Hu & _).
  unfold number_prefix. rewrite Hs.
  rewrite zfill_digits by apply all_digits_string_of_uint.
  rewrite all_digits_zeros, decimal_value_zeros, decimal_value_string_of_uint, Hu.
  split; [apply all_digits_string_of_uint | done].
Qed.

Lemma digits_hyphen_inj (a b x y : string) :
  all_digits a = true -> all_digits b = true ->
  a +:+ String "-" x = b +:+ String "-" y -> a = b /\ x = y.
Proof.
  revert b. induction a as [|c a IH]; intros [|c' b] Ha Hb Heq.
  - by injection Heq as ->.
  - rewrite str_app_cons in Heq. injection Heq as <- _.
    simpl in Hb. done.
  - rewrite str_app_cons in Heq. injection Heq as -> _.
    simpl in Ha. done.
  - rewrite !str_app_cons in Heq. injection Heq as <- Heq.
    simpl in Ha, Hb.
    apply andb_true_iff in Ha as [_ Ha]. apply andb_true_iff in Hb as [_ Hb].
    destruct (IH b Ha Hb Heq) as [-> ->]. done.
Qed.

Lemma str_app_inv_head (a x y : string) : a +:+ x = a +:+ y -> x = y.
Proof.
  induction a as [|c a IH]; [done|]. rewrite !str_app_cons. intros [= H]. by apply IH.
Qed.

Lemma numbered_path_inj (i j : Z) (n1 n2 : string) :
  0 <= i -> 0 <= j ->
  numbered_path i n1 = numbered_path j n2 -> i = j /\ n1 = n2.
Proof.
  intros Hi Hj. unfold DownloadSpec.numbered_path, path_join.
  fold (number_prefix i). fold (number_prefix j).
  intros Heq. apply str_app_inv_head in Heq.
  change ("/" +:+ ?x) with (String "/" x) in Heq.
  change ("-" +:+ ?x) with (String "-" x) in Heq.
  injection Heq as Heq.
  destruct (number_prefix_digits i Hi) as [Hdi Hvi].
  destruct (number_prefix_digits j Hj) as [Hdj Hvj].
  apply digits_hyphen_inj in Heq as [Heq ->]; [|done..].
  rewrite Heq in Hvi. split; [congruence | done].
Qed.

(** ** The disk and the network after the attempts of a batch *)

Lemma attempts_requests files : forall k d rs d',
  attempts k files d = (rs, d') ->
  requests d' =
    requests d ++
    map (fun file_info => (url_of file_info, auth_headers))
        (List.filter well_formed files).
Proof.
  induction files as [|f files IH]; intros k d rs d' Hatt; simpl in Hatt.
  - injection Hatt as <- <-. by rewrite app_nil_r.
  - destruct (download_file f _ d) as [r d1] eqn:Hdl.
    destruct (attempts (S k) files d1) as [rs' d2] eqn:Hrest.
    injection Hatt as <- <-.
    apply download_file_cases in Hdl as [Hreq _].
    rewrite (IH _ _ _ _ Hrest), Hreq. simpl.
    destruct (well_formed f); simpl; by rewrite <- app_assoc.
Qed.

Lemma attempts_paths files : forall k d rs d' p,
  attempts k files d = (rs, d') ->
  p ∈ successes rs ->
  exists j filename, (k <= j)%nat /\ p = numbered_path (Z.of_nat j) filename.
Proof.
  induction files as [|f files IH]; intros k d rs d' p Hatt Hin; simpl in Hatt.
  - injection Hatt as <- <-. by apply elem_of_nil in Hin.
  - destruct (download_file f _ d) as [r d1] eqn:Hdl.
    destruct (attempts (S k) files d1) as [rs' d2] eqn:Hrest.
    injection Hatt as <- <-.
    assert (Hlater : p ∈ successes rs' ->
              exists j filename, (k <= j)%nat /\ p = numbered_path (Z.of_nat j) filename).
    { intros Hin'. destruct (IH _ _ _ _ _ Hrest Hin') as (j & filename & Hj & Hp).
      exists j, filename. split; [lia | done]. }
    apply download_file_cases in Hdl as [_ Hcase].
    destruct r as [q | e |]; [| by apply Hlater | done].
    unfold successes in Hin. simpl in Hin.
    apply elem_of_cons in Hin as [-> | Hin]; [|by apply Hlater].
    destruct Hcase as (filename & response & _ & _ & _ & Hq & _).
    exists k, filename. split; [lia | done].
Qed.

Lemma attempts_unwritten files : forall k d rs d' p,
  attempts k files d = (rs, d') ->
  p ∉ successes rs -> fs d' !! p = fs d !! p.
Proof.
  induction files as [|f files IH]; intros k d rs d' p Hatt Hnot; simpl in Hatt.
  - by injection Hatt as <- <-.
  - destruct (download_file f _ d) as [r d1] eqn:Hdl.
    destruct (attempts (S k) files d1) as [rs' d2] eqn:Hrest.
    injection Hatt as <- <-.
    apply download_file_cases in Hdl as [_ Hcase].
    destruct r as [q | e |]; [| |done].
    + unfold successes in Hnot. simpl in Hnot.
      apply not_elem_of_cons in Hnot as [Hne Hnot].
      rewrite (IH _ _ _ _ _ Hrest Hnot).
      destruct Hcase as (filename & response & _ & _ & _ & _ & ->).
      by rewrite lookup_insert_ne.
    + rewrite (IH _ _ _ _ _ Hrest Hnot). by destruct Hcase as [-> _].
Qed.

Lemma attempts_no_dup files : forall k d rs d',
  attempts k files d = (rs, d') -> NoDup (successes rs).
Proof.
  induction files as [|f files IH]; intros k d rs d' Hatt; simpl in Hatt.
  - injection Hatt as <- <-. constructor.
  - destruct (download_file f _ d) as [r d1] eqn:Hdl.
    destruct (attempts (S k) files d1) as [rs' d2] eqn:Hrest.
    injection Hatt as <- <-.
    pose proof (IH _ _ _ _ Hrest) as Hnd.
    apply download_file_cases in Hdl as [_ Hcase].
    destruct r as [q | e |]; [| done | done].
    unfold successes. simpl. apply NoDup_cons. split; [|done].
    intros Hin.
    destruct (attempts_paths _ _ _ _ _ _ Hrest Hin) as (j & name & Hj & Hq).
    destruct Hcase as (filename & response & _ & _ & _ & Hq' & _).
    rewrite Hq' in Hq. apply numbered_path_inj in Hq as [Hq _]; lia.
Qed.

Lemma attempts_written files : forall k d rs d' i p,
  attempts k files d = (rs, d') ->
  rs !! i = Some (Val p) ->
  exists file_info filename response n n',
    files !! i = Some file_info /\
    well_formed file_info = true /\
    f_name file_info = Some filename /\
    p = numbered_path (Z.of_nat (k + i)) filename /\
    requests_get (url_of file_info) auth_headers n = (inr response, n') /\
    fs d' !! p = Some (body_of (body_chunks response)).
Proof.
  induction files as [|f files IH]; intros k d rs d' i p Hatt Hi; simpl in Hatt.
  - by injection Hatt as <- <-.
  - destruct (download_file f _ d) as [r d1] eqn:Hdl.
    destruct (attempts (S k) files d1) as [rs' d2] eqn:Hrest.
    injection Hatt as <- <-.
    destruct i as [|i]; simpl in Hi.
    + injection Hi as ->.
      apply download_file_cases in Hdl
        as [_ (filename & response & Hwf & Hname & Hget & Hp & Hfs)].
      exists f, filename, response, (net d), (net d1).
      rewrite Nat.add_0_r. repeat (split; [done|]).
      rewrite (attempts_unwritten _ _ _ _ _ p Hrest).
      * rewrite Hfs. by rewrite lookup_insert_eq.
      * intros Hin.
        destruct (attempts_paths _ _ _ _ _ _ Hrest Hin) as (j & name & Hj & Hq).
        rewrite Hp in Hq. apply numbered_path_inj in Hq as [Hq _]; lia.
    + destruct (IH _ _ _ _ _ _ Hrest Hi)
        as (fi & filename & response & n & n' & Hf & Hwf & Hname & Hp & Hget & Hfs).
      exists fi, filename, response, n, n'.
      replace (k + S i)%nat with (S k + i)%nat by lia. done.
Qed.

(** X6. Whenever [download_files] returns, whatever the network did: it
    has sent exactly one request for each descriptor that has a non-empty
    URL and a non-empty name, in the order of the input, to the URL of the
    descriptor and with the bearer token, and no request for the other
    descriptors. *)
Theorem download_files_asks_each_well_formed_descriptor_once
    files on_progress on_error d hooks paths d' hooks' :
  download_files files on_progress on_error (d, hooks) = (Val paths, (d', hooks')) ->
  requests d' =
    requests d ++
    map (fun file_info =>
           (url_of file_info,
            [("Authorization", "Bearer " +:+ token); ("User-Agent", "Mozilla/5.0")]))
        (List.filter well_formed files).
Proof.
  intros Hrun. apply download_loop_trace in Hrun as (rs & Hatt & _).
  exact (attempts_requests _ _ _ _ _ Hatt).
Qed.

(** X7. Whenever [download_files] returns, whatever the network did: the
    paths returned are pairwise distinct, every other path of the disk is
    as it was before, and each returned path holds at the end the body
    that the network answered for one descriptor of the batch, saved under
    the download directory with the zero-based position of the descriptor
    in four digits before its name: no file of a batch overwrites another
    file of the batch. *)
Theorem download_files_saves_each_file_apart
    files on_progress on_error d hooks paths d' hooks' :
  download_files files on_progress on_error (d, hooks) = (Val paths, (d', hooks')) ->
  NoDup paths /\
  (forall p, p ∉ paths -> fs d' !! p = fs d !! p) /\
  (forall p,
      p ∈ paths ->
      exists i file_info filename response n n',
        files !! i = Some file_info /\
        f_name file_info = Some filename /\
        p = path_join download_dir
              (zfill 4 (str_of_int (Z.of_nat i)) +:+ "-" +:+ filename) /\
        requests_get (url_of file_info) auth_headers n = (inr response, n') /\
        fs d' !! p = Some (body_of (body_chunks response))).
Proof.
  intros Hrun. apply download_loop_trace in Hrun as (rs & Hatt & _ & -> & _).
  simpl. split; [by eapply attempts_no_dup|].
  split; [intros p; by eapply attempts_unwritten|].
  intros p Hin. unfold successes in Hin.
  apply list_elem_of_omap in Hin as (r & Hr & Hp).
  destruct r as [q | |]; [|done..]. injection Hp as ->.
  apply list_elem_of_lookup in Hr as (i & Hi).
  destruct (attempts_written _ _ _ _ _ _ _ Hatt Hi)
    as (fi & filename & response & n & n' & Hf & _ & Hname & Hp & Hget & Hfs).
  by exists i, fi, filename, response, n, n'.
Qed.

(** X8. [download_files] never raises [DownloadError] and always ends.
    When it raises, the exception is one that [download_file] raised for
    some descriptor after the network failed, the descriptors before it
    were all attempted, the progress callback was called for the failing
    descriptor and the error callback was not: the batch stops there, the
    files saved so far stay on disk and their paths are not returned. *)
Theorem download_files_stops_at_a_foreign_error
    files on_progress on_error d hooks e d' hooks' :
  download_files files on_progress on_error (d, hooks) = (Exc e, (d', hooks')) ->
  (forall message, e <> DownloadError message) /\
  exists k file_info rs dk,
    files !! k = Some file_info /\
    well_formed file_info = true /\
    attempts 0 (take k files) d = (rs, dk) /\ Forall contained rs /\
    download_file file_info (Some (Z.of_nat k)) dk = (Exc e, d') /\
    fs d' = fs dk /\
    (forall p, p ∈ successes rs -> is_Some (fs d' !! p)) /\
    hooks' =
      hooks ++ hook_calls 0 (length files) (take k files) rs on_progress on_error ++
      (if on_progress
       then [OnProgress (reported_name file_info) (S k) (length files)]
       else []).
Proof.
  intros Hrun. apply download_loop_trace in Hrun
    as (Hne & k & fi & rs & dk & Hk & Hatt & Hall & Hfail & Hhooks).
  split; [done|]. exists k, fi, rs, dk. simpl in *.
  pose proof (download_file_cases _ _ _ _ _ Hfail) as [_ [Hfs Hmal]].
  split; [done|]. split.
  { destruct (well_formed fi); [done|]. destruct Hmal as [m ->]; [done|].
    by destruct (Hne m). }
  repeat (split; [done|]). split; [|done].
  intros p Hin. rewrite Hfs. unfold successes in Hin.
  apply list_elem_of_omap in Hin as (r & Hr & Hp).
  destruct r as [q | |]; [|done..]. injection Hp as ->.
  apply list_elem_of_lookup in Hr as (i & Hi).
  destruct (attempts_written _ _ _ _ _ _ _ Hatt Hi)
    as (_ & _ & response & _ & _ & _ & _ & _ & _ & _ & Hlook).
  by rewrite Hlook.
Qed.

Lemma number_prefix_length (n : Z) :
  0 <= n ->
  String.length (number_prefix n) = Nat.max 4 (String.length (str_of_int n)) /\
  (n <= 9999 -> String.length (number_prefix n) = 4%nat).
Proof.
  intros Hn.
  destruct (str_of_int_digits n Hn) as (u & Hs & Hu & Hnil).
  assert (Hlen : String.length (number_prefix n)
                 = Nat.max 4 (String.length (str_of_int n))).
  { unfold number_prefix.
    rewrite Hs, zfill_digits by apply all_digits_string_of_uint.
    rewrite string_length_app, zeros_length. lia. }
  split; [done|].
  intros Hle. rewrite Hlen.
  assert (String.length (str_of_int n) <= 4)%nat; [|lia].
  assert (Hall : forallb (fun k => String.length (str_of_int (Z.of_nat k)) <=? 4)%nat
                         (seq 0 (Z.to_nat 10000)) = true) by (vm_compute; reflexivity).
  rewrite forallb_forall in Hall.
  specialize (Hall (Z.to_nat n)). rewrite Z2Nat.id in Hall by done.
  apply Nat.leb_le, Hall, in_seq. lia.
Qed.

(** X9. The number of a saved file can be read back from its name: for
    every position (counted from zero) the prefix [str(n).zfill(4)] is
    made of digits only, has four characters up to position 9999 and as
    many as the number has digits beyond, and denotes the position in base
    ten; so two numbered names [f"{prefix}-{filename}"] are the same text
    only for the same position and the same file name. *)
Theorem number_prefix_reads_back (n m : Z) (name1 name2 : string) :
  0 <= n -> 0 <= m ->
  all_digits (zfill 4 (str_of_int n)) = true /\
  decimal_value (zfill 4 (str_of_int n)) = Some n /\
  String.length (zfill 4 (str_of_int n)) = Nat.max 4 (String.length (str_of_int n)) /\
  (n <= 9999 -> String.length (zfill 4 (str_of_int n)) = 4%nat) /\
  (zfill 4 (str_of_int n) +:+ "-" +:+ name1 =
   zfill 4 (str_of_int m) +:+ "-" +:+ name2 ->
   n = m /\ name1 = name2).
Proof.
  intros Hn Hm.
  destruct (number_prefix_digits n Hn) as [Hd Hv].
  destruct (number_prefix_digits m Hm) as [Hd' Hv'].
  destruct (number_prefix_length n Hn) as [Hlen Hfour].
  split; [done|]. split; [done|]. split; [done|]. split; [done|].
  fold (number_prefix n). fold (number_prefix m).
  change ("-" +:+ ?x) with (String "-" x).
  intros Heq.
  apply digits_hyphen_inj in Heq as [Heq ->]; [|done..].
  rewrite Heq in Hv. split; [congruence | done].
Qed.

(** ** The order of the saved names *)

Lemma ascii_compare_refl (c : ascii) : Ascii.compare c c = Eq.
Proof. unfold Ascii.compare. apply N.compare_refl. Qed.

Lemma string_compare_lt_trans (a : string) : forall b c,
  String.compare a b = Lt -> String.compare b c = Lt -> String.compare a c = Lt.
Proof.
  induction a as [|x a IH]; intros [|y b] [|z c]; simpl; try done.
  unfold Ascii.compare.
  destruct (N.compare_spec (N_of_ascii x) (N_of_ascii y)) as [Hxy | Hxy | Hxy];
    [|  |done];
    destruct (N.compare_spec (N_of_ascii y) (N_of_ascii z)) as [Hyz | Hyz | Hyz];
    try done; intros H1 H2.
  - rewrite Hxy, Hyz, N.compare_refl. by eapply IH.
  - rewrite Hxy. by apply N.compare_lt_iff in Hyz as ->.
  - rewrite <- Hyz. by apply N.compare_lt_iff in Hxy as ->.
  - assert (N_of_ascii x < N_of_ascii z)%N as Hxz by lia.
    by apply N.compare_lt_iff in Hxz as ->.
Qed.

Lemma string_compare_app_head (a x y : string) :
  String.compare (a +:+ x) (a +:+ y) = String.compare x y.
Proof.
  induction a as [|c a IH]; [done|].
  rewrite !str_app_cons. simpl. by rewrite ascii_compare_refl.
Qed.

Lemma string_compare_lt_app (p : string) : forall q x y,
  String.length p = String.length q ->
  String.compare p q = Lt -> String.compare (p +:+ x) (q +:+ y) = Lt.
Proof.
  induction p as [|c p IH]; intros [|c' q] x y Hlen Hlt; try done.
  rewrite !str_app_cons. simpl in Hlen, Hlt. simpl.
  destruct (Ascii.compare c c'); try done.
  apply IH; [lia | done].
Qed.

Lemma number_prefix_next (k : nat) :
  Z.of_nat k < 9999 ->
  String.compare (number_prefix (Z.of_nat k)) (number_prefix (Z.of_nat (S k))) = Lt.
Proof.
  intros Hk.
  assert (Hall : forallb
                   (fun k => match String.compare (number_prefix (Z.of_nat k))
                                                  (number_prefix (Z.of_nat (S k))) with
                             | Lt => true
                             | _ => false
                             end)
                   (seq 0 (Z.to_nat 9999)) = true) by (vm_compute; reflexivity).
  rewrite forallb_forall in Hall. specialize (Hall k).
  assert (Hin : In k (seq 0 (Z.to_nat 9999))) by (apply in_seq; lia).
  destruct (String.compare _ _); [|done|]; by apply Hall in Hin.
Qed.

Lemma number_prefix_increasing (i j : nat) :
  (i < j)%nat -> Z.of_nat j <= 9999 ->
  String.compare (number_prefix (Z.of_nat i)) (number_prefix (Z.of_nat j)) = Lt.
Proof.
  induction j as [|j IH]; [lia|]. intros Hij Hj.
  destruct (decide (i = j)) as [-> | Hne].
  - apply number_prefix_next. lia.
  - eapply string_compare_lt_trans; [apply IH; lia | apply number_prefix_next; lia].
Qed.

(** X10. Up to position 9999 the saved names sort in the order of the
    batch: of two files of one batch, the one that comes first has the
    smaller path in the order of the character codes, whatever the two
    names are. From position 10000 on this is lost: the prefix [10000]
    sorts before [9999]. *)
Theorem numbered_paths_sort_in_batch_order (i j : nat) (name1 name2 : string) :
  (i < j)%nat -> Z.of_nat j <= 9999 ->
  String.ltb
    (path_join download_dir (zfill 4 (str_of_int (Z.of_nat i)) +:+ "-" +:+ name1))
    (path_join download_dir (zfill 4 (str_of_int (Z.of_nat j)) +:+ "-" +:+ name2))
  = true /\
  String.ltb
    (path_join download_dir (zfill 4 (str_of_int 10000) +:+ "-" +:+ name1))
    (path_join download_dir (zfill 4 (str_of_int 9999) +:+ "-" +:+ name2))
  = true.
Proof.
  intros Hij Hj. unfold String.ltb, path_join.
  rewrite !string_compare_app_head.
  change ("/" +:+ ?x) with (String "/" x). simpl String.compare.
  fold (number_prefix (Z.of_nat i)). fold (number_prefix (Z.of_nat j)).
  split; [|reflexivity].
  rewrite string_compare_lt_app; [done| |by apply number_prefix_increasing].
  rewrite (proj2 (number_prefix_length (Z.of_nat i) ltac:(lia)) ltac:(lia)).
  by rewrite (proj2 (number_prefix_length (Z.of_nat j) ltac:(lia)) ltac:(lia)).
Qed.

End BatchFacts.

Section BoundFacts.
Import Client ClientSpec HistorySpec Datetime Utils DateSpec BoundSpec.

Context {Srv : Type}.
Variable conversations_history : HistoryParams -> Srv -> (exn + HistoryResult) * Srv.
Variable local : Z -> Z.

Lemma exchange_bounds channel_id o n cursor answers :
  Forall (fun c => hp_channel (fst c) = channel_id /\ hp_limit (fst c) = 1000 /\
                   hp_oldest (fst c) = sent_bound o /\
                   hp_latest (fst c) = sent_bound n)
         (exchange channel_id o n cursor answers).
Proof.
  revert cursor. induction answers as [|a answers IH]; intros cursor; simpl.
  - constructor.
  - constructor; [|apply IH]. simpl.
    split; [done|]. split; [done|].
    split; [by destruct o as [[]|] | by destruct n as [[]|]].
Qed.

(** X11. Every request that [get_channel_history] sends, whatever the
    platform answers and however the call ends, asks for the same channel
    with limit 1000 and carries the same two bounds: the timestamp of the
    oldest date as [oldest] and that of the newest date as [latest], each
    left out when the date is absent or empty, and also when its timestamp
    is zero. *)
Theorem history_requests_carry_the_bounds
    fuel channel_id oldest_date newest_date oldest_ts newest_ts on_progress w r w' :
  convert_date_to_ts local oldest_date = inr oldest_ts ->
  convert_date_to_ts local newest_date = inr newest_ts ->
  get_channel_history conversations_history local
    fuel channel_id oldest_date newest_date on_progress w = (r, w') ->
  exists delta,
    history_calls w' = history_calls w ++ delta /\
    Forall (fun c => hp_channel (fst c) = channel_id /\ hp_limit (fst c) = 1000 /\
                     hp_oldest (fst c) = sent_bound oldest_ts /\
                     hp_latest (fst c) = sent_bound newest_ts) delta /\
    (oldest_date = None \/ oldest_date = Some EmptyString -> oldest_ts = None) /\
    (newest_date = None \/ newest_date = Some EmptyString -> newest_ts = None).
Proof.
  intros Ho Hn.
  rewrite (get_channel_history_unfold _ _ _ _ _ _ _ _ _ _ Ho Hn).
  unfold try_except.
  destruct (history_loop _ _ _ _ _ _ _ _ _) as [r1 w1] eqn:Hloop.
  apply history_loop_trace in Hloop as (answers & _ & Hc & _).
  intros Hrun.
  assert (Hw : history_calls w' = history_calls w1).
  { destruct r1 as [msgs | e0 |]; [by injection Hrun as <- <- | |by injection Hrun as <- <-].
    destruct e0; simpl in Hrun; try (by injection Hrun as <- <-).
    destruct (String.eqb error "missing_scope"); [by injection Hrun as <- <-|].
    destruct (String.eqb error "channel_not_found"); by injection Hrun as <- <-. }
  exists (exchange channel_id oldest_ts newest_ts None answers).
  rewrite Hw. split; [done|]. split; [apply exchange_bounds|].
  unfold convert_date_to_ts in Ho, Hn.
  split; intros [-> | ->]; simpl in *; congruence.
Qed.

Lemma mktime_fixed_offset (offset t : Z) :
  _mktime (fixed_offset offset) t = t - offset.
Proof.
  unfold _mktime, fixed_offset, max_fold_seconds.
  replace (t - (t + offset - t) + offset =? t) with true by (symmetry; lia).
  replace (t + offset - t =?
           t - (t + offset - t) - 24 * 3600 + offset - (t - (t + offset - t) - 24 * 3600))
    with true by (symmetry; lia).
  simpl. lia.
Qed.

Lemma mktime_reads_fixed_offset (offset t : Z) :
  _mktime_reads (fixed_offset offset) t = [t; t - offset; t - offset - 86400].
Proof.
  unfold _mktime_reads, fixed_offset, max_fold_seconds.
  replace (t - (t + offset - t) + offset =? t) with true by (symmetry; lia).
  replace (t + offset - t =?
           t - (t + offset - t) - 24 * 3600 + offset - (t - (t + offset - t) - 24 * 3600))
    with true by (symmetry; lia).
  repeat f_equal; lia.
Qed.

Lemma ymd2ord_range (y m d : Z) :
  _check_date_fields y m d = true ->
  _ymd2ord 1 1 1 <= _ymd2ord y m d <= _ymd2ord 9999 12 31 /\
  ((y, m, d) <> (1, 1, 1) -> _ymd2ord 1 1 1 < _ymd2ord y m d).
Proof.
  intros Hc. pose proof Hc as Hb.
  unfold _check_date_fields, MINYEAR, MAXYEAR in Hb.
  repeat (apply andb_true_iff in Hb as [Hb ?]).
  pose proof (days_in_month_le_31 y m) as H31.
  assert (Hfirst : (y, m, d) = (1, 1, 1) \/ earlier (1, 1, 1) (y, m, d)).
  { destruct (decide (y = 1)) as [->|]; [|right; left; lia].
    destruct (decide (m = 1)) as [->|]; [|right; right; split; [done|left; lia]].
    destruct (decide (d = 1)) as [->|]; [by left|].
    right; right; split; [done|]. right; split; [done|lia]. }
  assert (Hlast : (y, m, d) = (9999, 12, 31) \/ earlier (y, m, d) (9999, 12, 31)).
  { destruct (decide (y = 9999)) as [->|]; [|right; left; lia].
    destruct (decide (m = 12)) as [->|]; [|right; right; split; [done|left; lia]].
    destruct (decide (d = 31)) as [->|]; [by left|].
    right; right; split; [done|]. right; split; [done|lia]. }
  assert (Hlow : (y, m, d) <> (1, 1, 1) -> _ymd2ord 1 1 1 < _ymd2ord y m d).
  { intros Hne. destruct Hfirst as [|Hfirst]; [done|].
    by apply ymd2ord_mono. }
  split; [|done]. split.
  - destruct Hfirst as [[= -> -> ->]|Hfirst]; [lia|].
    apply Z.lt_le_incl. by apply ymd2ord_mono.
  - destruct Hlast as [[= -> -> ->]|Hlast]; [lia|].
    apply Z.lt_le_incl. by apply ymd2ord_mono.
Qed.

(** X12. On a host whose clock is always [offset] seconds ahead of UTC,
    with an offset of less than a day, the text YYYY-MM-DD of every date
    from 0001-01-02 to 9999-12-31 is converted to the instant of its local
    midnight: the seconds from the epoch to that midnight in UTC, less the
    offset; every reading of the clock that the conversion makes falls in
    the years 1 to 9999. So the timestamps of two such dates differ by
    86400 seconds for each day between them, and on a UTC host the date
    1970-01-01 has the timestamp zero. For the date 0001-01-01 the
    conversion reads the clock a day before the midnight, which is in no
    year of the calendar. *)
Theorem convert_date_to_ts_is_local_midnight (offset y m d : Z) :
  -86400 < offset < 86400 ->
  _check_date_fields y m d = true ->
  (y, m, d) <> (1, 1, 1) ->
  Forall (fun u => in_years (fixed_offset offset u))
         (_mktime_reads (fixed_offset offset) (utc_seconds y m d)) /\
  convert_date_to_ts (fixed_offset offset) (Some (iso_format (y, m, d)))
  = inr (Some ((_ymd2ord y m d - _ymd2ord 1970 1 1) * 86400 - offset)) /\
  (forall y' m' d',
      _check_date_fields y' m' d' = true ->
      (y', m', d') <> (1, 1, 1) ->
      exists t t',
        convert_date_to_ts (fixed_offset offset) (Some (iso_format (y, m, d)))
        = inr (Some t) /\
        convert_date_to_ts (fixed_offset offset) (Some (iso_format (y', m', d')))
        = inr (Some t') /\
        t' - t = (_ymd2ord y' m' d' - _ymd2ord y m d) * 86400) /\
  convert_date_to_ts (fixed_offset 0) (Some "1970-01-01") = inr (Some 0) /\
  Exists (fun u => ~ in_years (fixed_offset offset u))
         (_mktime_reads (fixed_offset offset) (utc_seconds 1 1 1)).
Proof.
  intros Hoff Hc Hne.
  assert (Hconv : forall y m d,
             _check_date_fields y m d = true ->
             convert_date_to_ts (fixed_offset offset) (Some (iso_format (y, m, d)))
             = inr (Some ((_ymd2ord y m d - _ymd2ord 1970 1 1) * 86400 - offset))).
  { intros y0 m0 d0 H0.
    rewrite (convert_date_to_ts_timestamp _ _ (y0, m0, d0))
      by (by apply strptime_iso_format).
    unfold timestamp, utc_seconds. by rewrite mktime_fixed_offset. }
  assert (Hfirst : _ymd2ord 1 1 1 = 1) by reflexivity.
  assert (Hlast : _ymd2ord 9999 12 31 = 3652059) by reflexivity.
  assert (Hnext : _ymd2ord (MAXYEAR + 1) 1 1 = 3652060) by reflexivity.
  split.
  { destruct (ymd2ord_range y m d Hc) as [[_ Hup] Hlow]. specialize (Hlow Hne).
    rewrite mktime_reads_fixed_offset.
    unfold in_years, fixed_offset, utc_seconds, MINYEAR.
    rewrite Hnext, Hfirst. rewrite Hfirst in Hlow. rewrite Hlast in Hup.
    repeat constructor; lia. }
  split; [by apply Hconv|].
  split.
  { intros y' m' d' Hc' _. eexists _, _.
    split; [by apply Hconv|]. split; [by apply Hconv|]. lia. }
  split; [reflexivity|].
  rewrite mktime_reads_fixed_offset.
  do 2 apply Exists_cons_tl. apply Exists_cons_hd.
  unfold in_years, fixed_offset, utc_seconds, MINYEAR. lia.
Qed.

End BoundFacts.

Section MentionEdgeFacts.
Import Utils MentionSpec.

Lemma fold_replace_unknown (user_map : gmap string string) (mentions : list (list ascii)) :
  forall text,
  Forall (fun user_id => user_map !! string_of_list_ascii user_id = None) mentions ->
  fold_left (replace_one user_map) mentions text = text.
Proof.
  induction mentions as [|u mentions IH]; intros text Hall; [done|].
  apply Forall_cons in Hall as [Hu Hall]. simpl.
  unfold replace_one at 2. rewrite Hu. by apply IH.
Qed.

(** X13. [replace_mentions_with_names] returns the text as it is when none
    of the identifiers mentioned in it is a key of the mapping: in
    particular for the empty mapping, and for a text without any mention
    whatever the mapping. *)
Theorem replace_mentions_keeps_text_without_known_mention
    (text : string) (user_map : gmap string string) :
  (Forall (fun user_id => user_map !! string_of_list_ascii user_id = None)
          (findall (list_ascii_of_string text)) ->
   replace_mentions_with_names text user_map = text) /\
  replace_mentions_with_names text ∅ = text /\
  (findall (list_ascii_of_string text) = [] ->
   replace_mentions_with_names text user_map = text).
Proof.
  assert (Hkeep : forall um : gmap string string,
             Forall (fun user_id => um !! string_of_list_ascii user_id = None)
                    (findall (list_ascii_of_string text)) ->
             replace_mentions_with_names text um = text).
  { intros um Hall. unfold replace_mentions_with_names.
    rewrite fold_replace_unknown by done.
    apply string_of_list_ascii_of_string. }
  split; [apply Hkeep|]. split.
  - apply Hkeep. apply Forall_forall. intros u _. apply lookup_empty.
  - intros Hnone. apply Hkeep. rewrite Hnone. constructor.
Qed.

End MentionEdgeFacts.

Section TraceScenarioFacts.
Import Client ClientSpec HistorySpec Downloader DownloadSpec Utils MentionSpec
       Datetime DateSpec Scenario TraceSpec BatchSpec BoundSpec Outage.

(** The 2437 messages are those of the pages received, the last of which
    ends the retrieval. *)
Lemma history_read_back_from_its_pages :
  exists init last,
    flat_map page_messages (init ++ [last]) = repeat sample_message 2437 /\
    (length init < 4)%nat /\ page_is_last last.
Proof.
  destruct (get_channel_history_returns_what_it_received paged utc
              4 "C42" None None true fresh (repeat sample_message 2437)
              (snd (get_channel_history paged utc 4 "C42" None None true fresh)))
    as (o & n & init & last & _ & _ & _ & _ & _ & _ & Hlast & Hm & Hlen).
  - vm_compute. reflexivity.
  - by exists init, last.
Defined.

(** The loss of the scope after one page is raised as [SlackApiException],
    not as the error of the SDK. *)
Lemma revoked_scope_is_wrapped :
  fst (get_channel_history revoked utc 2 "C42" None None true fresh)
  = Exc (SlackApiException
           "Token is missing required scope. Need channels:history or groups:history."
           "missing_scope") /\
  SlackApiException
    "Token is missing required scope. Need channels:history or groups:history."
    "missing_scope"
  <> SlackApiError "missing_scope".
Proof.
  destruct (get_channel_history_raises_only_these revoked utc
              2 "C42" None None true fresh
              (SlackApiException
                 "Token is missing required scope. Need channels:history or groups:history."
                 "missing_scope")
              (snd (get_channel_history revoked utc 2 "C42" None None true fresh)))
    as [Hne _].
  - reflexivity.
  - split; [reflexivity | apply Hne].
Defined.

(** The callback hears 1000, 2000 and 2437. *)
Lemma progress_of_2437_messages :
  progress_calls (snd (get_channel_history paged utc 4 "C42" None None true fresh))
  = [1000; 2000; 2437]%nat.
Proof.
  destruct (get_channel_history_reports_running_totals paged utc
              4 "C42" None None true fresh
              (fst (get_channel_history paged utc 4 "C42" None None true fresh))
              (snd (get_channel_history paged utc 4 "C42" None None true fresh)))
    as (delta & reports & _ & _ & _ & _ & _).
  - by destruct (get_channel_history _ _ _ _ _ _ _ _).
  - vm_compute. reflexivity.
Defined.

(** Of two entries for [U1], the later one gives the name. *)
Lemma renamed_user_takes_the_later_name :
  exists um,
    fst (get_users renamed 5 fresh) = Val um /\
    um !! "U1" = Some "Ada Lovelace".
Proof.
  destruct (get_users_returns_the_directory_received renamed 5 fresh
              {[ "U1" := "Ada Lovelace" ]}
              (snd (get_users renamed 5 fresh)))
    as (init & last & _).
  - vm_compute. reflexivity.
  - eexists. split; [vm_compute; reflexivity|]. reflexivity.
Defined.

(** A rate limit on the second page of the directory is raised as
    [SlackApiException] with the remote code; the entry of the first page
    is not returned. *)
Lemma throttled_directory_is_wrapped :
  fst (get_users throttled 5 fresh)
  = Exc (SlackApiException "Failed to fetch users: ratelimited" "ratelimited") /\
  forall error,
    SlackApiException "Failed to fetch users: ratelimited" "ratelimited"
    <> SlackApiError error.
Proof.
  destruct (get_users_raises_only_these throttled 5 fresh
              (SlackApiException "Failed to fetch users: ratelimited" "ratelimited")
              (snd (get_users throttled 5 fresh)))
    as [Hne _].
  - reflexivity.
  - split; [reflexivity | exact Hne].
Defined.

(** The three descriptors of the batch are asked once each, the second too
    although a login page answers. *)
Lemma batch_asks_three_urls :
  map fst (requests (fst (snd (download_files web "xoxb-token" "slack_files"
                                  batch true true (empty_disk, [])))))
  = ["https://files.example/a"; "https://files.example/b"; "https://files.example/c"].
Proof.
  rewrite (download_files_asks_each_well_formed_descriptor_once web "xoxb-token"
             "slack_files" batch true true empty_disk []
             ["slack_files/0000-report.pdf"; "slack_files/0002-cat.png"]
             (fst (snd (download_files web "xoxb-token" "slack_files"
                          batch true true (empty_disk, []))))
             (snd (snd (download_files web "xoxb-token" "slack_files"
                          batch true true (empty_disk, []))))).
  - reflexivity.
  - vm_compute. reflexivity.
Defined.

(** The two files saved are apart, and nothing else is on the disk. *)
Lemma batch_saves_two_files_apart :
  NoDup ["slack_files/0000-report.pdf"; "slack_files/0002-cat.png"] /\
  fs (fst (snd (download_files web "xoxb-token" "slack_files"
                  batch true true (empty_disk, [])))) !! "slack_files/0001-notes.txt"
  = None.
Proof.
  destruct (download_files_saves_each_file_apart web "xoxb-token"
             "slack_files" batch true true empty_disk []
             ["slack_files/0000-report.pdf"; "slack_files/0002-cat.png"]
             (fst (snd (download_files web "xoxb-token" "slack_files"
                          batch true true (empty_disk, []))))
             (snd (snd (download_files web "xoxb-token" "slack_files"
                          batch true true (empty_disk, [])))))
    as (Hnd & Hkeep & _).
  - vm_compute. reflexivity.
  - split; [exact Hnd|]. rewrite Hkeep; [reflexivity|].
    intros Hin. repeat (apply elem_of_cons in Hin as [Hin | Hin]; [discriminate|]).
    by apply elem_of_nil in Hin.
Defined.

(** The connection is lost at the second descriptor: the first file is on
    the disk, and the batch returns no path. *)
Lemma flaky_batch_stops_at_the_second_file :
  exists k,
    batch !! k = Some expired /\
    is_Some (fs (fst (snd (download_files flaky "xoxb-token" "slack_files"
                             batch true true (empty_disk, []))))
             !! "slack_files/0000-report.pdf").
Proof.
  destruct (download_files_stops_at_a_foreign_error flaky "xoxb-token"
             "slack_files" batch true true empty_disk []
             (RequestException "connection reset")
             (fst (snd (download_files flaky "xoxb-token" "slack_files"
                          batch true true (empty_disk, []))))
             (snd (snd (download_files flaky "xoxb-token" "slack_files"
                          batch true true (empty_disk, [])))))
    as (_ & k & fi & rs & dk & _).
  - vm_compute. reflexivity.
  - exists 1%nat. split; [reflexivity|]. vm_compute. by eexists.
Defined.

(** File number 42 is saved with the prefix [0042]. *)
Lemma prefix_of_file_42 :
  zfill 4 (str_of_int 42) = "0042" /\
  decimal_value (zfill 4 (str_of_int 42)) = Some 42.
Proof.
  destruct (number_prefix_reads_back 42 7 "a.txt" "b.txt")
    as (_ & Hv & _); [lia | lia |].
  split; [reflexivity | exact Hv].
Defined.

(** The tenth file sorts after the ninth, whatever their names. *)
Lemma ninth_and_tenth_file :
  String.ltb "slack_files/0009-zebra.txt" "slack_files/0010-apple.txt" = true.
Proof.
  destruct (numbered_paths_sort_in_batch_order "slack_files" 9 10
              "zebra.txt" "apple.txt") as [Hlt _]; [lia | lia |].
  exact Hlt.
Defined.

(** On a UTC host the bound 1970-01-01 is not sent. *)
Lemma epoch_bound_is_left_out :
  Forall (fun c => hp_oldest (fst c) = None)
         (history_calls
            (snd (get_channel_history paged utc 4 "C42" (Some "1970-01-01") None
                    false fresh))).
Proof.
  destruct (history_requests_carry_the_bounds paged utc
              4 "C42" (Some "1970-01-01") None (Some 0) None false fresh
              (fst (get_channel_history paged utc 4 "C42" (Some "1970-01-01") None
                      false fresh))
              (snd (get_channel_history paged utc 4 "C42" (Some "1970-01-01") None
                      false fresh)))
    as (delta & Hc & Hall & _).
  - reflexivity.
  - reflexivity.
  - by destruct (get_channel_history _ _ _ _ _ _ _ _).
  - rewrite Hc. simpl. eapply Forall_impl; [exact Hall|].
    intros c (_ & _ & Ho & _). exact Ho.
Defined.

(** One hour ahead of UTC, the leap day of 2024 begins at 1709161200; the
    conversion reads the clock at three instants of 2024. *)
Lemma leap_day_one_hour_ahead :
  convert_date_to_ts (fixed_offset 3600) (Some "2024-02-29") = inr (Some 1709161200) /\
  Forall (fun u => in_years (fixed_offset 3600 u))
         [1709164800; 1709161200; 1709074800].
Proof.
  destruct (convert_date_to_ts_is_local_midnight 3600 2024 2 29)
    as (Hreads & Hts & _).
  - lia.
  - reflexivity.
  - discriminate.
  - split; [exact Hts | exact Hreads].
Defined.

End TraceScenarioFacts.

Section ConfigFacts.
Import PyStr Config FileTypesSpec.

Lemma rstrip_trimmed (s : string) : rstrip (rstrip s) = rstrip s.
Proof.
  induction s as [|c s IH]; [done|]. simpl.
  destruct (rstrip s) as [|d r] eqn:Hr.
  - destruct (is_space c) eqn:Hc; [done|]. simpl. by rewrite Hc.
  - simpl in *. rewrite IH. done.
Qed.

Lemma rstrip_head (c : ascii) (s : string) :
  is_space c = false -> exists r, rstrip (String c s) = String c r.
Proof.
  intros Hc. simpl. destruct (rstrip s); rewrite ?Hc; by eexists.
Qed.

Lemma lstrip_head (s : string) :
  lstrip s = EmptyString \/ exists c r, lstrip s = String c r /\ is_space c = false.
Proof.
  induction s as [|c s IH]; [by left|]. simpl.
  destruct (is_space c) eqn:Hc; [done|]. right. by exists c, s.
Qed.

Lemma lstrip_fixed (c : ascii) (s : string) :
  is_space c = false -> lstrip (String c s) = String c s.
Proof. intros Hc. simpl. by rewrite Hc. Qed.

(** Stripping twice is stripping once. *)
Lemma strip_strip (s : string) : strip (strip s) = strip s.
Proof.
  unfold strip.
  destruct (lstrip_head s) as [-> | (c & r & -> & Hc)]; [done|].
  destruct (rstrip_head c r Hc) as [r' Hr]. rewrite Hr.
  rewrite lstrip_fixed by done. rewrite <- Hr. apply rstrip_trimmed.
Qed.

Lemma split_not_nil (sep : ascii) (s : string) : split sep s <> [].
Proof.
  induction s as [|c s IH]; [done|]. simpl.
  destruct (Ascii.eqb c sep); [done|]. by destruct (split sep s).
Qed.

(** The pieces of a split hold no separator. *)
Lemma split_free (sep : ascii) (s : string) :
  Forall (fun piece => free_of sep piece = true) (split sep s).
Proof.
  induction s as [|c s IH]; simpl; [by repeat constructor|].
  destruct (Ascii.eqb c sep) eqn:Hc; [by constructor|].
  destruct (split sep s) as [|piece pieces] eqn:Hsplit;
    [by apply split_not_nil in Hsplit|].
  apply Forall_cons in IH as [Hp Hps]. constructor; [|done].
  simpl. by rewrite Hc.
Qed.

Lemma free_of_lstrip (c : ascii) (s : string) :
  free_of c s = true -> free_of c (lstrip s) = true.
Proof.
  induction s as [|a s IH]; [done|]. simpl.
  intros [Ha Hs]%andb_true_iff.
  destruct (is_space a); [by apply IH|]. simpl. by rewrite Ha, Hs.
Qed.

Lemma free_of_rstrip (c : ascii) (s : string) :
  free_of c s = true -> free_of c (rstrip s) = true.
Proof.
  induction s as [|a s IH]; [done|]. simpl.
  intros [Ha Hs]%andb_true_iff. specialize (IH Hs).
  destruct (rstrip s) as [|d r].
  - destruct (is_space a); [done|]. simpl. by rewrite Ha.
  - simpl in *. by rewrite Ha, IH.
Qed.

Lemma free_of_strip (c : ascii) (s : string) :
  free_of c s = true -> free_of c (strip s) = true.
Proof. intros H. by apply free_of_rstrip, free_of_lstrip. Qed.

(** Splitting a text that holds no separator gives the text. *)
Lemma split_free_of (sep : ascii) (s : string) :
  free_of sep s = true -> split sep s = [s].
Proof.
  induction s as [|c s IH]; [done|]. simpl.
  intros [Hc Hs]%andb_true_iff. apply negb_true_iff in Hc. rewrite Hc.
  by rewrite IH.
Qed.

Lemma split_app (sep : ascii) (a b : string) :
  free_of sep a = true ->
  split sep (a +:+ String sep b) = a :: split sep b.
Proof.
  induction a as [|c a IH]; intros Ha.
  - simpl. by rewrite Ascii.eqb_refl.
  - rewrite str_app_cons. simpl in *.
    apply andb_true_iff in Ha as [Hc Ha]. apply negb_true_iff in Hc. rewrite Hc.
    by rewrite IH.
Qed.

Lemma trimmed_truthy (ft : string) :
  trimmed ft -> truthy_str (Some (strip ft)) = true /\ strip ft = ft.
Proof. intros [Hne Hs]. rewrite Hs. split; [|done]. by destruct ft. Qed.

Lemma join_comma_cons (ft : string) (types : list string) :
  types <> [] -> join_comma (ft :: types) = ft +:+ String "," (join_comma types).
Proof. destruct types; [done|]. reflexivity. Qed.

Lemma split_join (types : list string) :
  types <> [] ->
  Forall (fun ft => free_of "," ft = true) types ->
  split "," (join_comma types) = types.
Proof.
  induction types as [|ft types IH]; [done|]. intros _ Hall.
  apply Forall_cons in Hall as [Hft Hall].
  destruct types as [|ft' types].
  - simpl. by apply split_free_of.
  - rewrite join_comma_cons by done. rewrite split_app by done.
    by rewrite IH.
Qed.

Lemma parse_file_types_pieces (value : string) :
  _parse_file_types value =
    List.filter (fun ft => negb (String.eqb ft EmptyString))
                (map strip (split "," value)).
Proof.
  assert (Hshape : forall pieces : list string,
             map strip (List.filter (fun ft => truthy_str (Some (strip ft))) pieces)
             = List.filter (fun ft => negb (String.eqb ft EmptyString))
                           (map strip pieces)).
  { induction pieces as [|p pieces IH]; [done|].
    cbn [List.filter map].
    change (truthy_str (Some (strip p))) with (negb (String.eqb (strip p) EmptyString)).
    destruct (negb (String.eqb (strip p) EmptyString)); cbn [map]; by rewrite IH. }
  unfold _parse_file_types. destruct value as [|c value]; [done|].
  change (negb (truthy_str (Some (String c value)))) with false. cbv iota.
  apply Hshape.
Qed.

Lemma parse_file_types_trimmed (value : string) :
  Forall (fun ft => trimmed ft /\ free_of "," ft = true) (_parse_file_types value).
Proof.
  rewrite parse_file_types_pieces. apply List.Forall_forall. intros ft Hin.
  apply filter_In in Hin as [Hin Hne].
  apply in_map_iff in Hin as (piece & <- & Hin).
  split; [split|].
  - intros Heq. by rewrite Heq in Hne.
  - apply strip_strip.
  - apply free_of_strip.
    pose proof (split_free "," value) as Hfree.
    rewrite List.Forall_forall in Hfree. by apply Hfree.
Qed.

(** X14. [_parse_file_types] gives the pieces of the value between its
    commas, in order, each with the white space at its ends removed and
    the pieces that are empty or blank left out: every file type of the
    result is not empty, has no white space at either end and holds no
    comma. Conversely, a list of such file types joined with commas is
    parsed back to itself. *)
Theorem parse_file_types_gives_trimmed_types (value : string) :
  _parse_file_types value =
    List.filter (fun ft => negb (String.eqb ft EmptyString))
                (map strip (split "," value)) /\
  Forall (fun ft => trimmed ft /\ free_of "," ft = true) (_parse_file_types value) /\
  (forall types,
      Forall (fun ft => trimmed ft /\ free_of "," ft = true) types ->
      _parse_file_types (join_comma types) = types).
Proof.
  split; [apply parse_file_types_pieces|]. split; [apply parse_file_types_trimmed|].
  intros types Hall.
  destruct types as [|ft0 types0]; [done|].
  set (types := ft0 :: types0) in *.
  assert (Hjoin : truthy_str (Some (join_comma types)) = true).
  { apply Forall_cons in Hall as [[[Hne _] _] _].
    unfold types. destruct types0; simpl; destruct ft0; done. }
  unfold _parse_file_types. rewrite Hjoin. simpl negb. cbv iota.
  rewrite split_join; [|done|].
  - clear Hjoin. induction Hall as [|ft l [Hft _] Hall IH]; [done|].
    destruct (trimmed_truthy ft Hft) as [Ht Hs]. cbn [List.filter].
    rewrite Ht. cbn [map]. by rewrite Hs, IH.
  - eapply Forall_impl; [exact Hall|]. by intros ft [_ ?].
Qed.

Lemma getenv_or_none_set (env : gmap string string) (key : string) :
  getenv_or_none env key <> Some EmptyString /\
  (getenv_or_none env key = None <->
   env !! key = None \/ env !! key = Some EmptyString).
Proof.
  unfold getenv_or_none.
  destruct (env !! key) as [[|c v]|]; simpl; split; try done; try tauto.
  split; [done|]. by intros [? | ?].
Qed.

(** X15. Whatever the environment holds, [Config.from_env] either fails
    or gives a configuration that is complete. It raises [ValueError]
    naming [SLACK_BOT_TOKEN] when the token is unset or empty, and
    otherwise naming [CHANNEL_ID] when the channel is unset or empty; in
    both cases no directory is created. Otherwise it returns a
    configuration whose token and channel are those of the environment and
    not empty, whose date bounds are absent or not empty, whose file types
    are trimmed and not empty, and whose download flag is set exactly when
    [DOWNLOAD_FILES] is unset or spells [true] in any letter case; both
    directories then exist. *)
Theorem from_env_gives_a_complete_configuration
    (env : gmap string string) (directories : gset string) r directories' :
  from_env env directories = (r, directories') ->
  match r with
  | Val config =>
      env !! "SLACK_BOT_TOKEN" = Some (slack_bot_token config) /\
      slack_bot_token config <> EmptyString /\
      env !! "CHANNEL_ID" = Some (channel_id config) /\
      channel_id config <> EmptyString /\
      oldest_date config <> Some EmptyString /\
      newest_date config <> Some EmptyString /\
      Forall trimmed (file_types config) /\
      (download_files config = true <->
       Downloader.lower (default "true" (env !! "DOWNLOAD_FILES")) = "true") /\
      directories' = {[ messages_dir config ]} ∪ ({[ download_dir config ]} ∪ directories)
  | Exc e =>
      directories' = directories /\
      ((e = ValueError "SLACK_BOT_TOKEN is required" /\
        (env !! "SLACK_BOT_TOKEN" = None \/ env !! "SLACK_BOT_TOKEN" = Some EmptyString)) \/
       (e = ValueError "CHANNEL_ID is required" /\
        (exists token, env !! "SLACK_BOT_TOKEN" = Some token /\ token <> EmptyString) /\
        (env !! "CHANNEL_ID" = None \/ env !! "CHANNEL_ID" = Some EmptyString)))
  | OutOfFuel => False
  end.
Proof.
  unfold from_env, __post_init__, getenv. cbn [slack_bot_token channel_id].
  destruct (env !! "SLACK_BOT_TOKEN") as [[|c token]|] eqn:Htoken; cbn [default];
    try (intros [= <- <-]; split; [done|]; left; split; [done|]; auto).
  change (negb (truthy_str (Some (String c token)))) with false. cbv iota.
  destruct (env !! "CHANNEL_ID") as [[|c' channel]|] eqn:Hchannel; cbn [default];
    try (intros [= <- <-]; split; [done|]; right; split; [done|];
         split; [by eexists | auto]).
  change (negb (truthy_str (Some (String c' channel)))) with false. cbv iota.
  unfold bind, mkdir, modify, ret. intros [= <- <-].
  cbn [slack_bot_token channel_id oldest_date newest_date file_types download_files
       messages_dir download_dir].
  repeat (split; [done|]).
  split; [apply getenv_or_none_set|]. split; [apply getenv_or_none_set|].
  split.
  { eapply Forall_impl; [apply parse_file_types_trimmed|]. by intros ft [? _]. }
  split; [apply String.eqb_eq | done].
Qed.

(** X16. The filter that the driver makes of [FILE_TYPES]: when the value
    has no piece between commas that is not blank (an unset or empty
    value, or commas and white space only), every attachment of the
    messages is selected, in message order; otherwise an attachment is
    selected exactly when its type tag equals one of the pieces with the
    white space at its ends removed, letter case included. *)
Theorem file_types_select_attachments (value : string) (messages : list Message) :
  let file_types := _parse_file_types value in
  let selected :=
    Extract.extract_files_from_messages messages
      (if truthy_list (Some file_types) then Some file_types else None) in
  (file_types = [] -> selected = Extract.attachments_in_order messages) /\
  (file_types <> [] ->
   selected = List.filter (Extract.filetype_in file_types)
                          (Extract.attachments_in_order messages) /\
   forall f,
     f ∈ selected <->
     f ∈ Extract.attachments_in_order messages /\
     exists piece,
       piece ∈ split "," value /\ strip piece <> EmptyString /\
       filetype f = Some (strip piece)).
Proof.
  intros file_types selected. subst selected.
  unfold Extract.extract_files_from_messages. rewrite collect_files_acc.
  cbn [app]. split.
  - intros ->. reflexivity.
  - intros Hne. destruct file_types as [|t ts] eqn:Htypes; [done|].
    cbn [truthy_list default]. split; [reflexivity|].
    intros f. rewrite list_elem_of_In, filter_In, <- list_elem_of_In, filetype_in_iff.
    apply and_iff_compat_l. rewrite <- Htypes. unfold file_types.
    rewrite parse_file_types_pieces. split.
    + intros (tag & Htag & Hin).
      apply list_elem_of_In, filter_In in Hin as [Hin Hnonempty].
      apply in_map_iff in Hin as (piece & <- & Hin).
      exists piece. split; [by apply list_elem_of_In|]. split; [|done].
      intros Heq. by rewrite Heq in Hnonempty.
    + intros (piece & Hin & Hnonempty & Htag).
      exists (strip piece). split; [done|].
      apply list_elem_of_In, filter_In. split.
      * apply in_map. by apply list_elem_of_In.
      * by destruct (strip piece).
Qed.

End ConfigFacts.

Section ExportFacts.
Import Exporters Timestamps RunSpec.

Variable to_excel : list Row -> string.
Variable local_time_text : string -> exn + string.

Lemma truthy_map_false (d : gmap string string) : truthy_map d = false -> d = ∅.
Proof. unfold truthy_map. by intros ?%negb_false_iff%bool_decide_eq_true. Qed.

(** The guard [if user_map:] makes no difference to a row. *)
Lemma excel_row_shows (user_map : gmap string string) (msg : Message) (row : Row) :
  excel_row local_time_text user_map msg = inr row <->
  shows local_time_text user_map msg row.
Proof.
  unfold excel_row, shows, author, format_timestamp.
  assert (Htext : (if truthy_map user_map
                   then Utils.replace_mentions_with_names (default EmptyString (m_text msg))
                          user_map
                   else default EmptyString (m_text msg))
                  = Utils.replace_mentions_with_names (default EmptyString (m_text msg))
                      user_map).
  { destruct (truthy_map user_map) eqn:Ht; [done|].
    apply truthy_map_false in Ht as ->.
    unfold Utils.replace_mentions_with_names.
    rewrite fold_replace_unknown; [by rewrite string_of_list_ascii_of_string|].
    apply Forall_forall. intros u _. apply lookup_empty. }
  rewrite Htext. clear Htext.
  assert (Hname : (if truthy_str (m_user msg)
                   then default (default EmptyString (m_user msg))
                          (user_map !! default EmptyString (m_user msg))
                   else "SYSTEM")
                  = match m_user msg with
                    | Some user_id =>
                        if String.eqb user_id EmptyString then "SYSTEM"
                        else default user_id (user_map !! user_id)
                    | None => "SYSTEM"
                    end).
  { destruct (m_user msg) as [[|c u]|]; reflexivity. }
  rewrite Hname. clear Hname.
  destruct row as [n t d]. simpl.
  destruct (m_ts msg) as [[|c ts]|]; simpl.
  - split; [by intros [= <- <- <-] | by intros (-> & -> & ->)].
  - destruct (local_time_text (String c ts)) as [e | d0].
    + split; [done | by intros (_ & _ & ?)].
    + split; [by intros [= <- <- <-] | by intros (-> & -> & [= ->])].
  - split; [by intros [= <- <- <-] | by intros (-> & -> & ->)].
Qed.

Lemma excel_rows_shown (user_map : gmap string string) (messages : list Message) :
  forall rows excel_data,
  Forall2 (shows local_time_text user_map) messages rows ->
  excel_rows local_time_text user_map messages excel_data = inr (excel_data ++ rows).
Proof.
  induction messages as [|msg messages IH]; intros rows excel_data Hall.
  - apply Forall2_nil_inv_l in Hall as ->. simpl. by rewrite app_nil_r.
  - apply Forall2_cons_inv_l in Hall as (row & rows' & Hrow & Hall & ->).
    simpl. apply excel_row_shows in Hrow as ->.
    rewrite (IH _ _ Hall). by rewrite <- app_assoc.
Qed.

Lemma excel_rows_fail (user_map : gmap string string) (before : list Message) :
  forall rows msg e after excel_data,
  Forall2 (shows local_time_text user_map) before rows ->
  excel_row local_time_text user_map msg = inl e ->
  excel_rows local_time_text user_map (before ++ msg :: after) excel_data = inl e.
Proof.
  induction before as [|m before IH]; intros rows msg e after excel_data Hall Hfail.
  - simpl. by rewrite Hfail.
  - apply Forall2_cons_inv_l in Hall as (row & rows' & Hrow & Hall & ->).
    simpl. apply excel_row_shows in Hrow as ->. by eapply IH.
Qed.

(** X17. [save_to_excel] writes one row per message, in the order of the
    messages: the author ([SYSTEM] for a message without user, else the
    name of the user when the mapping has one, else the identifier), the
    text with the mentions of known users named (the same with no
    mapping, an empty mapping, or a mapping without the users mentioned),
    and the local time of the timestamp, empty when the message has none.
    When the timestamp of some message cannot be read, the exception of
    the first such message is raised and no file is written, although the
    directory was created. *)
Theorem save_to_excel_shows_each_message
    (messages : list Message) (filepath : string)
    (user_map : option (gmap string string)) (store : Store) :
  (forall rows,
      Forall2 (shows local_time_text (default ∅ user_map)) messages rows ->
      save_to_excel to_excel local_time_text messages filepath user_map store
      = (Val (Pathlib.Path filepath),
         {| files := <[Pathlib.Path filepath := to_excel rows]> (files store);
            directories :=
              {[ Pathlib.parent (Pathlib.Path filepath) ]} ∪ directories store |})) /\
  (forall before rows msg ts e after,
      messages = before ++ msg :: after ->
      Forall2 (shows local_time_text (default ∅ user_map)) before rows ->
      m_ts msg = Some ts -> ts <> EmptyString -> local_time_text ts = inl e ->
      save_to_excel to_excel local_time_text messages filepath user_map store
      = (Exc e,
         {| files := files store;
            directories :=
              {[ Pathlib.parent (Pathlib.Path filepath) ]} ∪ directories store |})).
Proof.
  assert (Hmap : match user_map with
                 | Some d => if truthy_map d then d else ∅
                 | None => ∅
                 end = default ∅ user_map).
  { destruct user_map as [d|]; [|done]. simpl.
    destruct (truthy_map d) eqn:Ht; [done|]. by apply truthy_map_false in Ht. }
  unfold save_to_excel. rewrite Hmap.
  unfold bind at 1, mkdir, modify. split.
  - intros rows Hall. unfold bind at 1, lift.
    rewrite (excel_rows_shown _ _ rows []) by done. reflexivity.
  - intros before rows msg ts e after -> Hall Hts Hne Hfail.
    unfold bind at 1, lift.
    rewrite (excel_rows_fail _ before rows msg e); [done | done |].
    unfold excel_row, format_timestamp. rewrite Hts. simpl.
    destruct ts; [done|]. simpl. by rewrite Hfail.
Qed.

End ExportFacts.

Section InfoFacts.
Import Client ClientInfo HistorySpec.

Context {Srv : Type}.
Variable auth_test : Srv -> (exn + AuthInfo) * Srv.
Variable conversations_info : string -> Srv -> (exn + ChannelInfo) * Srv.

Lemma call_frame {A} (endpoint : Srv -> (exn + A) * Srv) w r w' :
  call endpoint w = (r, w') ->
  srv w' = snd (endpoint (srv w)) /\
  history_calls w' = history_calls w /\ users_calls w' = users_calls w /\
  progress_calls w' = progress_calls w /\
  r = match fst (endpoint (srv w)) with inl e => Exc e | inr a => Val a end.
Proof.
  unfold call. destruct (endpoint (srv w)) as [[e | a] s]; by intros [= <- <-].
Qed.

Lemma validate_token_cases w r w' :
  validate_token auth_test w = (r, w') ->
  history_calls w' = history_calls w /\ users_calls w' = users_calls w /\
  progress_calls w' = progress_calls w /\
  srv w' = snd (auth_test (srv w)) /\
  r = match fst (auth_test (srv w)) with
      | inr info => Val info
      | inl (SlackApiError error) =>
          Exc (SlackApiException ("Token validation failed: " +:+ error) error)
      | inl e => Exc e
      end.
Proof.
  unfold validate_token, try_except, bind.
  destruct (call auth_test w) as [r0 w0] eqn:Hcall.
  apply call_frame in Hcall as (Hs & Hh & Hu & Hp & ->).
  destruct (fst (auth_test (srv w))) as [e | info].
  - destruct e; intros [= <- <-]; done.
  - intros [= <- <-]. by destruct info.
Qed.

(** X18. The two methods that send one request, [validate_token] and
    [get_channel_info], return what the platform answered (the four
    identity fields, the name and the privacy flag of the channel) and
    never let the SDK's [SlackApiError] through: it is raised as
    [SlackApiException] with the remote code, with the message [Token
    validation failed: <code>] for the first, and for the second the
    message of the class of the code: missing scope, channel not found
    (the very message that [get_channel_history] gives), or [Channel
    access failed: <code>]. Any other exception propagates unchanged, and
    neither method asks for the history or the directory. *)
Theorem info_methods_wrap_remote_errors (channel_id : string) w :
  (let '(r, w') := validate_token auth_test w in
   history_calls w' = history_calls w /\ users_calls w' = users_calls w /\
   r = match fst (auth_test (srv w)) with
       | inr info => Val info
       | inl (SlackApiError error) =>
           Exc (SlackApiException ("Token validation failed: " +:+ error) error)
       | inl e => Exc e
       end) /\
  (let '(r, w') := get_channel_info conversations_info channel_id w in
   history_calls w' = history_calls w /\ users_calls w' = users_calls w /\
   r = match fst (conversations_info channel_id (srv w)) with
       | inr info => Val info
       | inl (SlackApiError error) =>
           Exc (SlackApiException
                  (if String.eqb error "missing_scope"
                   then "Token is missing required scope. Need channels:read or groups:read."
                   else if String.eqb error "channel_not_found"
                   then history_error_message channel_id error
                   else "Channel access failed: " +:+ error)
                  error)
       | inl e => Exc e
       end) /\
  (forall error,
      fst (validate_token auth_test w) <> Exc (SlackApiError error) /\
      fst (get_channel_info conversations_info channel_id w) <> Exc (SlackApiError error)).
Proof.
  assert (Hinfo : forall r w',
             get_channel_info conversations_info channel_id w = (r, w') ->
             history_calls w' = history_calls w /\ users_calls w' = users_calls w /\
             r = match fst (conversations_info channel_id (srv w)) with
                 | inr info => Val info
                 | inl (SlackApiError error) =>
                     Exc (SlackApiException
                            (if String.eqb error "missing_scope"
                             then "Token is missing required scope. Need channels:read or groups:read."
                             else if String.eqb error "channel_not_found"
                             then history_error_message channel_id error
                             else "Channel access failed: " +:+ error)
                            error)
                 | inl e => Exc e
                 end).
  { intros r w'. unfold get_channel_info, try_except, bind.
    destruct (call (conversations_info channel_id) w) as [r0 w0] eqn:Hcall.
    apply call_frame in Hcall as (Hs & Hh & Hu & Hp & ->).
    destruct (fst (conversations_info channel_id (srv w))) as [e | info].
    - destruct e; try (intros [= <- <-]; done).
      unfold history_error_message, classify.
      destruct (String.eqb error "missing_scope") eqn:H1; [by intros [= <- <-]|].
      destruct (String.eqb error "channel_not_found") eqn:H2; by intros [= <- <-].
    - intros [= <- <-]. by destruct info. }
  split; [|split].
  - destruct (validate_token auth_test w) as [r w'] eqn:Hrun.
    apply validate_token_cases in Hrun as (Hh & Hu & _ & _ & Hr). done.
  - destruct (get_channel_info conversations_info channel_id w) as [r w'] eqn:Hrun.
    exact (Hinfo r w' eq_refl).
  - intros error. split.
    + destruct (validate_token auth_test w) as [r w'] eqn:Hrun.
      apply validate_token_cases in Hrun as (_ & _ & _ & _ & ->). simpl.
      destruct (fst (auth_test (srv w))) as [[] |]; done.
    + destruct (get_channel_info conversations_info channel_id w) as [r w'] eqn:Hrun.
      destruct (Hinfo r w' eq_refl) as (_ & _ & ->). simpl.
      destruct (fst (conversations_info channel_id (srv w))) as [[] |]; done.
Qed.

End InfoFacts.

Section DriverFacts.
Import Client ClientInfo Downloader Exporters Main RunSpec.

Context {Srv Net : Type}.
Variable auth_test : string -> Srv -> (exn + AuthInfo) * Srv.
Variable conversations_history :
  string -> HistoryParams -> Srv -> (exn + HistoryResult) * Srv.
Variable users_list : string -> option string -> Srv -> (exn + UsersResult) * Srv.
Variable requests_get :
  string -> list (string * string) -> Net -> (exn + HttpResponse) * Net.
Variable local : Z -> Z.
Variable local_time_text : string -> exn + string.
Variable json_dump : list Message -> string.
Variable to_excel : list Row -> string.
Variable env : gmap string string.
Variable now : string.
Variable fuel : nat.

Abbreviation download_channel_content :=
  (download_channel_content auth_test conversations_history users_list requests_get
     local local_time_text json_dump to_excel env now fuel).
Abbreviation fetch_and_save :=
  (fetch_and_save auth_test conversations_history users_list requests_get
     local local_time_text json_dump to_excel now fuel).
Abbreviation save_and_download :=
  (save_and_download users_list requests_get local_time_text json_dump to_excel now fuel).

Lemma bind_print {A} (line : string) (k : unit -> M (Host Srv Net) A) h :
  bind (print line) k h =
  k tt {| platform := platform h; disk := disk h; folders := folders h;
          stdout := stdout h ++ [line] |}.
Proof. reflexivity. Qed.

Lemma bind_when_print {A} (b : bool) (line : string) (k : unit -> M (Host Srv Net) A) h :
  bind (when b (print line)) k h =
  k tt {| platform := platform h; disk := disk h; folders := folders h;
          stdout := stdout h ++ (if b then [line] else []) |}.
Proof.
  destruct b; [reflexivity|]. unfold bind, when, ret. rewrite app_nil_r. by destruct h.
Qed.

Lemma from_env_raises (directories : gset string) e directories' :
  Config.from_env env directories = (Exc e, directories') ->
  exists message, e = ValueError message /\ directories' = directories.
Proof.
  unfold Config.from_env, Config.__post_init__.
  destruct (negb _); [intros [= <- <-]; by eexists|].
  destruct (negb _); [intros [= <- <-]; by eexists|].
  done.
Qed.

Lemma from_env_ends (directories : gset string) directories' :
  Config.from_env env directories <> (OutOfFuel, directories').
Proof.
  unfold Config.from_env, Config.__post_init__.
  destruct (negb _); [done|]. destruct (negb _); done.
Qed.

(** With a configuration, the run is the rest of the function. *)
Lemma driver_with_configuration (h : Host Srv Net) config d :
  Config.from_env env (folders h) = (Val config, d) ->
  download_channel_content h =
  fetch_and_save config
    {| platform := platform h; disk := disk h; folders := d; stdout := stdout h |}.
Proof.
  intros Hc. unfold Main.download_channel_content, try_except, bind at 1, bind at 1,
    with_folders.
  by rewrite Hc.
Qed.

Lemma drop_all {A} (l : list A) : drop (length l) l = [].
Proof. by apply drop_ge. Qed.

(** The run up to the answer to the validation of the token. *)
Lemma fetch_and_save_validation config (h : Host Srv Net) r w :
  validate_token (auth_test (Config.slack_bot_token config)) (platform h) = (r, w) ->
  let asked :=
    {| platform := w; disk := disk h; folders := folders h;
       stdout := stdout h ++ banner config |} in
  fetch_and_save config h =
  match r with
  | Val info =>
      (exec print ("Authenticated as: " +:+ ai_user info +:+
                   " in workspace: " +:+ ai_team info);
       exec print ("Fetching messages from channel " +:+ Config.channel_id config +:+
                   "...");
       do fetched <-
         try_except
           (do messages <-
              with_platform
                (get_channel_history
                   (conversations_history (Config.slack_bot_token config)) local fuel
                   (Config.channel_id config)
                   (Config.oldest_date config) (Config.newest_date config) true);
            ret (Some messages))
           (fun e =>
              match e with
              | SlackApiException _ _ =>
                  Some (exec print ("Failed to fetch messages: " +:+ str_of_exn e);
                        ret None)
              | _ => None
              end);
       match fetched with
       | None => ret tt
       | Some messages =>
           if negb (truthy_list (Some messages))
           then print (nl +:+ "No messages found in the channel.")
           else save_and_download config messages
       end)%py asked
  | Exc (SlackApiException message code) =>
      (Val tt,
       {| platform := w; disk := disk h; folders := folders h;
          stdout := stdout h ++ banner config ++
                    ["Token validation failed: " +:+ message] |})
  | Exc e => (Exc e, asked)
  | OutOfFuel => (OutOfFuel, asked)
  end.
Proof.
  intros Hv asked.
  pose proof (validate_token_cases _ _ _ _ Hv) as (_ & _ & Hp & _ & _).
  unfold Main.fetch_and_save.
  rewrite !bind_print. rewrite bind_when_print. rewrite !bind_print.
  cbn [platform disk folders stdout].
  match goal with
  | |- _ {| platform := _; disk := _; folders := _; stdout := ?out |} = _ =>
      replace out with (stdout h ++ banner config)
        by (unfold banner; rewrite <- !app_assoc; reflexivity)
  end.
  unfold bind at 1, try_except at 1, bind at 1, with_platform at 1.
  cbn [platform disk folders stdout].
  rewrite Hv, Hp, drop_all. cbn [map]. rewrite app_nil_r.
  destruct r as [info | e |]; cbv beta iota; [| |reflexivity].
  - unfold bind at 1, print at 1, modify at 1, ret at 1.
    cbn [platform disk folders stdout negb].
    unfold asked. rewrite !bind_print. cbn [platform disk folders stdout].
    reflexivity.
  - destruct e; try reflexivity.
    unfold bind at 1, print at 1, modify at 1, ret.
    cbn [platform disk folders stdout str_of_exn negb].
    by rewrite <- app_assoc.
Qed.

(** The run up to the answer to the request for the history. *)
Lemma fetch_and_save_history config (h : Host Srv Net) info w1 r w2 :
  validate_token (auth_test (Config.slack_bot_token config)) (platform h)
    = (Val info, w1) ->
  get_channel_history (conversations_history (Config.slack_bot_token config)) local fuel
    (Config.channel_id config) (Config.oldest_date config) (Config.newest_date config)
    true w1 = (r, w2) ->
  let fetched :=
    {| platform := w2; disk := disk h; folders := folders h;
       stdout :=
         stdout h ++ banner config ++
         ["Authenticated as: " +:+ ai_user info +:+ " in workspace: " +:+ ai_team info;
          "Fetching messages from channel " +:+ Config.channel_id config +:+ "..."] ++
         map on_progress (drop (length (progress_calls w1)) (progress_calls w2)) |} in
  fetch_and_save config h =
  match r with
  | Val [] =>
      (Val tt,
       {| platform := w2; disk := disk h; folders := folders h;
          stdout := stdout fetched ++ [nl +:+ "No messages found in the channel."] |})
  | Val messages => save_and_download config messages fetched
  | Exc (SlackApiException message code) =>
      (Val tt,
       {| platform := w2; disk := disk h; folders := folders h;
          stdout := stdout fetched ++ ["Failed to fetch messages: " +:+ message] |})
  | Exc e => (Exc e, fetched)
  | OutOfFuel => (OutOfFuel, fetched)
  end.
Proof.
  intros Hv Hh fetched.
  rewrite (fetch_and_save_validation _ _ _ _ Hv). cbv zeta.
  rewrite !bind_print. cbn [platform disk folders stdout].
  unfold bind at 1, try_except at 1, bind at 1, with_platform at 1.
  cbn [platform disk folders stdout]. rewrite Hh.
  match goal with
  | |- context [ {| platform := w2; disk := disk h; folders := folders h;
                    stdout := ?out |} ] =>
      replace out with (stdout fetched)
        by (unfold fetched; cbn [stdout]; rewrite <- !app_assoc; reflexivity)
  end.
  destruct r as [messages | e |]; cbv beta iota; [| |reflexivity].
  - unfold ret at 1. destruct messages as [|m messages].
    + reflexivity.
    + cbn [truthy_list negb]. reflexivity.
  - destruct e; reflexivity.
Qed.

Lemma driver_without_configuration (h : Host Srv Net) e d :
  Config.from_env env (folders h) = (Exc e, d) ->
  download_channel_content h =
  (Val tt,
   {| platform := platform h; disk := disk h; folders := folders h;
      stdout := stdout h ++ ["Configuration error: " +:+ str_of_exn e] |}).
Proof.
  intros Hc. destruct (from_env_raises _ _ _ Hc) as (message & -> & ->).
  unfold Main.download_channel_content, try_except, bind at 1, bind at 1, with_folders.
  rewrite Hc. reflexivity.
Qed.

Lemma get_channel_history_frame channel_id oldest_date newest_date on_progress
    (transport : HistoryParams -> Srv -> (exn + HistoryResult) * Srv) w r w' :
  get_channel_history transport local fuel channel_id oldest_date newest_date
    on_progress w = (r, w') ->
  users_calls w' = users_calls w.
Proof.
  unfold get_channel_history, try_except, bind, lift, raise, ret.
  destruct (Utils.convert_date_to_ts local oldest_date) as [e1 | o] eqn:Ho.
  { apply convert_date_to_ts_raises in Ho as [m ->]. simpl. by intros [= <- <-]. }
  destruct (Utils.convert_date_to_ts local newest_date) as [e1 | n] eqn:Hn.
  { apply convert_date_to_ts_raises in Hn as [m ->]. simpl. by intros [= <- <-]. }
  destruct (history_loop _ _ _ _ _ _ _ _ _) as [r1 w1] eqn:Hloop.
  apply history_loop_trace in Hloop as (answers & _ & _ & Hu & _).
  destruct r1 as [msgs | e0 |]; [by intros [= <- <-] | |by intros [= <- <-]].
  destruct e0; simpl; try (by intros [= <- <-]).
  destruct (String.eqb error "missing_scope"); [by intros [= <- <-]|].
  destruct (String.eqb error "channel_not_found"); by intros [= <- <-].
Qed.

(** A run either ends early, leaving the files, the network and the
    directory as they were, or reaches the part that saves and downloads
    with at least one message. *)
Lemma driver_stages (h : Host Srv Net) r h' :
  download_channel_content h = (r, h') ->
  (disk h' = disk h /\ users_calls (platform h') = users_calls (platform h)) \/
  exists config d info w1 messages w2 fetched,
    Config.from_env env (folders h) = (Val config, d) /\
    validate_token (auth_test (Config.slack_bot_token config)) (platform h)
      = (Val info, w1) /\
    get_channel_history (conversations_history (Config.slack_bot_token config)) local
      fuel (Config.channel_id config) (Config.oldest_date config)
      (Config.newest_date config) true w1 = (Val messages, w2) /\
    messages <> [] /\
    disk fetched = disk h /\ platform fetched = w2 /\
    users_calls w2 = users_calls (platform h) /\
    save_and_download config messages fetched = (r, h').
Proof.
  intros Hrun.
  assert (Hsame : forall w (out : list string) (d : gset string) (r0 : res unit),
             users_calls w = users_calls (platform h) ->
             (r0, {| platform := w; disk := disk h; folders := d; stdout := out |})
             = (r, h') ->
             disk h' = disk h /\ users_calls (platform h') = users_calls (platform h)).
  { by intros w out d r0 Hu [= <- <-]. }
  destruct (Config.from_env env (folders h)) as [[config | e |] d] eqn:Hc.
  - rewrite (driver_with_configuration _ _ _ Hc) in Hrun.
    destruct (validate_token (auth_test (Config.slack_bot_token config)) (platform h))
      as [rv w1] eqn:Hv.
    pose proof (validate_token_cases _ _ _ _ Hv) as (_ & Hu1 & _).
    destruct rv as [info | e |].
    + destruct (get_channel_history
                  (conversations_history (Config.slack_bot_token config)) local fuel
                  (Config.channel_id config) (Config.oldest_date config)
                  (Config.newest_date config) true w1) as [rh w2] eqn:Hh.
      pose proof (get_channel_history_frame _ _ _ _ _ _ _ _ Hh) as Hu2.
      rewrite (fetch_and_save_history config _ info w1 rh w2) in Hrun by done.
      cbv zeta in Hrun. cbn [platform disk folders stdout] in Hrun.
      destruct rh as [[|m messages] | e |].
      * left. eapply Hsame; [|exact Hrun]. congruence.
      * right. eexists config, d, info, w1, (m :: messages), w2, _.
        split; [done|]. split; [done|]. split; [done|]. split; [done|].
        split; [|split; [|split; [|exact Hrun]]]; [reflexivity | reflexivity | congruence].
      * left. destruct e; (eapply Hsame; [|exact Hrun]); congruence.
      * left. eapply Hsame; [|exact Hrun]. congruence.
    + rewrite (fetch_and_save_validation config _ _ w1) in Hrun by done.
      cbv zeta in Hrun. cbn [platform disk folders stdout] in Hrun.
      left. destruct e; (eapply Hsame; [|exact Hrun]); congruence.
    + rewrite (fetch_and_save_validation config _ _ w1) in Hrun by done.
      cbv zeta in Hrun. cbn [platform disk folders stdout] in Hrun.
      left. eapply Hsame; [|exact Hrun]. congruence.
  - rewrite (driver_without_configuration _ _ _ Hc) in Hrun.
    left. by eapply Hsame; [|exact Hrun].
  - by apply from_env_ends in Hc.
Qed.

(** X19. [download_channel_content] writes a file, asks the network or
    asks the user directory only after all of this: the configuration was
    loaded, the token was validated, and the history of the channel was
    returned with at least one message. A configuration error, a refused
    token, a failed or empty history end the run before any of it. *)
Theorem driver_acts_only_on_messages (h : Host Srv Net) r h' :
  download_channel_content h = (r, h') ->
  fs (disk h') <> fs (disk h) \/ requests (disk h') <> requests (disk h) \/
  users_calls (platform h') <> users_calls (platform h) ->
  exists config d info w1 messages w2,
    Config.from_env env (folders h) = (Val config, d) /\
    validate_token (auth_test (Config.slack_bot_token config)) (platform h)
      = (Val info, w1) /\
    get_channel_history (conversations_history (Config.slack_bot_token config)) local
      fuel (Config.channel_id config) (Config.oldest_date config)
      (Config.newest_date config) true w1 = (Val messages, w2) /\
    messages <> [].
Proof.
  intros Hrun Hchange.
  destruct (driver_stages _ _ _ Hrun)
    as [[Hdisk Husers] |
        (config & d & info & w1 & messages & w2 & fetched &
         Hc & Hv & Hh & Hne & _)].
  - rewrite Hdisk, Husers in Hchange. by destruct Hchange as [? | [? | ?]].
  - by exists config, d, info, w1, messages, w2.
Qed.

Lemma validate_token_refused transport (w : World Srv) code s :
  transport (srv w) = (inl (SlackApiError code), s) ->
  validate_token transport w =
  (Exc (SlackApiException ("Token validation failed: " +:+ code) code),
   {| srv := s; history_calls := history_calls w; users_calls := users_calls w;
      progress_calls := progress_calls w |}).
Proof.
  intros Ht. unfold validate_token, try_except, bind, call. by rewrite Ht.
Qed.

(** X20. When the platform refuses the token with a remote error code,
    [download_channel_content] ends normally after the banner: it prints
    [Token validation failed: ] followed by the message of the exception,
    which begins with the same words, so the line reads [Token validation
    failed: Token validation failed: <code>]; no history is asked, no
    file is written and nothing is downloaded. *)
Theorem driver_reports_a_refused_token (h : Host Srv Net) config d code s :
  Config.from_env env (folders h) = (Val config, d) ->
  auth_test (Config.slack_bot_token config) (srv (platform h))
    = (inl (SlackApiError code), s) ->
  download_channel_content h =
  (Val tt,
   {| platform := {| srv := s;
                     history_calls := history_calls (platform h);
                     users_calls := users_calls (platform h);
                     progress_calls := progress_calls (platform h) |};
      disk := disk h;
      folders := d;
      stdout := stdout h ++ banner config ++
                ["Token validation failed: Token validation failed: " +:+ code] |}).
Proof.
  intros Hc Ht.
  rewrite (driver_with_configuration _ _ _ Hc).
  erewrite fetch_and_save_validation
    by (cbn [platform]; apply validate_token_refused, Ht).
  cbn [platform disk folders stdout]. reflexivity.
Qed.

(** X21. A date bound of the configuration that is no date is not
    caught: once the token is validated, [download_channel_content] ends
    with the [ValueError] of the conversion (of the oldest bound first),
    before any request for the history, and no file is written. *)
Theorem driver_lets_a_malformed_date_escape (h : Host Srv Net) config d info w1 e :
  Config.from_env env (folders h) = (Val config, d) ->
  validate_token (auth_test (Config.slack_bot_token config)) (platform h)
    = (Val info, w1) ->
  Utils.convert_date_to_ts local (Config.oldest_date config) = inl e \/
  (exists oldest_ts,
      Utils.convert_date_to_ts local (Config.oldest_date config) = inr oldest_ts) /\
  Utils.convert_date_to_ts local (Config.newest_date config) = inl e ->
  (exists message, e = ValueError message) /\
  download_channel_content h =
  (Exc e,
   {| platform := w1; disk := disk h; folders := d;
      stdout :=
        stdout h ++ banner config ++
        ["Authenticated as: " +:+ ai_user info +:+ " in workspace: " +:+ ai_team info;
         "Fetching messages from channel " +:+ Config.channel_id config +:+ "..."] |}) /\
  history_calls w1 = history_calls (platform h).
Proof.
  intros Hc Hv Hdate.
  assert (Hvalue : exists message, e = ValueError message).
  { destruct Hdate as [Hd | [_ Hd]]; by apply convert_date_to_ts_raises in Hd. }
  split; [done|]. split.
  - rewrite (driver_with_configuration _ _ _ Hc).
    assert (Hh : get_channel_history
                   (conversations_history (Config.slack_bot_token config)) local fuel
                   (Config.channel_id config) (Config.oldest_date config)
                   (Config.newest_date config) true w1 = (Exc e, w1)).
    { destruct Hvalue as [message ->].
      unfold get_channel_history, try_except, bind, lift, raise.
      destruct Hdate as [-> | [[o ->] ->]]; reflexivity. }
    rewrite (fetch_and_save_history config _ info w1 _ w1) by done.
    destruct Hvalue as [message ->]. cbv zeta. cbn [platform disk folders stdout].
    rewrite drop_all. cbn [map]. by rewrite app_nil_r.
  - by apply validate_token_cases in Hv as (? & _).
Qed.

Lemma bind_cases {W A B} (m : M W A) (k : A -> M W B) w r w' :
  bind m k w = (r, w') ->
  (exists a w1, m w = (Val a, w1) /\ k a w1 = (r, w')) \/
  (exists e, m w = (Exc e, w') /\ r = Exc e) \/
  (m w = (OutOfFuel, w') /\ r = OutOfFuel).
Proof.
  unfold bind. destruct (m w) as [[a | e |] w1]; intros Hrun.
  - left. by exists a, w1.
  - right. left. injection Hrun as <- <-. by exists e.
  - right. right. by injection Hrun as <- <-.
Qed.

Lemma get_users_frame transport (w : World Srv) r w' :
  get_users transport fuel w = (r, w') ->
  history_calls w' = history_calls w /\ progress_calls w' = progress_calls w.
Proof.
  unfold get_users, try_except.
  destruct (users_loop transport fuel None ∅ w) as [r0 w0] eqn:Hloop.
  apply users_loop_trace in Hloop as (answers & _ & Hh & Hp & _); [|by right].
  destruct r0 as [um | e |]; [by intros [= <- <-] | |by intros [= <- <-]].
  destruct e; by intros [= <- <-].
Qed.

(** The part that asks the directory, by the outcome of [get_users]. *)
Lemma resolve_users_cases config (h : Host Srv Net) ru w :
  get_users (users_list (Config.slack_bot_token config)) fuel (platform h) = (ru, w) ->
  resolve_users users_list fuel config h =
  match resolution ru with
  | Some (user_map, line) =>
      (Val user_map,
       {| platform := w; disk := disk h; folders := folders h;
          stdout := stdout h ++ ["Fetching user information..."; line] |})
  | None =>
      (match ru with Exc e => Exc e | _ => OutOfFuel end,
       {| platform := w; disk := disk h; folders := folders h;
          stdout := stdout h ++ ["Fetching user information..."] |})
  end.
Proof.
  intros Hu. pose proof (get_users_frame _ _ _ _ Hu) as [_ Hp].
  unfold resolve_users. rewrite bind_print.
  unfold try_except, bind at 1, with_platform.
  cbn [platform disk folders stdout]. rewrite Hu, Hp, drop_all. cbn [map].
  rewrite app_nil_r.
  destruct ru as [um | e |]; cbv beta iota; [| |reflexivity].
  - rewrite bind_print. unfold ret. cbn [platform disk folders stdout resolution].
    by rewrite <- app_assoc.
  - destruct e; try reflexivity.
    rewrite bind_print. unfold ret. cbn [platform disk folders stdout resolution str_of_exn].
    by rewrite <- app_assoc.
Qed.

(** The part that saves the messages, by the rows of the workbook. *)
Lemma save_messages_cases config messages user_map (h : Host Srv Net) :
  let json := export_path now config ".json" in
  let excel := export_path now config ".xlsx" in
  let saved :=
    {| files := <[Pathlib.Path json := json_dump messages]> (fs (disk h));
       directories := {[ Pathlib.parent (Pathlib.Path excel) ]} ∪
                      ({[ Pathlib.parent (Pathlib.Path json) ]} ∪ folders h) |} in
  save_messages local_time_text json_dump to_excel now config messages user_map h =
  match excel_rows local_time_text user_map messages [] with
  | inr rows =>
      (Val tt,
       {| platform := platform h;
          disk := {| net := net (disk h); requests := requests (disk h);
                     fs := <[Pathlib.Path excel := to_excel rows]> (files saved) |};
          folders := directories saved;
          stdout := stdout h ++
                    ["Saved " +:+ str_of_len messages +:+ " messages to " +:+
                     Pathlib.name json;
                     "Saved " +:+ str_of_len messages +:+ " messages to " +:+
                     Pathlib.name excel] |})
  | inl e =>
      (Exc e,
       {| platform := platform h;
          disk := {| net := net (disk h); requests := requests (disk h);
                     fs := files saved |};
          folders := directories saved;
          stdout := stdout h ++
                    ["Saved " +:+ str_of_len messages +:+ " messages to " +:+
                     Pathlib.name json] |})
  end.
Proof.
  intros json excel saved.
  assert (Hmap : (if truthy_map user_map then user_map else ∅) = user_map).
  { destruct (truthy_map user_map) eqn:Ht; [done|]. by apply truthy_map_false in Ht. }
  unfold save_messages. fold json. fold excel.
  unfold bind at 1, with_store at 1, save_to_json, bind at 1, mkdir at 1, modify at 1,
    bind at 1, write_file at 1, modify at 1, ret at 1.
  cbn [platform disk folders stdout files directories net requests fs].
  rewrite bind_print. cbn [platform disk folders stdout].
  unfold bind at 1, with_store at 1, save_to_excel, bind at 1, mkdir at 1, modify at 1.
  cbn [platform disk folders stdout files directories net requests fs].
  rewrite Hmap. unfold bind at 1, lift.
  destruct (excel_rows local_time_text user_map messages []) as [e | rows].
  - unfold raise. cbn [platform disk folders stdout files directories]. reflexivity.
  - unfold ret at 1, bind at 1, write_file, modify, ret at 1, print, modify.
    cbn [platform disk folders stdout files directories net requests fs].
    by rewrite <- app_assoc.
Qed.

Lemma summary_lines_printed config messages files_downloaded (h : Host Srv Net) :
  summary now config messages files_downloaded h =
  (Val tt,
   {| platform := platform h; disk := disk h; folders := folders h;
      stdout := stdout h ++
                summary_lines config (export_path now config ".json")
                  (export_path now config ".xlsx") messages files_downloaded |}).
Proof.
  unfold summary. rewrite !bind_print. rewrite bind_when_print.
  unfold print, modify. cbn [platform disk folders stdout].
  unfold summary_lines. by rewrite <- !app_assoc.
Qed.

(** Without downloads to make, the part that downloads leaves the disk
    and the network as they are. *)
Lemma download_attachments_idle config messages (h : Host Srv Net) :
  Config.download_files config = false \/ selected config messages = [] ->
  exists lines,
    download_attachments requests_get config messages h =
    (Val [],
     {| platform := platform h; disk := disk h; folders := folders h;
        stdout := stdout h ++ lines |}) /\
    (Config.download_files config = false -> lines = []).
Proof.
  unfold download_attachments, selected.
  destruct (Config.download_files config) eqn:Hd.
  - intros [? | ->]; [done|]. cbn [truthy_list]. rewrite bind_print.
    eexists. split; [reflexivity | done].
  - intros _. exists nil. unfold ret. rewrite app_nil_r. by destruct h.
Qed.

Lemma resolve_users_disk config (h : Host Srv Net) r h1 :
  resolve_users users_list fuel config h = (r, h1) -> disk h1 = disk h.
Proof.
  destruct (get_users (users_list (Config.slack_bot_token config)) fuel (platform h))
    as [ru w] eqn:Hu.
  rewrite (resolve_users_cases config _ ru w) by exact Hu.
  destruct (resolution ru) as [[um line]|]; by intros [= _ <-].
Qed.

Lemma save_messages_requests config messages user_map (h : Host Srv Net) r h1 :
  save_messages local_time_text json_dump to_excel now config messages user_map h
    = (r, h1) ->
  requests (disk h1) = requests (disk h).
Proof.
  rewrite save_messages_cases. cbv zeta.
  destruct (excel_rows _ _ _ _); by intros [= _ <-].
Qed.

(** X22. [download_channel_content] asks the network for a file only
    when the configuration enables downloads and the messages returned
    hold at least one attachment that passes the filter of file types (all
    attachments when the list of file types is empty): with
    [DOWNLOAD_FILES] off, or without such an attachment, no request
    leaves for the network, whatever else happens. *)
Theorem driver_downloads_only_when_enabled (h : Host Srv Net) r h' :
  download_channel_content h = (r, h') ->
  requests (disk h') <> requests (disk h) ->
  exists config d info w1 messages w2,
    Config.from_env env (folders h) = (Val config, d) /\
    validate_token (auth_test (Config.slack_bot_token config)) (platform h)
      = (Val info, w1) /\
    get_channel_history (conversations_history (Config.slack_bot_token config)) local
      fuel (Config.channel_id config) (Config.oldest_date config)
      (Config.newest_date config) true w1 = (Val messages, w2) /\
    Config.download_files config = true /\
    Extract.extract_files_from_messages messages
      (if truthy_list (Some (Config.file_types config))
       then Some (Config.file_types config) else None) <> [].
Proof.
  intros Hrun Hchange.
  destruct (driver_stages _ _ _ Hrun)
    as [[Hdisk _] |
        (config & d & info & w1 & messages & w2 & fetched &
         Hc & Hv & Hh & _ & Hdisk & _ & _ & Hsave)].
  { by rewrite Hdisk in Hchange. }
  exists config, d, info, w1, messages, w2. repeat (split; [done|]).
  rewrite <- Hdisk in Hchange. clear Hrun Hc Hv Hh Hdisk.
  unfold Main.save_and_download in Hsave. rewrite bind_print in Hsave.
  apply bind_cases in Hsave
    as [(user_map & h1 & Hresolve & Hsave) | [(e & Hresolve & _) | [Hresolve _]]];
    apply resolve_users_disk in Hresolve; cbn [disk] in Hresolve;
    rewrite <- Hresolve in Hchange; [|done..].
  clear Hresolve.
  apply bind_cases in Hsave
    as [([] & h2 & Hexport & Hsave) | [(e & Hexport & _) | [Hexport _]]];
    apply save_messages_requests in Hexport;
    rewrite <- Hexport in Hchange; [|done..].
  clear Hexport.
  destruct (Config.download_files config) eqn:Hd;
    [destruct (selected config messages) as [|f files] eqn:Hfiles|].
  - exfalso.
    destruct (download_attachments_idle config messages h2) as (lines & Hidle & _);
      [by right|].
    unfold bind in Hsave. rewrite Hidle, summary_lines_printed in Hsave.
    injection Hsave as _ <-. by apply Hchange.
  - split; [done|]. fold (selected config messages). by rewrite Hfiles.
  - exfalso.
    destruct (download_attachments_idle config messages h2) as (lines & Hidle & _);
      [by left|].
    unfold bind in Hsave. rewrite Hidle, summary_lines_printed in Hsave.
    injection Hsave as _ <-. by apply Hchange.
Qed.

Lemma download_attachments_off config messages (h : Host Srv Net) :
  Config.download_files config = false ->
  download_attachments requests_get config messages h = (Val [], h).
Proof. intros Hoff. unfold download_attachments. by rewrite Hoff. Qed.

(** X23. With downloads off, when the history has messages and every
    timestamp can be read, [download_channel_content] ends normally and
    leaves exactly two new files: the JSON text of the messages and the
    workbook of their rows, both named [channel_<id>_<time>] in the
    messages directory. A directory that fails with [SlackApiException]
    does not stop the run: a warning is printed and the workbook is made
    with the empty mapping, so authors are shown by identifier and
    mentions stay as they are. *)
Theorem driver_saves_both_exports
    (h : Host Srv Net) config d info w1 messages w2 ru w3 user_map line rows :
  Config.from_env env (folders h) = (Val config, d) ->
  validate_token (auth_test (Config.slack_bot_token config)) (platform h)
    = (Val info, w1) ->
  get_channel_history (conversations_history (Config.slack_bot_token config)) local
    fuel (Config.channel_id config) (Config.oldest_date config)
    (Config.newest_date config) true w1 = (Val messages, w2) ->
  messages <> [] ->
  get_users (users_list (Config.slack_bot_token config)) fuel w2 = (ru, w3) ->
  resolution ru = Some (user_map, line) ->
  Forall2 (shows local_time_text user_map) messages rows ->
  Config.download_files config = false ->
  let json := export_path now config ".json" in
  let excel := export_path now config ".xlsx" in
  download_channel_content h =
  (Val tt,
   {| platform := w3;
      disk := {| net := net (disk h);
                 requests := requests (disk h);
                 fs := <[Pathlib.Path excel := to_excel rows]>
                         (<[Pathlib.Path json := json_dump messages]> (fs (disk h))) |};
      folders := {[ Pathlib.parent (Pathlib.Path excel) ]} ∪
                 ({[ Pathlib.parent (Pathlib.Path json) ]} ∪ d);
      stdout :=
        stdout h ++ banner config ++
        ["Authenticated as: " +:+ ai_user info +:+ " in workspace: " +:+ ai_team info;
         "Fetching messages from channel " +:+ Config.channel_id config +:+ "..."] ++
        map on_progress (drop (length (progress_calls w1)) (progress_calls w2)) ++
        ["Total messages found: " +:+ str_of_len messages;
         "Fetching user information...";
         line;
         "Saved " +:+ str_of_len messages +:+ " messages to " +:+ Pathlib.name json;
         "Saved " +:+ str_of_len messages +:+ " messages to " +:+ Pathlib.name excel] ++
        summary_lines config json excel messages [] |}) /\
  (forall message code, ru = Exc (SlackApiException message code) ->
     user_map = ∅ /\ line = "Warning: Could not fetch user info: " +:+ message).
Proof.
  intros Hc Hv Hh Hne Hu Hres Hrows Hoff json excel. split.
  - rewrite (driver_with_configuration _ _ _ Hc).
    rewrite (fetch_and_save_history config _ info w1 _ w2) by done.
    destruct messages as [|m0 messages0]; [done|].
    set (messages := m0 :: messages0) in *. cbv zeta.
    unfold Main.save_and_download. rewrite bind_print.
    unfold bind at 1. erewrite resolve_users_cases by exact Hu.
    rewrite Hres. unfold bind at 1. rewrite save_messages_cases. cbv zeta.
    rewrite (excel_rows_shown _ _ _ rows []) by done. cbn [app].
    unfold bind. rewrite download_attachments_off by done.
    rewrite summary_lines_printed.
    cbn [platform disk folders stdout]. fold json. fold excel.
    f_equal. f_equal. rewrite <- !app_assoc. reflexivity.
  - intros message code ->. by injection Hres as <- <-.
Qed.

End DriverFacts.

Section RunFacts.
Import Client ClientSpec ClientInfo Downloader Exporters Main Scenario Outage Runs RunSpec.

(** The environment [quiet] gives a complete configuration, with the
    download flag off and two file types. *)
Lemma quiet_configuration :
  fst (Config.from_env quiet ∅) = Val quiet_config /\
  Config.slack_bot_token quiet_config <> EmptyString /\
  Forall FileTypesSpec.trimmed (Config.file_types quiet_config).
Proof.
  pose proof (from_env_gives_a_complete_configuration quiet ∅
                (Val quiet_config) (snd (Config.from_env quiet ∅))) as H.
  cbv beta iota in H.
  destruct H as (_ & Htoken & _ & _ & _ & _ & Htypes & _).
  - vm_compute. reflexivity.
  - split; [vm_compute; reflexivity|]. by split.
Defined.

(** The run [quiet_run] wrote files, so it had a configuration, a valid
    token and messages. *)
Lemma quiet_run_had_messages :
  exists config d info w1 messages w2,
    Config.from_env quiet (folders start) = (Val config, d) /\
    validate_token (welcome (Config.slack_bot_token config)) (platform start)
      = (Val info, w1) /\
    get_channel_history stuck utc 5 (Config.channel_id config)
      (Config.oldest_date config) (Config.newest_date config) true w1
      = (Val messages, w2) /\
    messages <> [].
Proof.
  apply (driver_acts_only_on_messages welcome (fun _ => stuck) (fun _ => throttled)
           web utc clock as_json as_workbook quiet "20240301_120000" 5 start
           (fst quiet_run) (snd quiet_run)).
  - unfold quiet_run. by destruct (download_channel_content _ _ _ _ _ _ _ _ _ _ _ _).
  - left. intros Heq.
    apply (f_equal (fun m => m !! "slack_messages/channel_C42_20240301_120000.json"))
      in Heq.
    vm_compute in Heq. discriminate.
Defined.

(** A token that the platform refuses ends the run after the banner. *)
Lemma refused_token_run :
  stdout (snd (download_channel_content unwelcome (fun _ => stuck) (fun _ => throttled)
                 web utc clock as_json as_workbook quiet "20240301_120000" 5 start))
  = [nl +:+ "=== Slack Channel Content Downloader ===";
     "Channel ID: C42";
     "Download files: No";
     "======================================" +:+ nl;
     "Validating Slack token...";
     "Token validation failed: Token validation failed: invalid_auth"].
Proof.
  rewrite (driver_reports_a_refused_token unwelcome (fun _ => stuck) (fun _ => throttled)
             web utc clock as_json as_workbook quiet "20240301_120000" 5 start
             quiet_config (snd (Config.from_env quiet ∅)) "invalid_auth" 1%nat).
  - vm_compute. reflexivity.
  - vm_compute. reflexivity.
  - vm_compute. reflexivity.
Defined.

(** A newest date that is no date ends the run with [ValueError]. *)
Lemma misdated_run :
  fst (download_channel_content welcome (fun _ => stuck) (fun _ => throttled)
         web utc clock as_json as_workbook misdated "20240301_120000" 5 start)
  = Exc (ValueError "day is out of range for month").
Proof.
  destruct (driver_lets_a_malformed_date_escape welcome (fun _ => stuck)
              (fun _ => throttled) web utc clock as_json as_workbook misdated
              "20240301_120000" 5 start
              {| Config.slack_bot_token := "xoxb-token";
                 Config.channel_id := "C42";
                 Config.download_dir := "slack_files";
                 Config.messages_dir := "slack_messages";
                 Config.download_files := false;
                 Config.file_types := ["pdf"; "png"];
                 Config.oldest_date := None;
                 Config.newest_date := Some "2024-02-30" |}
              (snd (Config.from_env misdated ∅))
              (mkAuthInfo "exporter" "Example" "U0" "T0")
              {| srv := 1%nat; history_calls := []; users_calls := [];
                 progress_calls := [] |}
              (ValueError "day is out of range for month"))
    as (_ & Hrun & _).
  - vm_compute. reflexivity.
  - reflexivity.
  - right. split; [by exists None | reflexivity].
  - by rewrite Hrun.
Defined.

(** The run [eager_run] asked the network, so downloads were on and an
    attachment was selected. *)
Lemma eager_run_was_enabled :
  exists config d,
    Config.from_env eager (folders start) = (Val config, d) /\
    Config.download_files config = true.
Proof.
  destruct (driver_downloads_only_when_enabled welcome attached (fun _ => directory)
              web utc clock as_json as_workbook eager "20240301_120000" 5 start
              (fst eager_run) (snd eager_run))
    as (config & d & info & w1 & messages & w2 & Hc & _ & _ & Hon & _).
  - unfold eager_run. by destruct (download_channel_content _ _ _ _ _ _ _ _ _ _ _ _).
  - vm_compute. discriminate.
  - by exists config, d.
Defined.

(** The run [quiet_run] leaves the two exports, although the directory was
    refused. *)
Lemma quiet_run_exports :
  fst quiet_run = Val tt /\
  fs (disk (snd quiet_run)) !! "slack_messages/channel_C42_20240301_120000.json"
  = Some "[3 messages]" /\
  fs (disk (snd quiet_run)) !! "slack_messages/channel_C42_20240301_120000.xlsx"
  = Some "[3 rows]" /\
  In "Warning: Could not fetch user info: Failed to fetch users: ratelimited"
     (stdout (snd quiet_run)).
Proof.
  destruct (driver_saves_both_exports welcome (fun _ => stuck) (fun _ => throttled)
              web utc clock as_json as_workbook quiet "20240301_120000" 5 start
              quiet_config (snd (Config.from_env quiet ∅))
              (mkAuthInfo "exporter" "Example" "U0" "T0")
              {| srv := 1%nat; history_calls := []; users_calls := [];
                 progress_calls := [] |}
              (repeat sample_message 3)
              (snd (get_channel_history stuck utc 5 "C42" None None true
                      {| srv := 1%nat; history_calls := []; users_calls := [];
                         progress_calls := [] |}))
              (Exc (SlackApiException "Failed to fetch users: ratelimited" "ratelimited"))
              (snd (get_users throttled 5
                      (snd (get_channel_history stuck utc 5 "C42" None None true
                              {| srv := 1%nat; history_calls := []; users_calls := [];
                                 progress_calls := [] |}))))
              ∅ "Warning: Could not fetch user info: Failed to fetch users: ratelimited"
              (repeat (mkRow "U123" "hello" "at 1700000000.000100") 3))
    as [Hrun _].
  - vm_compute. reflexivity.
  - reflexivity.
  - reflexivity.
  - discriminate.
  - reflexivity.
  - reflexivity.
  - repeat constructor.
  - reflexivity.
  - unfold quiet_run. rewrite Hrun. cbn [fst snd disk fs stdout].
    split; [reflexivity|]. split; [vm_compute; reflexivity|].
    split; [vm_compute; reflexivity|].
    vm_compute. auto 20.
Defined.

End RunFacts.
